(** * Sunblocker: a shallow embedding of the flagging engine

    The flagging code of [sunblocker/sunblocker.py] is embedded as Rocq
    functions.  Numbers are IEEE-754 binary64 (Python's [float], numpy's
    [float64] and [complex128]), modelled by Rocq's primitive floats; the
    visibilities of a measurement set are [complex64], whose arithmetic
    rounds to binary32.  Python exceptions are an explicit error monad; the
    measurement sets on disk are a finite map from names to tables.  The
    numerical routines that the code imports (numpy, astropy) are written
    out in [Module Np]; the routines of the C library and of scipy,
    matplotlib and the ephemeris ([hypot], [exp], [curve_fit], ...) remain
    parameters of the sections that use them. *)

From Stdlib Require Import Floats ZArith List Bool String Lia.
From stdpp Require Import gmap strings.
Import ListNotations.

Set Warnings "-inexact-float".

Open Scope float_scope.
Open Scope string_scope.
Open Scope list_scope.

(** ** Python exceptions as an error monad *)

Module Py.

Inductive exn : Type :=
| UnboundLocalError (var : string)
| IndexError
| TypeError
| ValueError
| ZeroDivisionError
| OverflowError
| RuntimeError
| OutOfSteps.   (* not a Python exception: the step budget given to a
                   [while] loop of the model ran out *)

Inductive result (A : Type) : Type :=
| Ok (a : A)
| Raise (e : exn).

Arguments Ok {A} a.
Arguments Raise {A} e.

Definition bind {A B : Type} (m : result A) (k : A -> result B) : result B :=
  match m with
  | Ok a => k a
  | Raise e => Raise e
  end.

Definition bind_flip {A B : Type} (k : A -> result B) (m : result A) : result B :=
  bind m k.

(** [x != None]. *)
Definition is_not_none {A : Type} (x : option A) : bool :=
  match x with Some _ => true | None => false end.

(** Reading a local variable that no executed assignment has bound yet. *)
Definition read_local {A : Type} (name : string) (slot : option A) : result A :=
  match slot with
  | Some v => Ok v
  | None => Raise (UnboundLocalError name)
  end.

(** [a[i]] on a one-dimensional array, with Python's negative indices. *)
Definition index {A : Type} (a : list A) (i : Z) : result A :=
  let n := Z.of_nat (List.length a) in
  let j := (if i <? 0 then n + i else i)%Z in
  if ((j <? 0) || (n <=? j))%Z then Raise IndexError
  else match nth_error a (Z.to_nat j) with
       | Some v => Ok v
       | None => Raise IndexError
       end.

(** A loop that builds one result per element and stops at the first
    exception. *)
Fixpoint mapM {A B : Type} (f : A -> result B) (l : list A) : result (list B) :=
  match l with
  | [] => Ok []
  | x :: t =>
      match f x with
      | Ok y => match mapM f t with
                | Ok ys => Ok (y :: ys)
                | Raise e => Raise e
                end
      | Raise e => Raise e
      end
  end.

End Py.

Import Py.

#[global] Instance result_ret : MRet Py.result := @Py.Ok.
#[global] Instance result_bind : MBind Py.result := @Py.bind_flip.

(** ** Single precision *)

(** numpy's [float32] arithmetic on numbers held as binary64: the exact
    result rounded to binary32 (24 bits of precision, exponents up to
    128), to nearest with ties to even. *)
Module F32.

Definition prec : Z := 24.
Definition emax : Z := 128.

Definition add (x y : float) : float :=
  SF2Prim (SFadd prec emax (Prim2SF x) (Prim2SF y)).

Definition sub (x y : float) : float :=
  SF2Prim (SFsub prec emax (Prim2SF x) (Prim2SF y)).

Definition mul (x y : float) : float :=
  SF2Prim (SFmul prec emax (Prim2SF x) (Prim2SF y)).

End F32.

(** ** Complex samples *)

Module Cx.

(** A complex number, real and imaginary part. *)
Definition t : Type := (float * float)%type.

Definition of_float (x : float) : t := (x, 0).

Definition of_bool (b : bool) : t := ((if b then 1 else 0), 0).

Definition add (a b : t) : t := (fst a + fst b, snd a + snd b).

Definition sub (a b : t) : t := (fst a - fst b, snd a - snd b).

Definition mul (a b : t) : t :=
  (fst a * fst b - snd a * snd b, fst a * snd b + snd a * fst b).

(** The same on [complex64] operands. *)
Definition add32 (a b : t) : t := (F32.add (fst a) (fst b), F32.add (snd a) (snd b)).

Definition sub32 (a b : t) : t := (F32.sub (fst a) (fst b), F32.sub (snd a) (snd b)).

Definition mul32 (a b : t) : t :=
  (F32.sub (F32.mul (fst a) (fst b)) (F32.mul (snd a) (snd b)),
   F32.add (F32.mul (fst a) (snd b)) (F32.mul (snd a) (fst b))).

(** numpy's complex division. *)
Definition div (a b : t) : t :=
  let '(ar, ai) := a in
  let '(br, bi) := b in
  let br_abs := PrimFloat.abs br in
  let bi_abs := PrimFloat.abs bi in
  if PrimFloat.leb bi_abs br_abs then
    if PrimFloat.eqb br_abs 0 && PrimFloat.eqb bi_abs 0
    then (ar / br_abs, ai / br_abs)
    else let rat := bi / br in
         let scl := 1 / (br + bi * rat) in
         ((ar + ai * rat) * scl, (ai - ar * rat) * scl)
  else let rat := br / bi in
       let scl := 1 / (bi + br * rat) in
       ((ar * rat + ai) * scl, (ai * rat - ar) * scl).

Definition isnan (z : t) : bool :=
  PrimFloat.is_nan (fst z) || PrimFloat.is_nan (snd z).

(** [np.nan] stored in a complex array. *)
Definition nan : t := (PrimFloat.nan, 0).

(** [np.abs] on a [complex128] array: the C library's [hypot] of the two
    parts. *)
Definition abs (hypot : float -> float -> float) (z : t) : float :=
  hypot (fst z) (snd z).

End Cx.

(** ** numpy and astropy routines on float64 arrays *)

Module Np.

(** [x >= y], false as soon as one side is NaN. *)
Definition ge (x y : float) : bool := PrimFloat.leb y x.

Definition isfinite (x : float) : bool := PrimFloat.is_finite x.

Definition of_nat (n : nat) : float := PrimFloat.of_uint63 (Uint63.of_nat n).

Definition zeros_bool (n : nat) : list bool := repeat false n.


(** Order used by [np.sort]: NaN goes last. *)
Definition lt_nanlast (x y : float) : bool :=
  if PrimFloat.is_nan y then negb (PrimFloat.is_nan x) else PrimFloat.ltb x y.

Fixpoint insert_sorted (x : float) (l : list float) : list float :=
  match l with
  | [] => [x]
  | h :: t => if lt_nanlast x h then x :: h :: t else h :: insert_sorted x t
  end.

Definition sort (l : list float) : list float :=
  fold_right insert_sorted [] l.

Definition same (x y : float) : bool :=
  PrimFloat.eqb x y || (PrimFloat.is_nan x && PrimFloat.is_nan y).

Fixpoint dedup_sorted (l : list float) : list float :=
  match l with
  | [] => []
  | x :: t =>
      match t with
      | [] => [x]
      | y :: _ => if same x y then dedup_sorted t else x :: dedup_sorted t
      end
  end.

(** [np.unique]: the sorted distinct values. *)
Definition unique (l : list float) : list float := dedup_sorted (sort l).

(** The sums of numpy are pairwise ([pairwise_sum] of its inner loops).
    With [n] the count of doubles ([per] of them in an element: one in a
    real, two in a complex number): fewer than 8 are added in order from
    0; up to 128 go through 8 running sums, one per position modulo 8,
    which are then added as a tree, and what follows the last full block
    of 8 is added in order; more are split in two parts, the first a
    multiple of 8 long. *)
Definition add_lanes (r a : list float) : list float :=
  map (fun p : float * float => fst p + snd p) (combine r a).

Fixpoint lanes (w fuel : nat) (r l : list float) : list float * list float :=
  match fuel with
  | O => (r, l)
  | S fuel' =>
      if Nat.leb w (List.length l)
      then lanes w fuel' (add_lanes r (firstn w l)) (skipn w l)
      else (r, l)
  end.

Definition tree (r : list float) : float :=
  match r with
  | [r0; r1; r2; r3; r4; r5; r6; r7] => ((r0 + r1) + (r2 + r3)) + ((r4 + r5) + (r6 + r7))
  | [r0; r2; r4; r6] => (r0 + r2) + (r4 + r6)
  | _ => 0
  end.

Definition block_sum (w : nat) (l : list float) : float :=
  let '(r, rest) := lanes w (List.length l) (firstn w l) (skipn w l) in
  fold_left PrimFloat.add rest (tree r).

Fixpoint pairwise_sum (per fuel : nat) (l : list float) : float :=
  let n := (List.length l * per)%nat in
  if Nat.ltb n 8 then fold_left PrimFloat.add l 0
  else if Nat.leb n 128 then block_sum (8 / per) l
  else match fuel with
       | O => block_sum (8 / per) l
       | S fuel' =>
           let n2 := (n / 2 - (n / 2) mod 8)%nat in
           pairwise_sum per fuel' (firstn (n2 / per) l)
           + pairwise_sum per fuel' (skipn (n2 / per) l)
       end.

(** [np.sum] over the one axis of a [float64] array: the pairwise sum is
    added to the identity 0. *)
Definition sum (l : list float) : float := 0 + pairwise_sum 1 (List.length l) l.

(** The same for a [complex128] array, part by part. *)
Definition csum (l : list Cx.t) : Cx.t :=
  (0 + pairwise_sum 2 (List.length l) (map fst l),
   0 + pairwise_sum 2 (List.length l) (map snd l)).

(** A sum along the first axis of an array with two or more columns runs
    over the rows in order, from 0. *)
Definition sum_seq (l : list float) : float := fold_left PrimFloat.add l 0.

(** [np.mean]; the empty mean is 0/0 = NaN. *)
Definition mean (l : list float) : float := sum l / of_nat (List.length l).

(** [np.average(a, axis=0)] for one of several columns. *)
Definition mean_seq (l : list float) : float := sum_seq l / of_nat (List.length l).

Definition drop_nan (l : list float) : list float :=
  List.filter (fun x => negb (PrimFloat.is_nan x)) l.

(** [np.nanmean]: the NaN entries are replaced by 0 where they stand, and
    the sum is divided by the count of the others. *)
Definition nanmean (l : list float) : float :=
  sum (map (fun x => if PrimFloat.is_nan x then 0 else x) l)
  / of_nat (List.length (drop_nan l)).

(** [np.nanstd]. *)
Definition nanstd (l : list float) : float :=
  let cnt := of_nat (List.length (drop_nan l)) in
  let avg := sum (map (fun x => if PrimFloat.is_nan x then 0 else x) l) / cnt in
  let dev := map (fun x => if PrimFloat.is_nan x then 0 else x - avg) l in
  PrimFloat.sqrt (sum (map (fun d => d * d) dev) / cnt).

(** [np.median]: NaN when an entry is NaN or the array is empty, otherwise
    the middle of the sorted values (the mean of the two middle ones for an
    even count). *)
Definition median (l : list float) : float :=
  if existsb PrimFloat.is_nan l then nan
  else
    let s := sort l in
    let n := List.length s in
    if Nat.eqb n 0 then nan
    else if Nat.even n
         then (nth (n / 2 - 1) s nan + nth (n / 2) s nan) / 2
         else nth (n / 2) s nan.

Definition nanmedian (l : list float) : float := median (drop_nan l).

(** [astropy.stats.mad_std]: the median absolute deviation scaled to a
    standard deviation. *)
Definition mad_std (l : list float) : float :=
  let m := median l in
  median (map (fun x => PrimFloat.abs (x - m)) l) * 1.482602218505602.

(** One pass of [SigmaClip._sigmaclip_noaxis] with [cenfunc = np.nanmedian]
    and [stdfunc = mad_std]: keep what lies within [sigma] robust deviations
    of the centre. *)
Definition clip_pass (sigma : float) (xs : list float) : list float :=
  let cen := nanmedian xs in
  let sd := mad_std xs in
  let lo := cen - sd * sigma in
  let hi := cen + sd * sigma in
  List.filter (fun x => PrimFloat.leb lo x && PrimFloat.leb x hi) xs.

Fixpoint clip_iter (fuel : nat) (sigma : float) (xs : list float) : list float :=
  match fuel with
  | O => xs
  | S fuel' =>
      let ys := clip_pass sigma xs in
      if Nat.eqb (List.length ys) (List.length xs) then xs
      else clip_iter fuel' sigma ys
  end.

(** [sigma_clip(a, sigma, maxiters=None, masked=False)] with [axis=None]:
    the non-finite entries are dropped, then passes repeat until one of
    them removes nothing; the retained values are returned.  Every
    repeating pass shortens the array, so [length a + 1] passes suffice. *)
Definition sigma_clip (a : list float) (sigma : float) : list float :=
  let xs := List.filter isfinite a in
  clip_iter (S (List.length xs)) sigma xs.

(** [np.linspace(start, stop, num)] for [num >= 2]. *)
Definition linspace (start stop : float) (num : nat) : list float :=
  let step := (stop - start) / of_nat (num - 1) in
  map (fun i => of_nat i * step + start) (seq 0 (num - 1)) ++ [stop].

Fixpoint amin (l : list float) (acc : float) : float :=
  match l with
  | [] => acc
  | x :: t => amin t (if PrimFloat.ltb x acc then x else acc)
  end.

Fixpoint amax (l : list float) (acc : float) : float :=
  match l with
  | [] => acc
  | x :: t => amax t (if PrimFloat.ltb acc x then x else acc)
  end.

Fixpoint pairs_of (edges : list float) : list (float * float) :=
  match edges with
  | lo :: ((hi :: _) as t) => (lo, hi) :: pairs_of t
  | _ => []
  end.

(** [np.histogram(a, bins)] on finite data: [bins] equal cells between
    the minimum and the maximum (between 0 and 1 for an empty array, half
    a unit either side of a single value), every cell half-open but the
    last. *)
Definition histogram (a : list float) (bins : nat) : list nat * list float :=
  let first := match a with [] => 0 | x :: t => amin t x end in
  let last := match a with [] => 1 | x :: t => amax t x end in
  let '(first, last) :=
    if PrimFloat.eqb first last then (first - 0.5, last + 0.5) else (first, last) in
  let edges := linspace first last (S bins) in
  let cells := pairs_of edges in
  let nb := List.length cells in
  let count (k : nat) (c : float * float) :=
    List.length
      (List.filter
         (fun x => PrimFloat.leb (fst c) x &&
                   (if Nat.eqb (S k) nb then PrimFloat.leb x (snd c)
                    else PrimFloat.ltb x (snd c))) a) in
  (map (fun kc => count (fst kc) (snd kc)) (combine (seq 0 nb) cells), edges).

(** [a.max()]: NaN as soon as an entry is NaN. *)
Definition max (l : list float) : float :=
  if existsb PrimFloat.is_nan l then nan
  else match l with [] => nan | x :: t => amax t x end.

Definition nanmax (l : list float) : float := max (drop_nan l).

(** [a.min()]. *)
Definition min (l : list float) : float :=
  if existsb PrimFloat.is_nan l then nan
  else match l with [] => nan | x :: t => amin t x end.

(** The integer part of a finite number, rounded down. *)
Definition floor_Z (x : float) : Z :=
  match Prim2SF x with
  | S754_finite s m e =>
      let v := if s then Z.neg m else Z.pos m in
      if (0 <=? e)%Z then (v * 2 ^ e)%Z else (v / 2 ^ (- e))%Z
  | _ => 0%Z
  end.

Definition of_Z (z : Z) : float :=
  if (z <? 0)%Z then - PrimFloat.of_uint63 (Uint63.of_Z (- z))
  else PrimFloat.of_uint63 (Uint63.of_Z z).

(** [np.floor] and [np.ceil]; a zero keeps its sign, and beyond 2^52
    every number is whole. *)
Definition floor (x : float) : float :=
  if PrimFloat.eqb x 0 then x
  else if PrimFloat.is_finite x && PrimFloat.ltb (PrimFloat.abs x) 4503599627370496
       then of_Z (floor_Z x) else x.

Definition ceil (x : float) : float := - floor (- x).

(** [np.arange(start, stop, step)] on [float64] bounds.  The length is
    [ceil((stop - start) / step)]: a NaN there raises [ValueError], a value
    beyond the range of an index [OverflowError]; a quotient that is zero
    for a span that is not gives one value (none for a negative zero).
    The values are [start], [start + step], and then [start + i * delta]
    with [delta] the difference of these two.  Memory is not bounded. *)
Definition arange (start stop step : float) : result (list float) :=
  let span := stop - start in
  let value := span / step in
  let ivalue := ceil value in
  if PrimFloat.is_nan ivalue then Raise ValueError
  else if negb (PrimFloat.leb (-9223372036854775808) ivalue
                && PrimFloat.leb ivalue 9223372036854775808)
       then Raise OverflowError
       else
         let len :=
           if PrimFloat.eqb value 0 && negb (PrimFloat.eqb span 0)
           then (if PrimFloat.get_sign value then 0 else 1)%nat
           else Z.to_nat (floor_Z ivalue) in
         let delta := (start + step) - start in
         Ok (match len with
             | O => []
             | S O => [start]
             | S (S n) =>
                 start :: (start + step)
                 :: map (fun i => start + of_nat i * delta) (seq 2 n)
             end).

(** Product of two boolean arrays, with numpy's broadcasting of a
    one-element array; other length mismatches raise. *)
Definition mul_bool (a b : list bool) : result (list bool) :=
  if Nat.eqb (List.length a) (List.length b)
  then Ok (map (fun p => andb (fst p) (snd p)) (combine a b))
  else match a, b with
       | [x], _ => Ok (map (andb x) b)
       | _, [y] => Ok (map (fun x => andb x y) a)
       | _, _ => Raise ValueError
       end.

Definition logical_not (a : list bool) : list bool := map negb a.

(** [a |= b] on boolean arrays of one shape. *)
Definition or_bool (a b : list bool) : result (list bool) :=
  if Nat.eqb (List.length a) (List.length b)
  then Ok (map (fun p : bool * bool => orb (fst p) (snd p)) (combine a b))
  else Raise ValueError.

(** [a[rows, :] |= True] on a one-dimensional array [a]: there is no
    second axis to index, numpy raises "too many indices for array". *)
Definition or_rows_all_cols_1d (a rows : list bool) : result (list bool) :=
  Raise IndexError.

Fixpoint insert_Z (x : Z) (l : list Z) : list Z :=
  match l with
  | [] => [x]
  | h :: t => if (x <? h)%Z then x :: h :: t
              else if (x =? h)%Z then h :: t
                   else h :: insert_Z x t
  end.

(** [np.unique] on integers. *)
Definition unique_Z (l : list Z) : list Z := fold_right insert_Z [] l.

(** [np.nansum(rows, axis=0)] on [complex128] rows: the NaN entries count
    as zero.  With two or more columns the rows are added in order, from
    0; a single column is one array, summed pairwise. *)
Definition nansum_rows (rows : list (list Cx.t)) : list Cx.t :=
  let clean := map (fun z => if Cx.isnan z then Cx.of_float 0 else z) in
  match rows with
  | [] => []
  | [_] :: _ => [csum (map (fun r => hd (Cx.of_float 0) (clean r)) rows)]
  | r :: _ =>
      fold_left (fun acc row =>
                   map (fun p : Cx.t * Cx.t => Cx.add (fst p) (snd p))
                       (combine acc (clean row)))
                rows (map (fun _ => Cx.of_float 0) r)
  end.

(** [a[sel]] for a boolean selector. *)
Definition select {A : Type} (sel : list bool) (a : list A) : list A :=
  map snd (List.filter (fun p : bool * A => fst p) (combine sel a)).

(** [a[sel] = x]. *)
Definition assign {A : Type} (sel : list bool) (x : A) (a : list A) : list A :=
  map (fun p : bool * A => if fst p then x else snd p) (combine sel a).

(** [np.argmax]: the first position of the largest count. *)
Fixpoint argmax_from (l : list nat) (i best_i best : nat) : nat :=
  match l with
  | [] => best_i
  | x :: t => if Nat.ltb best x then argmax_from t (S i) i x
              else argmax_from t (S i) best_i best
  end.

Definition argmax (l : list nat) : nat :=
  match l with
  | [] => 0
  | x :: t => argmax_from t 1 0 x
  end.

End Np.

(** ** Python numbers *)

(** [float(n)], the conversion that [n * x] applies to an integer: the
    nearest binary64 number, ties to even, and [OverflowError] where that
    would be infinite. *)
Definition float_of_int (n : Z) : result float :=
  if (Z.abs n <? 2 ^ 63)%Z then Ok (Np.of_Z n)
  else match binary_normalize 53 1024 n 0 false with
       | S754_infinity _ => Raise OverflowError
       | x => Ok (SF2Prim x)
       end.

(** ** [Sunblocker.histoclip] *)

(** What a call draws on the axes it is given. *)
Inductive draw_cmd : Type :=
| Hist (values : list float) (bins : nat) (label : string)
| Plot (xs ys : list float) (label : string)
| Axvline (x : float)
| SetXlim (lo hi : float)
| SetTitle (title : string)
| SetXlabel (label : string)
| SetYlabel (label : string)
| Legend.

(** A matplotlib axes, as [plt.subplot(nrows, ncols, index)] hands it out. *)
Inductive Axes : Type :=
| Subplot (nrows ncols index : nat).

(** The local variables bound by the fitting block of [histoclip]. *)
Record fit_locals : Type := mkFit {
  bin_centers : list float;
  widthes : list float;
  popt : float * float * float   (* centre, amplitude, sigma *)
}.

Section Histoclip.

(** [np.exp]. *)
Variable exp : float -> float.

(** [scipy.optimize.curve_fit(f, xdata, ydata, p0)]: the fitted
    parameters, or [None] when it raises. *)
Variable curve_fit :
  (float -> float -> float -> float -> float) ->
  list float -> list nat -> float * float * float -> option (float * float * float).

(** The bar heights [ax.hist(values, bins, density=True)] returns. *)
Variable ax_hist : list float -> nat -> list float.

(** Line 86: [amp * np.exp(-0.5 * np.power((x - cent) / sigma, 2))]. *)
Definition gaussian (x cent amp sigma : float) : float :=
  amp * exp (-0.5 * (((x - cent) / sigma) * ((x - cent) / sigma))).

(** Lines 199-201: the values of the samples in cell [(uu, vv)] that the
    mask does not hide; the three arrays run in parallel. *)
Fixpoint active_visibs (av : list float) (gruvcoord : list (float * float))
    (mask : list bool) (uu vv : float) : list float :=
  match av, gruvcoord, mask with
  | a :: av', g :: gruvcoord', m :: mask' =>
      let rest := active_visibs av' gruvcoord' mask' uu vv in
      if PrimFloat.eqb (fst g) uu && PrimFloat.eqb (snd g) vv && negb m
      then a :: rest else rest
  | _, _, _ => []
  end.

(** Lines 195-206: one value per cell of the grid, NaN for a cell without
    visible sample, the first visible sample's value otherwise. *)
Definition grid_values (av : list float) (gruvcoord : list (float * float))
    (mask : list bool) (ugrid vgrid : list float) : list float :=
  flat_map
    (fun uu =>
       map (fun vv =>
              match active_visibs av gruvcoord mask uu vv with
              | [] => nan
              | x :: _ => x
              end) vgrid)
    ugrid.

Definition sqrt_2pi : float := PrimFloat.sqrt (2 * 3.141592653589793).

(** Lines 247-274: histogram of the clipped grid and the Gaussian fit,
    with the moment-based fallback of the [except] branch. *)
Definition fit_block (uvgridded_clipped : list float)
    (npoints npoints_clipped : nat) (average stdev : float) : result fit_locals :=
  let '(hist, bin_edges) :=
    Np.histogram (List.filter Np.isfinite uvgridded_clipped)
                 (Nat.sqrt npoints_clipped + 1) in
  let lower := removelast bin_edges in
  let upper := tl bin_edges in
  let bin_centers :=
    map (fun p => fst p + 0.5 * (snd p - fst p)) (combine lower upper) in
  let widthes := map (fun p => snd p - fst p) (combine lower upper) in
  let maxhi := fold_right Nat.max 0%nat hist in
  maxhiposval ← Py.index bin_centers (Z.of_nat (Np.argmax hist));
  match curve_fit gaussian bin_centers hist
          (maxhiposval, Np.of_nat maxhi, stdev / 2) with
  | Some p => Ok (mkFit bin_centers widthes p)
  | None =>
      w0 ← Py.index widthes 0;
      Ok (mkFit bin_centers widthes
            (average, w0 * Np.of_nat npoints / (sqrt_2pi * stdev), stdev))
  end.

(** Lines 289-293: the one-sided cut and the unflag override. *)
Definition clip_mask (av : list float) (ave std threshold : float)
    (unflags : option (list bool)) : result (list bool) :=
  let select := map (fun x => Np.ge x (ave + threshold * std)) av in
  match unflags with
  | Some u => Np.mul_bool select (Np.logical_not u)
  | None => Ok select
  end.

(** Lines 296-359: the diagnostic plot. *)
Definition plot_block (fit : option fit_locals)
    (uvgridded uvgridded_clipped : list float) (npoints npoints_clipped : nat)
    (average stdev med mad threshold : float) (title : string)
    : result (list draw_cmd) :=
  f ← Py.read_local "bin_centers" fit;
  let bc := bin_centers f in
  bc0 ← Py.index bc 0;
  bc1 ← Py.index bc 1;
  bcl ← Py.index bc (-1);
  bcl2 ← Py.index bc (-2);
  let showgouse := Np.linspace (1.5 * bc0 - 0.5 * bc1) (1.5 * bcl - 0.5 * bcl2) 200 in
  w0 ← Py.index (widthes f) 0;
  let calculated :=
    map (fun x => gaussian x average
                    (w0 * Np.of_nat npoints / (sqrt_2pi * stdev)) stdev) showgouse in
  let madded :=
    map (fun x => gaussian x med
                    (w0 * Np.of_nat npoints / (sqrt_2pi * mad)) mad) showgouse in
  let '(p0, p1, p2) := popt f in
  let fitted := map (fun x => gaussian x p0 p1 p2) showgouse in
  let bins := (Nat.sqrt npoints_clipped + 1)%nat in
  let hists := ax_hist uvgridded_clipped bins in
  let scaled (ys : list float) :=
    map (fun y => y / Np.max ys * Np.max hists) ys in
  (* the histogram of the unclipped grid spans its least and its largest
     value, NaN aside, and matplotlib rejects a span that is not finite *)
  if existsb PrimFloat.is_infinity uvgridded then Raise ValueError
  else
  Ok [ Hist uvgridded_clipped bins "Clipped";
       Hist uvgridded bins "Unclipped";
       Plot showgouse (scaled calculated) "calculated";
       Plot showgouse (scaled fitted) "fitted";
       Plot showgouse (scaled madded) "mad";
       Axvline (average - threshold * stdev);
       Axvline (average + threshold * stdev);
       SetXlim 0 (Np.nanmax uvgridded);
       SetTitle title;
       SetXlabel "Amplitude";
       SetYlabel "PDF";
       Legend ].

(** Lines 276-287: the statistics the policy string selects, as the pair
    of locals [(std, ave)]; no branch binds them for an unlisted string. *)
Definition select_stats (threshmode : string) (fit : option fit_locals)
    (average stdev med mad : float) : result (option (float * float)) :=
  let s0 : option (float * float) := None in
  let s1 := if String.eqb threshmode "abs" then Some (1.0, 0.0) else s0 in
  let s2 := if String.eqb threshmode "std" then Some (stdev, average) else s1 in
  let s3 := if String.eqb threshmode "mad" then Some (mad, med) else s2 in
  if String.eqb threshmode "fit"
  then f ← Py.read_local "popt" fit;
       let '(p0, _, p2) := popt f in Ok (Some (p2, p0))
  else Ok s3.

(** Lines 191-206: the grid of the call. *)
Definition uvgridded_of (av : list float) (mask : list bool)
    (gruvcoord : list (float * float)) : list float :=
  let ugrid := Np.unique (map fst gruvcoord) in
  let vgrid := Np.unique (map snd gruvcoord) in
  grid_values av gruvcoord mask ugrid vgrid.

(** Line 210: the number of finite grid values. *)
Definition npoints_of (av : list float) (mask : list bool)
    (gruvcoord : list (float * float)) : nat :=
  List.length (List.filter Np.isfinite (uvgridded_of av mask gruvcoord)).

(** Lines 184-361.  The result is the mask together with what was drawn. *)
Definition histoclip (data : list float) (mask : list bool)
    (gruvcoord : list (float * float)) (unflags : option (list bool))
    (threshmode : string) (threshold : float) (ax : option Axes)
    (title : string) : result (list bool * list draw_cmd) :=
  let av := data in
  let uvgridded := uvgridded_of av mask gruvcoord in
  let npoints := npoints_of av mask gruvcoord in
  if Nat.ltb npoints 3 then Ok (Np.zeros_bool (List.length av), [])
  else
    let uvgridded_clipped := Np.sigma_clip uvgridded threshold in
    let npoints_clipped :=
      List.length (List.filter Np.isfinite uvgridded_clipped) in
    let average := Np.nanmean uvgridded_clipped in
    let stdev := Np.nanstd uvgridded_clipped in
    if PrimFloat.eqb average nan then Ok (Np.zeros_bool (List.length av), [])
    else if PrimFloat.eqb stdev nan then Ok (Np.zeros_bool (List.length av), [])
    else
      let med := Np.nanmedian uvgridded_clipped in
      let mad := Np.mad_std uvgridded_clipped in
      fit ← (if String.eqb threshmode "fit" || Py.is_not_none ax
             then f ← fit_block uvgridded_clipped npoints npoints_clipped
                                average stdev;
                  Ok (Some f)
             else Ok None);
      stats ← select_stats threshmode fit average stdev med mad;
      '(std, ave) ← Py.read_local "ave" stats;
      select ← clip_mask av ave std threshold unflags;
      match ax with
      | Some _ =>
          drawn ← plot_block fit uvgridded uvgridded_clipped npoints
                             npoints_clipped average stdev med mad threshold title;
          Ok (select, drawn)
      | None => Ok (select, [])
      end.

(** Whether the override of the call exempts sample [i]. *)
Definition unflag_at (unflags : option (list bool)) (i : nat) : bool :=
  match unflags with
  | Some u => nth i u false
  | None => false
  end.

(** The override has the shape of the data (or is absent). *)
Definition unflags_fit (unflags : option (list bool)) (data : list float) : Prop :=
  match unflags with
  | Some u => List.length u = List.length data
  | None => True
  end.

(** The number of finite values the sigma-clip leaves on the grid
    (line 227). *)
Definition npoints_clipped_of (data : list float) (mask : list bool)
    (gruvcoord : list (float * float)) (threshold : float) : nat :=
  List.length (List.filter Np.isfinite
                 (Np.sigma_clip (uvgridded_of data mask gruvcoord) threshold)).

(** The plot block of a call, given the locals of its fitting block. *)
Definition plot_of (data : list float) (mask : list bool)
    (gruvcoord : list (float * float)) (threshold : float) (title : string)
    (f : fit_locals) : result (list draw_cmd) :=
  let clipped := Np.sigma_clip (uvgridded_of data mask gruvcoord) threshold in
  plot_block (Some f) (uvgridded_of data mask gruvcoord) clipped
             (npoints_of data mask gruvcoord)
             (npoints_clipped_of data mask gruvcoord threshold)
             (Np.nanmean clipped) (Np.nanstd clipped)
             (Np.nanmedian clipped) (Np.mad_std clipped) threshold title.

(** The location and the scale that a listed policy string stands for:
    the fitted centre and sigma, the median and the scaled MAD, the mean
    and the standard deviation, or the constants 0 and 1. *)
Definition policy_pair (threshmode : string) (f : fit_locals)
    (average stdev med mad : float) : float * float :=
  if String.eqb threshmode "fit" then (fst (fst (popt f)), snd (popt f))
  else if String.eqb threshmode "mad" then (med, mad)
  else if String.eqb threshmode "std" then (average, stdev)
  else (0, 1).

(** The pair of a call, from the statistics of its sigma-clipped grid. *)
Definition estimate (threshmode : string) (f : fit_locals) (data : list float)
    (mask : list bool) (gruvcoord : list (float * float)) (threshold : float)
    : float * float :=
  let clipped := Np.sigma_clip (uvgridded_of data mask gruvcoord) threshold in
  policy_pair threshmode f (Np.nanmean clipped) (Np.nanstd clipped)
              (Np.nanmedian clipped) (Np.mad_std clipped).

(** The fitting block of a call (lines 247-274). *)
Definition fit_of (data : list float) (mask : list bool)
    (gruvcoord : list (float * float)) (threshold : float) : result fit_locals :=
  let clipped := Np.sigma_clip (uvgridded_of data mask gruvcoord) threshold in
  fit_block clipped (npoints_of data mask gruvcoord)
            (npoints_clipped_of data mask gruvcoord threshold)
            (Np.nanmean clipped) (Np.nanstd clipped).

End Histoclip.

(** ** Measurement sets *)

(** The columns of a measurement set that the code reads.  The visibility
    columns ([DATA], [CORRECTED_DATA], ...) are looked up by name; their
    axes are row, channel, polarisation, and their entries are [complex64]:
    both parts are binary32 numbers.  The other numbers are [float64]. *)
Record Table : Type := mkTable {
  vis_columns : gmap string (list (list (list Cx.t)));
  FLAG : list (list (list bool));
  UVW : list (float * float * float);
  FIELD : list Z;
  ANTENNA1 : list Z;
  ANTENNA2 : list Z;
  TIME : list float;
  INTERVAL : list float;
  CHAN_FREQ : list float;
  ANTENNA_NAME : list string;
  ANTENNA_POSITION : list (float * float * float);
  POSITION_UNITS : list string
}.

(** What [readdata] returns. *)
Record Visibilities : Type := mkVis {
  vis_data : list (list Cx.t);        (* row, channel *)
  vis_flags : list (list bool);       (* row, channel *)
  vis_uv : list (float * float);
  vis_antenna1 : list Z;
  vis_antenna2 : list Z;
  vis_antennanames : list string
}.

Section Readdata.

(** Lines 428-431 for one row and channel: the flags of the first and of
    the last polarisation ([i = data.shape[2] - 1]). *)
Definition hands_cell (c : list Cx.t * list bool) : result (bool * bool) :=
  let i := (Z.of_nat (List.length (fst c)) - 1)%Z in
  f0 ← Py.index (snd c) 0;
  fi ← Py.index (snd c) i;
  Ok (f0, fi).

Definition stflags_of (h : bool * bool) : float :=
  fst (Cx.of_bool (negb (fst h))) + fst (Cx.of_bool (negb (snd h))).

(** Lines 439-443 and 449-453 for one row and channel: the unflagged
    hands are added (Stokes I) or subtracted (Stokes Q) and divided by
    their number.  The hands are [complex64]: their products with the
    selectors and their sum or difference are rounded to single
    precision; the division by the [float64] count is in double
    precision. *)
Definition stokes_cell (pol_q : bool) (c : list Cx.t * (bool * bool)) : result Cx.t :=
  let d := fst c in
  let i := (Z.of_nat (List.length d) - 1)%Z in
  d0 ← Py.index d 0;
  di ← Py.index d i;
  let a := Cx.mul32 d0 (Cx.of_bool (negb (fst (snd c)))) in
  let b := Cx.mul32 di (Cx.of_bool (negb (snd (snd c)))) in
  Ok (Cx.div (if pol_q then Cx.sub32 a b else Cx.add32 a b)
             (Cx.of_float (stflags_of (snd c)))).

Definition stokes (pol_q : bool) (data3 : list (list (list Cx.t)))
    (hands : list (list (bool * bool))) : result (list (list Cx.t)) :=
  Py.mapM (fun r : list (list Cx.t) * list (bool * bool) =>
             Py.mapM (stokes_cell pol_q) (combine (fst r) (snd r)))
          (combine data3 hands).

(** [flags[rows, :] = True] for a boolean row selector. *)
Definition set_rows (rows : list bool) (flags : list (list bool))
    : result (list (list bool)) :=
  if Nat.eqb (List.length rows) (List.length flags)
  then Ok (map (fun p : bool * list bool =>
                  if fst p then map (fun _ => true) (snd p) else snd p)
               (combine rows flags))
  else Raise IndexError.

(** [flags[:, cols] = True] for a boolean channel selector. *)
Definition set_cols (cols : list bool) (flags : list (list bool))
    : result (list (list bool)) :=
  Py.mapM (fun row =>
             if Nat.eqb (List.length cols) (List.length row)
             then Ok (map (fun p : bool * bool => orb (fst p) (snd p)) (combine cols row))
             else Raise IndexError)
          flags.

(** Lines 465-475: the rows of the requested fields. *)
Definition field_select (fields : Z + list Z) (field : list Z) : list bool :=
  match fields with
  | inl one => map (fun x => Z.eqb x one) field
  | inr several => map (fun x => existsb (Z.eqb x) several) field
  end.

(** Lines 494-503: the rows whose antenna pair is listed, in either
    order. *)
Definition baseline_select (baselines : list (Z * Z)) (antenna1 antenna2 : list Z)
    : list bool :=
  map (fun p =>
         existsb (fun b => Z.eqb (fst p) (fst b) && Z.eqb (snd p) (snd b)) baselines
         || existsb (fun b => Z.eqb (fst p) (snd b) && Z.eqb (snd p) (fst b)) baselines)
      (combine antenna1 antenna2).

(** Line 507: [data[flags] = np.nan]. *)
Definition blank (data : list (list Cx.t)) (flags : list (list bool))
    : list (list Cx.t) :=
  map (fun r : list Cx.t * list bool =>
         map (fun c : Cx.t * bool => if snd c then Cx.nan else fst c)
                    (combine (fst r) (snd r)))
      (combine data flags).

(** Lines 405-509 of [readdata], on the columns of the opened table. *)
Definition readdata_columns (t : Table) (col : string)
    (fields : option (Z + list Z)) (channels : option (list bool))
    (baselines : option (list (Z * Z))) (pol : string) : result Visibilities :=
  data3 ← match vis_columns t !! col with
          | Some d => Ok d
          | None => Raise RuntimeError
          end;
  let flags3 := FLAG t in
  let avspecchan := Np.mean (CHAN_FREQ t) in
  let uv := map (fun w => (fst (fst w) * avspecchan / 299792458,
                           snd (fst w) * avspecchan / 299792458)) (UVW t) in
  hands ← Py.mapM (fun r : list (list Cx.t) * list (list bool) =>
                     Py.mapM hands_cell (combine (fst r) (snd r)))
                  (combine data3 flags3);
  let stflags := map (map stflags_of) hands in
  '(data, flags) ←
     (if String.eqb pol "i"
      then d ← stokes false data3 hands;
           Ok (d, map (map (fun x => PrimFloat.ltb x 1)) stflags)
      else if String.eqb pol "q"
           then d ← stokes true data3 hands;
                Ok (d, map (map (fun x => PrimFloat.ltb x 2)) stflags)
           else Raise TypeError);
  flags ← match fields with
          | Some fs => set_rows (Np.logical_not (field_select fs (FIELD t))) flags
          | None => Ok flags
          end;
  let antenna1 := ANTENNA1 t in
  let antenna2 := ANTENNA2 t in
  flags ← set_rows (map (fun p => Z.eqb (fst p) (snd p)) (combine antenna1 antenna2))
                   flags;
  flags ← match channels with
          | Some ch => set_cols (Np.logical_not ch) flags
          | None => Ok flags
          end;
  flags ← match baselines with
          | Some bl =>
              set_rows (Np.logical_not (baseline_select bl antenna1 antenna2)) flags
          | None => Ok flags
          end;
  let data := blank data flags in
  Ok (mkVis data flags uv antenna1 antenna2 (ANTENNA_NAME t)).

End Readdata.

(** A step on the flags that keeps the shape of every row and never clears
    a row that is flagged throughout. *)
Definition keeps (flags flags' : list (list bool)) : Prop :=
  Forall2 (fun old new : list bool =>
             List.length new = List.length old /\
             (Forall (fun b => b = true) old -> Forall (fun b => b = true) new))
          flags flags'.

(** ** The tables on disk *)

(** What is done to the tables on disk. *)
Inductive io_event : Type :=
| EvOpen (name : string) (readonly : bool)
| EvCopy (src dst : string)
| EvPutFlag (name : string).

Record World : Type := mkWorld {
  tables : gmap string Table;
  journal : list io_event
}.

(** An open pyrap table. *)
Record Handle : Type := mkHandle {
  h_name : string;
  h_readonly : bool
}.

Definition IO (A : Type) : Type := World -> result A * World.

Definition io_ret {A : Type} (a : A) : IO A := fun w => (Ok a, w).

Definition io_bind {A B : Type} (m : IO A) (k : A -> IO B) : IO B :=
  fun w => match m w with
           | (Ok a, w') => k a w'
           | (Raise e, w') => (Raise e, w')
           end.

Definition io_lift {A : Type} (r : result A) : IO A := fun w => (r, w).

Notation "x <~ m ;; k" := (io_bind m (fun x => k))
  (at level 100, m at next level, right associativity, only parsing).

Definition record_event (e : io_event) : IO unit :=
  fun w => (Ok tt, mkWorld (tables w) (journal w ++ [e])).

(** Lines 51-72, [opensilent]: a name is opened, anything else is handed
    back as it is. *)
Definition opensilent (inset : string + Handle) (readonly : bool) : IO Handle :=
  match inset with
  | inr h => io_ret h
  | inl name =>
      fun w => match tables w !! name with
               | Some _ => (Ok (mkHandle name readonly),
                            mkWorld (tables w) (journal w ++ [EvOpen name readonly]))
               | None => (Raise RuntimeError, w)
               end
  end.

(** The columns behind an open table. *)
Definition getcols (h : Handle) : IO Table :=
  fun w => match tables w !! h_name h with
           | Some t => (Ok t, w)
           | None => (Raise RuntimeError, w)
           end.

(** [t.putcol("FLAG", flags)]; a table opened read-only refuses. *)
Definition putcol_flag (h : Handle) (flags : list (list (list bool))) : IO unit :=
  fun w => match tables w !! h_name h with
           | Some t =>
               if h_readonly h then (Raise RuntimeError, w)
               else (Ok tt,
                     mkWorld (<[h_name h :=
                                  mkTable (vis_columns t) flags (UVW t) (FIELD t)
                                    (ANTENNA1 t) (ANTENNA2 t) (TIME t) (INTERVAL t)
                                    (CHAN_FREQ t) (ANTENNA_NAME t)
                                    (ANTENNA_POSITION t) (POSITION_UNITS t)]>
                                (tables w))
                             (journal w ++ [EvPutFlag (h_name h)]))
           | None => (Raise RuntimeError, w)
           end.

(** [t.copy(name)]. *)
Definition copy_table (h : Handle) (dst : string) : IO unit :=
  fun w => match tables w !! h_name h with
           | Some t => (Ok tt, mkWorld (<[dst := t]> (tables w))
                                       (journal w ++ [EvCopy (h_name h) dst]))
           | None => (Raise RuntimeError, w)
           end.

(** [tables.tableexists(name)]. *)
Definition tableexists (name : string) : IO bool :=
  fun w => (Ok (bool_decide (is_Some (tables w !! name))), w).

(** Lines 399-403 and 511-515 around the columns: [readdata] opens a name
    read-only and reads a handle as it is. *)
Definition readdata (inset : string + Handle) (col : string)
    (fields : option (Z + list Z)) (channels : option (list bool))
    (baselines : option (list (Z * Z))) (pol : string) : IO Visibilities :=
  h <~ opensilent inset true ;;
  t <~ getcols h ;;
  io_lift (readdata_columns t col fields channels baselines pol).

(** An event that leaves the tables as they are: opening one read-only. *)
Definition read_only_event (e : io_event) : Prop :=
  match e with
  | EvOpen _ true => True
  | _ => False
  end.

(** A computation that writes nothing: it leaves every table as it is, and
    all it adds to the journal are read-only openings. *)
Definition quiet {A : Type} (m : IO A) : Prop :=
  forall w : World,
    tables (snd (m w)) = tables w /\
    exists evs, journal (snd (m w)) = journal w ++ evs /\
                Forall read_only_event evs.

(** ** [Sunblocker.vampirisms] *)

(** The [ephem.Observer] of the walk. *)
Record Observer : Type := mkObserver {
  ob_lon : float;
  ob_lat : float;
  ob_elevation : float;
  ob_horizon : float
}.

(** The margins, each the value of [x.to(units.d).value]. *)
Record Margins : Type := mkMargins {
  avantsoleil : float;
  apresnuit : float;
  avantnuit : float;
  apresoleil : float
}.

(** [(etimes >= lo) * (hi >= etimes)] for one time stamp. *)
Definition in_window (lo hi t : float) : bool :=
  Np.ge t lo && Np.ge hi t.

(** [flags + (etimes >= lo) * (hi >= etimes)]. *)
Definition add_window (flags : list bool) (etimes : list float) (lo hi : float)
    : list bool :=
  map (fun p : bool * float => orb (fst p) (in_window lo hi (snd p)))
      (combine flags etimes).

Section Vampirisms.

(** [EarthLocation(x, y, z).geodetic]: longitude, latitude (radians) and
    height (metres). *)
Variable geodetic : float * float * float -> float * float * float.

(** [etel.next_rising(esun)] and [etel.next_setting(esun)] with
    [etel.date] set to the given instant; they raise at a site where the
    sun does not cross the horizon. *)
Variable next_rising : Observer -> float -> result float.
Variable next_setting : Observer -> float -> result float.

(** Lines 1372-1439: the walk over the daylight periods, from the rising
    [esti] on. *)
Fixpoint sun_walk (steps : nat) (etel : Observer) (m : Margins)
    (nononsoleil : bool) (eobsend : float) (etimes : list float)
    (esti : float) (flags : list bool) : result (list bool) :=
  if negb (PrimFloat.ltb (esti - avantsoleil m) eobsend) then Ok flags
  else
    match steps with
    | O => Raise OutOfSteps
    | S steps' =>
        eeti ← next_setting etel esti;
        let flags :=
          if nononsoleil
          then add_window flags etimes (esti - avantsoleil m) (eeti + apresoleil m)
          else add_window
                 (add_window flags etimes (esti - avantsoleil m) (esti + apresnuit m))
                 etimes (eeti - avantnuit m) (eeti + apresoleil m) in
        esti' ← next_rising etel eeti;
        sun_walk steps' etel m nononsoleil eobsend etimes esti' flags
    end.

(** The daylight periods the walk goes through: each runs from a rising
    [esti] to the next setting [eeti], the next one starts at the next
    rising after [eeti], and the walk goes on while the rising, less the
    margin before sunrise, lies before the end of the observation. *)
Fixpoint daylight_periods (steps : nat) (etel : Observer) (m : Margins)
    (eobsend : float) (esti : float) : result (list (float * float)) :=
  if negb (PrimFloat.ltb (esti - avantsoleil m) eobsend) then Ok []
  else
    match steps with
    | O => Raise OutOfSteps
    | S steps' =>
        eeti ← next_setting etel esti;
        esti' ← next_rising etel eeti;
        rest ← daylight_periods steps' etel m eobsend esti';
        Ok ((esti, eeti) :: rest)
    end.

(** The same periods as a relation, without step budget. *)
Inductive walked (etel : Observer) (m : Margins) (eobsend : float)
    : float -> list (float * float) -> Prop :=
| walked_end (esti : float) :
    PrimFloat.ltb (esti - avantsoleil m) eobsend = false ->
    walked etel m eobsend esti []
| walked_period (esti eeti esti' : float) (rest : list (float * float)) :
    PrimFloat.ltb (esti - avantsoleil m) eobsend = true ->
    next_setting etel esti = Ok eeti ->
    next_rising etel eeti = Ok esti' ->
    walked etel m eobsend esti' rest ->
    walked etel m eobsend esti ((esti, eeti) :: rest).

(** Whether a time stamp lies in the window of one of the periods, margins
    included. *)
Definition in_daylight (m : Margins) (periods : list (float * float)) (t : float)
    : bool :=
  existsb (fun p : float * float =>
             in_window (fst p - avantsoleil m) (snd p + apresoleil m) t)
          periods.

(** Lines 1291-1309 and 1335-1339: the observer at the mean antenna
    position, with the overrides of the call. *)
Definition observer_of (t : Table) (lat lon hei : option float) (horizon : float)
    : result Observer :=
  let xs := map (fun p => fst (fst p)) (ANTENNA_POSITION t) in
  let ys := map (fun p => snd (fst p)) (ANTENNA_POSITION t) in
  let zs := map snd (ANTENNA_POSITION t) in
  let telgeo := (Np.mean_seq xs, Np.mean_seq ys, Np.mean_seq zs) in
  if forallb (fun u => String.eqb u "m") (POSITION_UNITS t) then
    let '(lone, late, heie) := geodetic telgeo in
    Ok (mkObserver (default lone lon) (default late lat) (default heie hei) horizon)
  else Raise TypeError.

(** Lines 1319-1332: the time stamps in days, and the start and the end of
    the observation, half a sample before the first and after the last
    stamp. *)
Definition observation_span (t : Table) : result (list float * float * float) :=
  let dd := map (fun x => x / (24 * 3600)) (TIME t) in
  match dd with
  | [] => Raise ValueError
  | _ :: _ =>
      i0 ← Py.index (INTERVAL t) 0;
      let mindd := Np.min dd - i0 / (2 * 24 * 3600) in
      il ← Py.index (INTERVAL t) (-1);
      let maxdd := Np.max dd + il / (2 * 24 * 3600) in
      Ok (map (fun d => d - 15019.5) dd, mindd - 15019.5, maxdd - 15019.5)
  end.

(** Lines 1343-1361: where the walk starts.  When the next setting comes
    before the next rising the sun is up and the first period starts with
    the observation. *)
Definition first_rising (etel : Observer) (eobstart : float) : result float :=
  esti ← next_rising etel eobstart;
  eeti ← next_setting etel eobstart;
  if PrimFloat.ltb eeti esti then Ok eobstart
  else next_rising etel eobstart.

(** Lines 1291-1479: the flags of the time stamps. *)
Definition sun_flags (steps : nat) (t : Table) (lat lon hei : option float)
    (m : Margins) (horizon : float) (nononsoleil flinvert : bool)
    : result (list bool) :=
  etel ← observer_of t lat lon hei horizon;
  '(etimes, eobstart, eobsend) ← observation_span t;
  esti ← first_rising etel eobstart;
  flags ← sun_walk steps etel m nononsoleil eobsend etimes esti
                   (Np.zeros_bool (List.length etimes));
  Ok (if flinvert then Np.logical_not flags else flags).

(** [oflags[flags, :, :] = True]. *)
Definition flag_rows (flags : list bool) (oflags : list (list (list bool)))
    : result (list (list (list bool))) :=
  if Nat.eqb (List.length flags) (List.length oflags)
  then Ok (map (fun p : bool * list (list bool) =>
                  if fst p then map (map (fun _ => true)) (snd p) else snd p)
               (combine flags oflags))
  else Raise IndexError.

(** Lines 1237-1493. *)
Definition vampirisms (steps : nat) (inset : string + Handle)
    (lat lon hei : option float) (dryrun : bool) (m : Margins)
    (horizon : float) (nononsoleil flinvert : bool) : IO (list bool) :=
  t <~ opensilent inset dryrun ;;
  tab <~ getcols t ;;
  flags <~ io_lift (sun_flags steps tab lat lon hei m horizon nononsoleil flinvert) ;;
  _ <~ (if negb dryrun
        then oflags <~ io_lift (flag_rows flags (FLAG tab)) ;;
             putcol_flag t oflags
        else io_ret tt) ;;
  io_ret flags.

End Vampirisms.

(** ** Wedges *)

(** A Python sequence of points: a list, or the iterator [zip] returns. *)
Inductive pyseq : Type :=
| PyList (l : list (float * float))
| PyZip (l : list (float * float)).

(** [a + b]: lists concatenate; an iterator has no [+]. *)
Definition py_add (a b : pyseq) : result pyseq :=
  match a, b with
  | PyList x, PyList y => Ok (PyList (x ++ y))
  | _, _ => Raise TypeError
  end.

(** [a[i]]: an iterator is not subscriptable. *)
Definition py_item (a : pyseq) (i : Z) : result (float * float) :=
  match a with
  | PyList l => Py.index l i
  | PyZip _ => Raise TypeError
  end.

(** [matplotlib.path.Path(vertices)]. *)
Definition Path (vertices : pyseq) : result (list (float * float)) :=
  match vertices with
  | PyList l => Ok l
  | PyZip _ => Raise TypeError
  end.

Definition pi : float := 3.141592653589793.

Section Wedge.

Variable arctan2 : float -> float -> float.
Variable sin : float -> float.
Variable cos : float -> float.

(** [path.contains_points(points)]. *)
Variable contains_points : list (float * float) -> list (float * float) -> list bool.

(** Lines 104-121. *)
Definition wedge_around_centre (coord : float * float) (radrange angle : float)
    : result (list (float * float)) :=
  let npoints := 100%nat in
  let alpha_min := arctan2 (fst coord) (snd coord) - pi * angle / 180 / 2 in
  let alpha_max := alpha_min + pi * angle / 180 in
  let rmin :=
    PrimFloat.sqrt (fst coord * fst coord + snd coord * snd coord) - radrange / 2 in
  let rmax := rmin + radrange in
  let a := Np.linspace alpha_min alpha_max npoints in
  let s := map sin a in
  let c := map cos a in
  let arc1 := PyZip (combine (map (fun x => rmax * x) s) (map (fun x => rmax * x) c)) in
  let arc2 := PyZip (combine (map (fun x => rmin * x) (rev s))
                             (map (fun x => rmin * x) (rev c))) in
  both ← py_add arc1 arc2;
  first ← py_item arc1 0;
  polygon ← py_add both (PyList [first]);
  Path polygon.

(** Lines 136-139. *)
Definition selwith_path (path : list (float * float)) (uvcoords : list (float * float))
    : result (list bool) :=
  points ← Path (PyZip (combine (map fst uvcoords) (map snd uvcoords)));
  Ok (contains_points path points).

(** Lines 1049-1056: one wedge per flagged point, every sample inside it
    is flagged (inside it and exempt from the override, when only the day
    is flagged). *)
Fixpoint extend_flags (flaggeduv : list (float * float)) (uv : list (float * float))
    (radrange angle : float) (unflags : option (list bool)) (flagonlyday : bool)
    (newflags : list bool) : result (list bool) :=
  match flaggeduv with
  | [] => Ok newflags
  | point :: rest =>
      thepath ← wedge_around_centre point radrange angle;
      inside ← selwith_path thepath uv;
      sel ← (if flagonlyday
             then u ← Py.read_local "unflags" unflags; Np.mul_bool inside u
             else Ok inside);
      extend_flags rest uv radrange angle unflags flagonlyday
                   (Np.assign sel true newflags)
  end.

End Wedge.

(** ** [Sunblocker.phazer] *)

Record Args : Type := mkArgs {
  a_inset : option (string + list string);
  a_outset : option (string + list string);
  a_col : string;
  a_channels : option (list bool);
  a_baselines : option (list (Z * Z));
  a_fields : option (Z + list Z);
  a_imsize : Z;
  a_cell : float;
  a_mode : string;
  a_pol : string;
  a_threshmode : string;
  a_threshold : float;
  a_radrange : float;
  a_angle : float;
  a_flagonlyday : bool;
  a_vampirisms : bool;
  a_margins : Margins;
  a_horizon : float;
  a_nononsoleil : bool;
  a_uvmin : float;
  a_uvmax : option float;
  a_show : option string;
  a_dryrun : bool
}.

(** [plt.subplot(nrows, ncols, index)]: the index counts from one. *)
Definition subplot (nrows ncols : nat) (index : Z) : result Axes :=
  if ((1 <=? index) && (index <=? Z.of_nat (nrows * ncols)))%Z
  then Ok (Subplot nrows ncols (Z.to_nat index))
  else Raise ValueError.

(** Lines 833-851: the samples of the cell with corner [(uu, vv)]. *)
Definition cell_members (u v : list float) (collaflags : list bool)
    (uvmin : float) (uvmax : option float) (duv uu vv : float) : list bool :=
  map (fun p : float * float * bool =>
         let x := fst (fst p) in
         let y := snd (fst p) in
         let active :=
           PrimFloat.ltb uu x && PrimFloat.leb x (uu + duv)
           && PrimFloat.ltb vv y && PrimFloat.leb y (vv + duv)
           && match uvmax with
              | Some m => PrimFloat.ltb (x * x + y * y) (m * m)
              | None => true
              end
           && PrimFloat.ltb (uvmin * uvmin) (x * x + y * y) in
         if snd p then false else active)
      (combine (combine u v) collaflags).

(** Lines 852-868: the cell average is given to the members of the cell,
    with the centre of the cell. *)
Definition grid_cell (hypot : float -> float -> float)
    (u v : list float) (collaflags : list bool)
    (data : list (list Cx.t)) (uvmin : float) (uvmax : option float) (duv : float)
    (st : list float * list (float * float)) (cell : float * float)
    : list float * list (float * float) :=
  let '(uu, vv) := cell in
  let active_visibs := cell_members u v collaflags uvmin uvmax duv uu vv in
  if existsb (fun b => b) active_visibs then
    let scav :=
      Np.nanmean (map (Cx.abs hypot)
                      (Np.nansum_rows (Np.select active_visibs data))) in
    (Np.assign active_visibs scav (fst st),
     Np.assign active_visibs (uu + duv / 2, vv + duv / 2) (snd st))
  else st.

(** Line 756: the uv cell in wavelengths,
    [1.0 / (imsize * cell * np.pi / (3600.0 * 180.0))], on Python numbers:
    the integer is converted, and a zero divisor raises. *)
Definition uv_cell (imsize : Z) (cell : float) : result float :=
  n ← float_of_int imsize;
  let d := n * cell * pi / (3600 * 180) in
  if PrimFloat.eqb d 0 then Raise ZeroDivisionError else Ok (1 / d).

(** Lines 757-795: the lower corners of the cells along u and along v.
    The minimum of an empty array raises. *)
Definition uv_grid (uvmax : option float) (uv : list (float * float)) (duv : float)
    : result (list float * list float) :=
  let u := map fst uv in
  let v := map snd uv in
  match uv with
  | [] => Raise ValueError
  | _ :: _ =>
      let '(umin, umax, vmin, vmax) :=
        match uvmax with
        | Some m => (- m, m, - m, m)
        | None => (Np.min u, Np.max u, Np.min v, Np.max v)
        end in
      let '(umin, umax) := (Np.floor umin, Np.ceil umax) in
      let '(vmin, vmax) := (Np.floor vmin, Np.ceil vmax) in
      ugrid ← Np.arange umin umax duv;
      vgrid ← Np.arange vmin vmax duv;
      Ok (ugrid, vgrid)
  end.

(** Lines 756-880: the gridded scalar averages and the cell centres, one of
    each per sample. *)
Definition gridding (hypot : float -> float -> float)
    (imsize : Z) (cell uvmin : float) (uvmax : option float)
    (data : list (list Cx.t)) (flags : list (list bool)) (uv : list (float * float))
    : result (list float * list (float * float)) :=
  duv ← uv_cell imsize cell;
  '(ugrid, vgrid) ← uv_grid uvmax uv duv;
  let u := map fst uv in
  let v := map snd uv in
  _ ← Py.index (hd [] data) 0;
  let nmdata := repeat 0 (List.length data) in
  let gruvcoord := repeat (0, 0) (List.length data) in
  let collaflags := map (forallb (fun b => b)) flags in
  Ok (fold_left (grid_cell hypot u v collaflags data uvmin uvmax duv)
                (list_prod ugrid vgrid) (nmdata, gruvcoord)).

(** The locals of [phazer] that a branch may read before binding them. *)
Record Locals : Type := mkLocals {
  loc_t : option Table;
  loc_i : option Z;
  loc_title : option string
}.

Section Phazer.

Variable exp : float -> float.
Variable curve_fit :
  (float -> float -> float -> float -> float) ->
  list float -> list nat -> float * float * float -> option (float * float * float).
Variable ax_hist : list float -> nat -> list float.
Variable arctan2 : float -> float -> float.
Variable sin : float -> float.
Variable cos : float -> float.
Variable contains_points : list (float * float) -> list (float * float) -> list bool.

(** The C library's [hypot], behind [np.abs] on complex numbers. *)
Variable hypot : float -> float -> float.

Variable geodetic : float * float * float -> float * float * float.
Variable next_rising : Observer -> float -> result float.
Variable next_setting : Observer -> float -> result float.

(** Lines 954-978: the pass for one antenna. *)
Definition antenna_pass (data : list float) (gruvcoord : list (float * float))
    (antenna1 antenna2 : list Z) (antennanames : list string)
    (unflags : option (list bool)) (threshmode : string) (threshold : float)
    (show : option string) (nplotsx : nat)
    (st : list bool * Locals) (antenna : Z) : result (list bool * Locals) :=
  let '(newflags, loc) := st in
  (* the log line reads [t.ANTENNA.getcol("NAME")[antenna]] *)
  t ← Py.read_local "t" (loc_t loc);
  _ ← Py.index (ANTENNA_NAME t) antenna;
  let passedflags := Np.zeros_bool (List.length data) in
  let select := map (fun p : Z * Z => negb (Z.eqb (fst p) antenna)
                                      && negb (Z.eqb (snd p) antenna))
                    (combine antenna1 antenna2) in
  passedflags ← Np.or_rows_all_cols_1d passedflags select;
  '(ax, loc) ←
     (match show with
      | Some _ =>
          name ← Py.index antennanames antenna;
          i ← Py.read_local "i" (loc_i loc);
          ax ← subplot nplotsx nplotsx i;
          Ok (Some ax, mkLocals (loc_t loc) (loc_i loc) (Some (String.append "Ant " name)))
      | None => Ok (None, loc)
      end);
  title ← Py.read_local "title" (loc_title loc);
  '(m, _) ← histoclip exp curve_fit ax_hist data passedflags gruvcoord unflags
                      threshmode threshold ax title;
  newflags ← Np.or_bool newflags m;
  i ← Py.read_local "i" (loc_i loc);
  Ok (newflags, mkLocals (loc_t loc) (Some (i + 1)%Z) (loc_title loc)).

Fixpoint antenna_loop (data : list float) (gruvcoord : list (float * float))
    (antenna1 antenna2 : list Z) (antennanames : list string)
    (unflags : option (list bool)) (threshmode : string) (threshold : float)
    (show : option string) (nplotsx : nat)
    (antennas : list Z) (st : list bool * Locals) : result (list bool * Locals) :=
  match antennas with
  | [] => Ok st
  | antenna :: rest =>
      st' ← antenna_pass data gruvcoord antenna1 antenna2 antennanames unflags
                         threshmode threshold show nplotsx st antenna;
      antenna_loop data gruvcoord antenna1 antenna2 antennanames unflags
                   threshmode threshold show nplotsx rest st'
  end.

(** Lines 920-1023: the mask of the clip, by grouping mode. *)
Definition dispatch (mode : string) (data : list float)
    (gruvcoord : list (float * float)) (antenna1 antenna2 : list Z)
    (antennanames : list string) (unflags : option (list bool))
    (threshmode : string) (threshold : float) (show : option string)
    (loc : Locals) : result (list bool) :=
  let flags := Np.zeros_bool (List.length data) in
  if String.eqb mode "all" then
    ax ← (match show with
          | Some _ => a ← subplot 1 1 1; Ok (Some a)
          | None => Ok None
          end);
    '(newflags, _) ← histoclip exp curve_fit ax_hist data flags gruvcoord unflags
                               threshmode threshold ax "";
    Ok newflags
  else
    let newflags := Np.zeros_bool (List.length data) in
    let antennas := Np.unique_Z (antenna1 ++ antenna2) in
    if String.eqb mode "antenna" then
      let nplotsx := Nat.sqrt_up (List.length antennas) in
      let loc := match show with
                 | Some _ => mkLocals (loc_t loc) (Some 0%Z) (loc_title loc)
                 | None => loc
                 end in
      '(newflags, _) ← antenna_loop data gruvcoord antenna1 antenna2 antennanames
                                    unflags threshmode threshold show nplotsx
                                    antennas (newflags, loc);
      Ok newflags
    else
      (* [pairs] is the flattened sorted array of the antenna numbers:
         the first [pair[0]] indexes a scalar *)
      let pairs := Np.unique_Z (flat_map (fun p : Z * Z => [fst p; snd p])
                                         (combine antenna1 antenna2)) in
      match pairs with
      | [] => Ok newflags
      | _ :: _ => Raise IndexError
      end.

(** Lines 657-694 and 699-733: one input set is read, the night is
    blanked when asked for. *)
Definition read_set (steps : nat) (a : Args) (name : string)
    (baselines : option (list (Z * Z)))
    : IO (Visibilities * option (list bool)) :=
  tutu <~ opensilent (inl name) true ;;
  vis <~ readdata (inr tutu) (a_col a) (a_fields a) (a_channels a) baselines
                  (a_pol a) ;;
  dayflags <~ (if a_vampirisms a || a_flagonlyday a
               then d <~ vampirisms geodetic next_rising next_setting steps
                           (inr tutu) None None None true (a_margins a)
                           (a_horizon a) (a_nononsoleil a) true ;;
                    io_ret (Some d)
               else io_ret None) ;;
  if a_vampirisms a
  then io_lift (d ← Py.read_local "dayflags" dayflags;
                flags ← set_rows d (vis_flags vis);
                Ok (mkVis (blank (vis_data vis) flags) flags (vis_uv vis)
                          (vis_antenna1 vis) (vis_antenna2 vis)
                          (vis_antennanames vis), dayflags))
  else io_ret (vis, dayflags).

(** Lines 697-752: the further input sets are appended. *)
Fixpoint read_more (steps : nat) (a : Args) (names : list string)
    (acc : Visibilities * option (list bool) * list nat)
    : IO (Visibilities * option (list bool) * list nat) :=
  match names with
  | [] => io_ret acc
  | name :: rest =>
      let '(vis, dayflags, nrows) := acc in
      more <~ read_set steps a name None ;;
      let '(plus, dayflagsplus) := more in
      let vis' :=
        mkVis (vis_data vis ++ vis_data plus) (vis_flags vis ++ vis_flags plus)
              (vis_uv vis ++ vis_uv plus)
              (vis_antenna1 vis ++ vis_antenna1 plus)
              (vis_antenna2 vis ++ vis_antenna2 plus)
              (vis_antennanames vis) in
      let dayflags' :=
        if a_vampirisms a || a_flagonlyday a
        then match dayflags, dayflagsplus with
             | Some d, Some d' => Some (d ++ d')
             | _, _ => None
             end
        else dayflags in
      read_more steps a rest (vis', dayflags', nrows ++ [List.length (vis_data vis')])
  end.

(** Lines 754-1060: from the visibilities to the new flags.  The images of
    the gridded averages (lines 896-918 and 1063-1131) are drawn from these
    values and change none of them; they are left out. *)
Definition flag_pass (a : Args) (vis : Visibilities) (dayflags : option (list bool))
    (loc : Locals) : result (list bool) :=
  '(data, gruvcoord) ← gridding hypot (a_imsize a) (a_cell a) (a_uvmin a) (a_uvmax a)
                                (vis_data vis) (vis_flags vis) (vis_uv vis);
  unflags ← (if a_flagonlyday a
             then d ← Py.read_local "dayflags" dayflags; Ok (Some d)
             else Ok None);
  newflags ← dispatch (a_mode a) data gruvcoord (vis_antenna1 vis) (vis_antenna2 vis)
                      (vis_antennanames vis) unflags (a_threshmode a)
                      (a_threshold a) (a_show a) loc;
  if PrimFloat.ltb 0 (a_radrange a) && PrimFloat.ltb 0 (a_angle a)
  then extend_flags arctan2 sin cos contains_points
                    (Np.select newflags (vis_uv vis)) (vis_uv vis)
                    (a_radrange a) (a_angle a) unflags (a_flagonlyday a) newflags
  else Ok newflags.

(** [oflags[newflags[lo:hi], :, :] = True]. *)
Definition slice {A : Type} (l : list A) (lo hi : nat) : list A :=
  firstn (hi - lo) (skipn lo l).

(** Lines 1144-1179 for output set number [i]. *)
Definition apply_one (dryrun : bool) (inset outset : list string)
    (nrows : list nat) (newflags : list bool) (i : nat) : IO unit :=
  out <~ io_lift (Py.index outset (Z.of_nat i)) ;;
  present <~ tableexists out ;;
  tout <~ (if present
           then (if negb dryrun
                 then h <~ opensilent (inl out) false ;; io_ret (Some h)
                 else io_ret None)
           else (if negb dryrun
                 then src <~ io_lift (Py.index inset (Z.of_nat i)) ;;
                      t <~ opensilent (inl src) true ;;
                      _ <~ copy_table t out ;;
                      h <~ opensilent (inl out) false ;;
                      io_ret (Some h)
                 else io_ret None)) ;;
  if negb dryrun
  then h <~ io_lift (Py.read_local "tout" tout) ;;
       tab <~ getcols h ;;
       lo <~ io_lift (Py.index nrows (Z.of_nat i)) ;;
       hi <~ io_lift (Py.index nrows (Z.of_nat (S i))) ;;
       flags <~ io_lift (flag_rows (slice newflags lo hi) (FLAG tab)) ;;
       putcol_flag h flags
  else io_ret tt.

Fixpoint apply_all (dryrun : bool) (inset outset : list string)
    (nrows : list nat) (newflags : list bool) (todo : list nat) : IO unit :=
  match todo with
  | [] => io_ret tt
  | i :: rest =>
      _ <~ apply_one dryrun inset outset nrows newflags i ;;
      apply_all dryrun inset outset nrows newflags rest
  end.

Definition as_list (x : string + list string) : list string :=
  match x with
  | inl name => [name]
  | inr names => names
  end.

(** Lines 634-1181. *)
Definition phazer (steps : nat) (a : Args) : IO unit :=
  inset <~ io_lift (match a_inset a with
                    | Some x => Ok (as_list x)
                    | None => Raise TypeError
                    end) ;;
  first <~ io_lift (Py.index inset 0) ;;
  one <~ read_set steps a first (a_baselines a) ;;
  let '(vis, dayflags) := one in
  all <~ read_more steps a (tl inset) (vis, dayflags, [0; List.length (vis_data vis)]%nat) ;;
  let '(vis, dayflags, nrows) := all in
  let loc := mkLocals None
               (if Nat.ltb 1 (List.length inset)
                then Some (Z.of_nat (List.length inset) - 1)%Z else None)
               None in
  newflags <~ io_lift (flag_pass a vis dayflags loc) ;;
  outset <~ io_lift (match a_outset a with
                     | None => Ok inset
                     | Some x =>
                         if Nat.eqb (List.length (as_list x)) (List.length inset)
                         then Ok (as_list x) else Raise TypeError
                     end) ;;
  apply_all (a_dryrun a) inset outset nrows newflags (seq 0 (List.length outset)).

End Phazer.

(** ** The command line ([phazer.py]) *)

(** What [parse_args] returns. *)
Record Namespace : Type := mkNamespace {
  ns_inset : list string;
  ns_outset : list string;
  ns_col : string;
  ns_channels : option string;
  ns_baselines : option string;
  ns_fields : option Z;
  ns_imsize : Z;
  ns_cell : float;
  ns_mode : string;
  ns_pol : string;
  ns_threshmode : string;
  ns_threshold : float;
  ns_radrange : float;
  ns_angle : float;
  ns_vampirisms : bool;
  ns_avantsoleil : float;
  ns_apresnuit : float;
  ns_avantnuit : float;
  ns_apresoleil : float;
  ns_horizon : float;
  ns_nononsoleil : bool;
  ns_uvmin : float;
  ns_uvmax : float;
  ns_flagonlyday : bool;
  ns_show : option string;
  ns_showdir : string;
  ns_dryrun : bool;
  ns_verbose : bool;
  ns_debug : bool
}.

(** Lines 23-216 of [phazer.py]: the namespace of a command line that
    gives the two positional arguments only. *)
Definition parse_defaults (inset outset : list string) : Namespace :=
  mkNamespace inset outset "DATA" None None None 256 1 "all" "i" "fit" 5 0 0
              false 30 60 60 30 (-34) false 0 0 false None "." false false false.

(** [if args.channels:] on a file name or [None]. *)
Definition truthy (x : option string) : bool :=
  match x with
  | Some s => negb (String.eqb s "")
  | None => false
  end.

Section Cli.

(** [np.loadtxt(name, dtype=bool)] and [np.loadtxt(name, dtype=int)]. *)
Variable loadtxt_bool : string -> list bool.
Variable loadtxt_int : string -> list (Z * Z).

(** [(x * units.s).to(units.d).value] and
    [(x * units.arcmin).to(units.rad).value]. *)
Variable seconds_to_days : float -> float.
Variable arcmin_to_rad : float -> float.

(** Lines 228-232: a file name that is given is replaced by the array
    read from the file.  An empty name is not replaced and would reach
    [phazer] as a string, which the arguments of this model cannot be:
    there is no call for it. *)
Definition load_file {A : Type} (loadtxt : string -> A) (x : option string)
    : option (option A) :=
  match x with
  | None => Some None
  | Some name => if truthy x then Some (Some (loadtxt name)) else None
  end.

(** Lines 234-262: the arguments of the call of [phazer].  The margins and
    the horizon are quantities in seconds and arc minutes, turned into
    days and radians where [vampirisms] reads them. *)
Definition cli_args (ns : Namespace) : option Args :=
  match load_file loadtxt_bool (ns_channels ns),
        load_file loadtxt_int (ns_baselines ns) with
  | Some channels, Some baselines =>
      Some (mkArgs (Some (inr (ns_inset ns))) (Some (inr (ns_outset ns)))
                   (ns_col ns) channels baselines
                   (option_map inl (ns_fields ns))
                   (ns_imsize ns) (ns_cell ns) (ns_mode ns) (ns_pol ns)
                   (ns_threshmode ns) (ns_threshold ns) (ns_radrange ns) (ns_angle ns)
                   (ns_flagonlyday ns) (ns_vampirisms ns)
                   (mkMargins (seconds_to_days (ns_avantsoleil ns))
                              (seconds_to_days (ns_apresnuit ns))
                              (seconds_to_days (ns_avantnuit ns))
                              (seconds_to_days (ns_apresoleil ns)))
                   (arcmin_to_rad (- ns_horizon ns))
                   (ns_nononsoleil ns) (ns_uvmin ns) (Some (ns_uvmax ns))
                   (ns_show ns) (ns_dryrun ns))
  | _, _ => None
  end.

End Cli.

(** ** Vocabulary of the properties *)

(** A computation that never returns: it raises in every world. *)
Definition fails {A : Type} (m : IO A) : Prop :=
  forall w : World, exists e, fst (m w) = Raise e.

(** The flags of a table after a step: of the same shape, and set wherever
    they were set. *)
Definition flags_grow (old new : list (list (list bool))) : Prop :=
  Forall2 (Forall2 (Forall2 (fun o n : bool => o = true -> n = true))) old new.

(** A table after a step: only its FLAG column may differ, and only by
    flags that were added. *)
Definition flagged_more (t t' : Table) : Prop :=
  vis_columns t' = vis_columns t /\ UVW t' = UVW t /\ FIELD t' = FIELD t /\
  ANTENNA1 t' = ANTENNA1 t /\ ANTENNA2 t' = ANTENNA2 t /\ TIME t' = TIME t /\
  INTERVAL t' = INTERVAL t /\ CHAN_FREQ t' = CHAN_FREQ t /\
  ANTENNA_NAME t' = ANTENNA_NAME t /\ ANTENNA_POSITION t' = ANTENNA_POSITION t /\
  POSITION_UNITS t' = POSITION_UNITS t /\
  flags_grow (FLAG t) (FLAG t').

(** Every table of [w] is still there in [w'], flagged as before or more. *)
Definition world_grows (w w' : World) : Prop :=
  forall (name : string) (t : Table),
    tables w !! name = Some t ->
    exists t', tables w' !! name = Some t' /\ flagged_more t t'.

Definition only_adds_flags {A : Type} (m : IO A) : Prop :=
  forall w : World, world_grows w (snd (m w)).

(** Whether a time stamp lies in the window around the sunrise or in the
    window around the sunset of one of the periods. *)
Definition in_margins (m : Margins) (periods : list (float * float)) (t : float)
    : bool :=
  existsb (fun p : float * float =>
             in_window (fst p - avantsoleil m) (fst p + apresnuit m) t
             || in_window (snd p - avantnuit m) (snd p + apresoleil m) t)
          periods.

(** The windows of a walk: one bracket a period, or two. *)
Definition in_windows (nononsoleil : bool) (m : Margins)
    (periods : list (float * float)) (t : float) : bool :=
  if nononsoleil then in_daylight m periods t else in_margins m periods t.

(** The arguments of a call with another baseline selection. *)
Definition set_baselines (a : Args) (baselines : option (list (Z * Z))) : Args :=
  mkArgs (a_inset a) (a_outset a) (a_col a) (a_channels a) baselines (a_fields a)
         (a_imsize a) (a_cell a) (a_mode a) (a_pol a) (a_threshmode a) (a_threshold a)
         (a_radrange a) (a_angle a) (a_flagonlyday a) (a_vampirisms a) (a_margins a)
         (a_horizon a) (a_nononsoleil a) (a_uvmin a) (a_uvmax a) (a_show a)
         (a_dryrun a).

(** ** Worked inputs *)

(** Stand-ins for the routines that stay parameters.  The fit of the
    examples fails over to the moments, as [curve_fit] does when it raises;
    the drawn curves are not looked at. *)
Definition ex_exp (x : float) : float := 1.

Definition ex_curve_fit (f : float -> float -> float -> float -> float)
    (xdata : list float) (ydata : list nat) (p0 : float * float * float)
    : option (float * float * float) := None.

Definition ex_ax_hist (values : list float) (bins : nat) : list float :=
  repeat 0 bins.

(** Four samples, each alone in its cell of a 2 x 2 grid. *)
Definition ex_data : list float := [1; 2; 3; 4].

Definition ex_mask : list bool := [false; false; false; false].

Definition ex_grid : list (float * float) :=
  [(0.5, 0.5); (1.5, 0.5); (0.5, 1.5); (1.5, 1.5)].

(** The same samples when two of them are hidden from the statistics. *)
Definition ex_mask_two : list bool := [true; false; true; false].


(** A sun that rises at a quarter and sets at three quarters of every day,
    wherever the observer is. *)
Definition ex_next_rising (etel : Observer) (date : float) : result float :=
  Ok (Np.floor (date - 0.25) + 1.25).

Definition ex_next_setting (etel : Observer) (date : float) : result float :=
  Ok (Np.floor (date - 0.75) + 1.75).

Definition ex_geodetic (xyz : float * float * float) : float * float * float :=
  (0, 0, 0).

Definition ex_arctan2 (y x : float) : float := 0.

Definition ex_sin (x : float) : float := 0.

Definition ex_cos (x : float) : float := 1.

Definition ex_contains_points (path points : list (float * float)) : list bool :=
  map (fun _ => false) points.

(** The worked samples have whole real parts and no imaginary part, where
    [hypot] is exact: the square root of the sum of the squares gives it. *)
Definition ex_hypot (x y : float) : float := PrimFloat.sqrt (x * x + y * y).

(** One visibility row: the same value in two channels and both hands. *)
Definition ex_row (re : float) : list (list Cx.t) :=
  [[(re, 0); (re, 0)]; [(re, 0); (re, 0)]].

Definition ex_noflag : list (list bool) := [[false; false]; [false; false]].

(** A measurement set of four rows, six hours apart from noon on: two
    autocorrelations (rows 0 and 2) and two cross-correlations. *)
Definition ex_ms : Table :=
  mkTable {["DATA" := [ex_row 5; ex_row 1; ex_row 5; ex_row 2]]}
          [ex_noflag; ex_noflag; ex_noflag; ex_noflag]
          [(0, 0, 0); (150.5, 50.5, 0); (0, 0, 0); (-119.5, 80.5, 0)]
          [0; 0; 0; 0]%Z
          [0; 0; 1; 1]%Z
          [0; 1; 1; 2]%Z
          [1297728000; 1297749600; 1297771200; 1297792800]
          [21600; 21600; 21600; 21600]
          [299792458; 299792458]
          ["m000"; "m001"; "m002"]
          [(10, 0, 0); (0, 10, 0); (0, 0, 10)]
          ["m"; "m"; "m"].

(** The same measurement set without its autocorrelation rows. *)
Definition ex_ms_cross : Table :=
  mkTable {["DATA" := [ex_row 1; ex_row 2]]}
          [ex_noflag; ex_noflag]
          [(150.5, 50.5, 0); (-119.5, 80.5, 0)]
          [0; 0]%Z
          [0; 1]%Z
          [1; 2]%Z
          [1297749600; 1297792800]
          [21600; 21600]
          [299792458; 299792458]
          ["m000"; "m001"; "m002"]
          [(10, 0, 0); (0, 10, 0); (0, 0, 10)]
          ["m"; "m"; "m"].

Definition ex_world : World :=
  mkWorld {["in.ms" := ex_ms; "cross.ms" := ex_ms_cross]} [].

(** The same measurement set taken twelve hours later, from midnight on:
    the sun is down when the observation starts. *)
Definition ex_ms_dark : Table :=
  mkTable (vis_columns ex_ms) (FLAG ex_ms) (UVW ex_ms) (FIELD ex_ms) (ANTENNA1 ex_ms)
          (ANTENNA2 ex_ms) [1297771200; 1297792800; 1297814400; 1297836000]
          (INTERVAL ex_ms) (CHAN_FREQ ex_ms) (ANTENNA_NAME ex_ms)
          (ANTENNA_POSITION ex_ms) (POSITION_UNITS ex_ms).

Definition ex_margins : Margins := mkMargins 0 0 0 0.

(** The time stamps of the measurement set, in days, and the daylight
    periods of the walk over it. *)
Definition ex_etimes : list float := [0.5; 0.75; 1; 1.25].

Definition ex_periods : list (float * float) := [(0.375, 0.75); (1.25, 1.75)].

(** The same for the measurement set that starts at midnight. *)
Definition ex_etimes_dark : list float := [1; 1.25; 1.5; 1.75].

Definition ex_periods_dark : list (float * float) := [(1.25, 1.75)].

(** A call as the command line makes it, with the constant policy under
    its name in the code. *)
Definition ex_args (inset : string) (dryrun : bool) : Args :=
  mkArgs (Some (inr [inset])) None "DATA" None None None 512 4 "all" "i" "abs" 0.5
         0 0 false false ex_margins (-0.009890199094634533) true 0 None None dryrun.

Definition ex_phazer (steps : nat) (a : Args) : IO unit :=
  phazer ex_exp ex_curve_fit ex_ax_hist ex_arctan2 ex_sin ex_cos ex_contains_points ex_hypot
         ex_geodetic ex_next_rising ex_next_setting steps a.

Definition ex_flag_pass (a : Args) (vis : Visibilities) : result (list bool) :=
  flag_pass ex_exp ex_curve_fit ex_ax_hist ex_arctan2 ex_sin ex_cos ex_contains_points ex_hypot
            a vis None (mkLocals None None None).

(** Further worked inputs. *)

(** The samples of [ex_data] with the last one not a number. *)
Definition ex_data_nan : list float := [1; 2; 3; nan].

(** What [readdata] returns for [ex_ms], without selection and with the
    second channel and every baseline but (0, 1) deselected. *)
Definition ex_vis : Visibilities :=
  mkVis [[Cx.nan; Cx.nan]; [(1, 0); (1, 0)]; [Cx.nan; Cx.nan]; [(2, 0); (2, 0)]]
        [[true; true]; [false; false]; [true; true]; [false; false]]
        [(0, 0); (150.5, 50.5); (0, 0); (-119.5, 80.5)]
        [0; 0; 1; 1]%Z [0; 1; 1; 2]%Z ["m000"; "m001"; "m002"].

Definition ex_vis_sel : Visibilities :=
  mkVis [[Cx.nan; Cx.nan]; [(1, 0); Cx.nan]; [Cx.nan; Cx.nan]; [Cx.nan; Cx.nan]]
        [[true; true]; [false; true]; [true; true]; [true; true]]
        [(0, 0); (150.5, 50.5); (0, 0); (-119.5, 80.5)]
        [0; 0; 1; 1]%Z [0; 1; 1; 2]%Z ["m000"; "m001"; "m002"].

(** The cell centres that the grid binner gives the rows of [ex_vis]. *)
Definition ex_gruvcoord : list (float * float) :=
  Eval vm_compute in
    match gridding ex_hypot 512 4 0 None (vis_data ex_vis) (vis_flags ex_vis) (vis_uv ex_vis) with
    | Py.Ok p => snd p
    | Py.Raise _ => []
    end.

(** A call of [phazer] on the worked measurement set. *)
Definition ex_call (inset outset : option (string + list string)) (mode pol : string)
    (radrange angle : float) (uvmax : option float) (dryrun : bool) : Args :=
  mkArgs inset outset "DATA" None None None 512 4 mode pol "abs" 0.5
         radrange angle false false ex_margins (-0.009890199094634533) true 0 uvmax
         None dryrun.

(** Margins of an hour and a half, in days. *)
Definition ex_margins_wide : Margins := mkMargins 0.0625 0.0625 0.0625 0.0625.

(** The worked measurement set with an antenna position given in feet. *)
Definition ex_ms_feet : Table :=
  mkTable (vis_columns ex_ms) (FLAG ex_ms) (UVW ex_ms) (FIELD ex_ms) (ANTENNA1 ex_ms)
          (ANTENNA2 ex_ms) (TIME ex_ms) (INTERVAL ex_ms) (CHAN_FREQ ex_ms)
          (ANTENNA_NAME ex_ms) (ANTENNA_POSITION ex_ms) ["m"; "ft"; "m"].

Definition ex_world_feet : World := mkWorld {["feet.ms" := ex_ms_feet]} [].

(** Four cross-correlations in cells of their own, under a fixed
    threshold of 2.5 that only the last two exceed, with the sun up for
    all rows but the last. *)
Definition ex_vis_cross : Visibilities :=
  mkVis [[(1, 0)]; [(2, 0)]; [(3, 0)]; [(4, 0)]]
        [[false]; [false]; [false]; [false]]
        [(150.5, 50.5); (-119.5, 80.5); (500.5, 50.5); (50.5, -400.5)]
        [0; 0; 1; 1]%Z [1; 2; 2; 3]%Z ["m000"; "m001"; "m002"; "m003"].

Definition ex_call_day : Args :=
  mkArgs (Some (inl "in.ms")) None "DATA" None None None 512 4 "all" "i" "abs" 2.5
         0 0 true false ex_margins (-0.009890199094634533) true 0 None None true.

(** The cross-correlations of the worked measurement set taken at six in
    the evening and at midnight, and a call that blanks the night. *)
Definition ex_ms_night : Table :=
  mkTable (vis_columns ex_ms_cross) (FLAG ex_ms_cross) (UVW ex_ms_cross)
          (FIELD ex_ms_cross) (ANTENNA1 ex_ms_cross) (ANTENNA2 ex_ms_cross)
          [1297749600; 1297771200] (INTERVAL ex_ms_cross) (CHAN_FREQ ex_ms_cross)
          (ANTENNA_NAME ex_ms_cross) (ANTENNA_POSITION ex_ms_cross)
          (POSITION_UNITS ex_ms_cross).

Definition ex_world_night : World := mkWorld {["night.ms" := ex_ms_night]} [].

Definition ex_call_night : Args :=
  mkArgs (Some (inl "night.ms")) None "DATA" None None None 512 4 "all" "i" "abs" 2.5
         0 0 false true ex_margins (-0.009890199094634533) true 0 None None true.


(** * Properties *)

Ltac step_bind := cbn [mbind result_bind Py.bind_flip Py.bind Py.read_local].

Ltac step_bind_in H :=
  cbn [mbind result_bind Py.bind_flip Py.bind Py.read_local] in H.

(** ** Floating-point facts *)

Lemma eqb_nan_r (x : float) : PrimFloat.eqb x nan = false.
Proof.
  rewrite FloatAxioms.eqb_spec.
  replace (Prim2SF nan) with S754_nan by reflexivity.
  unfold SFeqb. destruct (Prim2SF x); reflexivity.
Qed.

(** Multiplying by one is exact: the product of the mantissa with 2^52 is
    shifted back by 52 binary places without loss. *)





(** The order of the numbers is transitive, and adding zero does not move a
    number in it. *)








(** ** The sigma-clip *)

Lemma clip_pass_length (sigma : float) (xs : list float) :
  (List.length (Np.clip_pass sigma xs) <= List.length xs)%nat.
Proof. unfold Np.clip_pass. apply List.filter_length_le. Qed.

Lemma clip_iter_stable (fuel : nat) (sigma : float) (xs : list float) :
  (List.length xs < fuel)%nat ->
  List.length (Np.clip_pass sigma (Np.clip_iter fuel sigma xs))
  = List.length (Np.clip_iter fuel sigma xs).
Proof.
  revert xs. induction fuel as [|fuel IH]; intros xs Hlen; [lia|].
  simpl.
  destruct (Nat.eqb_spec (List.length (Np.clip_pass sigma xs)) (List.length xs))
    as [E|E]; [exact E|].
  apply IH. pose proof (clip_pass_length sigma xs). lia.
Qed.

(** The passes of [sigma_clip] end as in the source, on a pass that
    removes nothing: one more pass keeps every retained value. *)
Lemma sigma_clip_stable (a : list float) (sigma : float) :
  List.length (Np.clip_pass sigma (Np.sigma_clip a sigma))
  = List.length (Np.sigma_clip a sigma).
Proof. unfold Np.sigma_clip. apply clip_iter_stable. lia. Qed.

(** ** The clip-mask builder *)

Section HistoclipProperties.

Variable exp : float -> float.
Variable curve_fit :
  (float -> float -> float -> float -> float) ->
  list float -> list nat -> float * float * float -> option (float * float * float).
Variable ax_hist : list float -> nat -> list float.

Lemma clip_mask_lookup (av : list float) (ave std threshold : float)
    (unflags : option (list bool)) :
  unflags_fit unflags av ->
  exists m, clip_mask av ave std threshold unflags = Ok m /\
    List.length m = List.length av /\
    forall i x, nth_error av i = Some x ->
      nth_error m i =
        Some (Np.ge x (ave + threshold * std) && negb (unflag_at unflags i)).
Proof.
  intros Hfit. unfold clip_mask. destruct unflags as [u|]; simpl in *.
  - unfold Np.mul_bool, Np.logical_not.
    rewrite !length_map, Hfit, Nat.eqb_refl.
    eexists; split; [reflexivity|]. split.
    + rewrite length_map, length_combine, !length_map. lia.
    + revert u Hfit. induction av as [|a av IH]; intros u Hfit i x Hi.
      * destruct i; discriminate.
      * destruct u as [|b u]; [discriminate|].
        destruct i as [|i]; simpl in *.
        -- now inversion Hi.
        -- apply IH; [lia|assumption].
  - eexists; split; [reflexivity|]. split; [apply length_map|].
    intros i x Hi. rewrite nth_error_map, Hi. simpl. now rewrite andb_true_r.
Qed.

(** *** Shapes of the histogram *)

Lemma linspace_length (a b : float) (num : nat) :
  (1 <= num)%nat -> List.length (Np.linspace a b num) = num.
Proof.
  intros H. unfold Np.linspace.
  rewrite length_app, length_map, length_seq. simpl. lia.
Qed.

Lemma pairs_of_length (l : list float) :
  List.length (Np.pairs_of l) = (List.length l - 1)%nat.
Proof.
  induction l as [|a [|b l] IH]; simpl in *; try reflexivity.
  rewrite IH. lia.
Qed.

Lemma removelast_length {A : Type} (l : list A) :
  List.length (removelast l) = (List.length l - 1)%nat.
Proof.
  induction l as [|a [|b l] IH]; simpl in *; try reflexivity.
  rewrite IH. lia.
Qed.

Lemma tl_length {A : Type} (l : list A) :
  List.length (tl l) = (List.length l - 1)%nat.
Proof. destruct l; simpl; lia. Qed.

Lemma histogram_lengths (a : list float) (bins : nat) :
  List.length (fst (Np.histogram a bins)) = bins /\
  List.length (snd (Np.histogram a bins)) = S bins.
Proof.
  unfold Np.histogram.
  set (first := match a with [] => 0 | x :: t => Np.amin t x end).
  set (last := match a with [] => 1 | x :: t => Np.amax t x end).
  destruct (PrimFloat.eqb first last); simpl;
    rewrite length_map, length_combine, length_seq, pairs_of_length,
            linspace_length by lia; lia.
Qed.

Lemma argmax_from_lt (l : list nat) (i best_i best : nat) :
  (best_i < i)%nat ->
  (Np.argmax_from l i best_i best < i + List.length l)%nat.
Proof.
  revert i best_i best. induction l as [|x l IH]; intros i bi b H; simpl.
  - lia.
  - destruct (Nat.ltb b x).
    + specialize (IH (S i) i x). lia.
    + specialize (IH (S i) bi b). lia.
Qed.

Lemma argmax_lt (l : list nat) :
  l <> [] -> (Np.argmax l < List.length l)%nat.
Proof.
  destruct l as [|x l]; [congruence|]. intros _. simpl.
  pose proof (argmax_from_lt l 1 0 x). lia.
Qed.

Lemma index_in_range {A : Type} (a : list A) (i : nat) :
  (i < List.length a)%nat -> exists v, Py.index a (Z.of_nat i) = Ok v.
Proof.
  intros H. unfold Py.index.
  destruct (Z.ltb_spec (Z.of_nat i) 0); [lia|].
  destruct (Z.ltb_spec (Z.of_nat i) 0); [lia|].
  destruct (Z.leb_spec (Z.of_nat (List.length a)) (Z.of_nat i)); [lia|].
  simpl. rewrite Nat2Z.id.
  destruct (nth_error a i) eqn:E; [eauto|].
  apply nth_error_None in E. lia.
Qed.

(** The fitting block never raises: the histogram has at least one bin. *)
Lemma fit_block_ok (clipped : list float) (npoints npc : nat) (average stdev : float) :
  exists f, fit_block exp curve_fit clipped npoints npc average stdev = Ok f /\
            List.length (bin_centers f) = (Nat.sqrt npc + 1)%nat /\
            List.length (widthes f) = (Nat.sqrt npc + 1)%nat.
Proof.
  unfold fit_block.
  pose proof (histogram_lengths (List.filter Np.isfinite clipped) (Nat.sqrt npc + 1))
    as [Hh He].
  destruct (Np.histogram _ _) as [hist edges]; simpl in Hh, He.
  set (bc := map _ (combine (removelast edges) (tl edges))).
  set (ws := map (fun p => snd p - fst p) (combine (removelast edges) (tl edges))).
  assert (Hbc : List.length bc = (Nat.sqrt npc + 1)%nat).
  { unfold bc. rewrite length_map, length_combine, removelast_length, tl_length. lia. }
  assert (Hws : List.length ws = (Nat.sqrt npc + 1)%nat).
  { unfold ws. rewrite length_map, length_combine, removelast_length, tl_length. lia. }
  destruct (index_in_range bc (Np.argmax hist)) as [v Hv].
  { rewrite Hbc, <- Hh. apply argmax_lt. destruct hist; simpl in *; [lia|congruence]. }
  rewrite Hv. cbn [mbind result_bind Py.bind_flip Py.bind].
  destruct (curve_fit _ _ _ _).
  - eexists; split; [reflexivity|split; [exact Hbc|exact Hws]].
  - destruct (index_in_range ws 0) as [w Hw]; [lia|].
    change (Z.of_nat 0) with 0%Z in Hw. rewrite Hw.
    eexists; split; [reflexivity|split; [exact Hbc|exact Hws]].
Qed.

Ltac enter_histoclip H :=
  unfold histoclip; cbv zeta;
  rewrite (proj2 (Nat.ltb_ge _ _) H); rewrite !eqb_nan_r.


Lemma histoclip_few_points
    (data : list float) (mask : list bool) (gruvcoord : list (float * float))
    (unflags : option (list bool)) (threshmode : string) (threshold : float)
    (ax : option Axes) (title : string) :
  (npoints_of data mask gruvcoord < 3)%nat ->
  histoclip exp curve_fit ax_hist data mask gruvcoord unflags threshmode
            threshold ax title
  = Ok (repeat false (List.length data), []).
Proof.
  intros H. unfold histoclip; cbv zeta.
  now rewrite (proj2 (Nat.ltb_lt _ _) H).
Qed.

(** C3: with fewer than three finite grid values the call returns the
    all-false mask of the shape of the data, draws nothing and raises
    nothing, whatever the policy, the threshold, the override and the
    plot target are. *)
Theorem histoclip_insufficient_data
    (data : list float) (mask : list bool) (gruvcoord : list (float * float))
    (unflags : option (list bool)) (threshmode : string) (threshold : float)
    (ax : option Axes) (title : string) :
  List.length mask = List.length data ->
  List.length gruvcoord = List.length data ->
  (npoints_of data mask gruvcoord < 3)%nat ->
  histoclip exp curve_fit ax_hist data mask gruvcoord unflags threshmode
            threshold ax title
  = Ok (repeat false (List.length data), []).
Proof. intros _ _ H. now apply histoclip_few_points. Qed.

(** C2 (the code at the failing input): with at least three finite grid
    values the policy string ['fixed'] binds neither [ave] nor [std], and
    the cut raises [UnboundLocalError]. *)
Theorem histoclip_fixed_raises
    (data : list float) (mask : list bool) (gruvcoord : list (float * float))
    (unflags : option (list bool)) (threshold : float)
    (ax : option Axes) (title : string) :
  (3 <= npoints_of data mask gruvcoord)%nat ->
  histoclip exp curve_fit ax_hist data mask gruvcoord unflags "fixed"
            threshold ax title
  = Raise (UnboundLocalError "ave").
Proof.
  intros H. enter_histoclip H.
  destruct ax as [a|]; simpl (_ || _).
  - destruct (fit_block_ok (Np.sigma_clip (uvgridded_of data mask gruvcoord) threshold)
                (npoints_of data mask gruvcoord)
                (List.length (List.filter Np.isfinite
                   (Np.sigma_clip (uvgridded_of data mask gruvcoord) threshold)))
                (Np.nanmean (Np.sigma_clip (uvgridded_of data mask gruvcoord) threshold))
                (Np.nanstd (Np.sigma_clip (uvgridded_of data mask gruvcoord) threshold)))
      as (f & Hf & _).
    rewrite Hf. reflexivity.
  - reflexivity.
Qed.

(** The pair of statistics a listed policy string selects. *)
Lemma select_stats_listed (threshmode : string) (f : fit_locals)
    (average stdev med mad : float) :
  In threshmode ["abs"; "std"; "mad"; "fit"] ->
  let pair := policy_pair threshmode f average stdev med mad in
  (forall fit, threshmode <> "fit" ->
     select_stats threshmode fit average stdev med mad
     = Ok (Some (snd pair, fst pair))) /\
  (threshmode = "fit" ->
     select_stats threshmode (Some f) average stdev med mad
     = Ok (Some (snd pair, fst pair))).
Proof.
  intros [<-|[<-|[<-|[<-|[]]]]]; cbv zeta.
  - split; [reflexivity|discriminate].
  - split; [reflexivity|discriminate].
  - split; [reflexivity|discriminate].
  - destruct f as [bc ws [[p0 p1] p2]]. split; [congruence|reflexivity].
Qed.

(** A call with enough grid values and a listed policy string: the
    statistics, the mask of the cut, and then the plot if one is asked
    for. *)
Lemma histoclip_listed
    (data : list float) (mask : list bool) (gruvcoord : list (float * float))
    (unflags : option (list bool)) (threshmode : string) (threshold : float)
    (title : string) :
  (3 <= npoints_of data mask gruvcoord)%nat ->
  In threshmode ["abs"; "std"; "mad"; "fit"] ->
  unflags_fit unflags data ->
  exists (m : list bool) (f : fit_locals),
    fit_of exp curve_fit data mask gruvcoord threshold = Ok f /\
    List.length (bin_centers f)
      = (Nat.sqrt (npoints_clipped_of data mask gruvcoord threshold) + 1)%nat /\
    List.length (widthes f)
      = (Nat.sqrt (npoints_clipped_of data mask gruvcoord threshold) + 1)%nat /\
    List.length m = List.length data /\
    (forall i x, nth_error data i = Some x ->
       nth_error m i =
         Some (Np.ge x (fst (estimate threshmode f data mask gruvcoord threshold)
                        + threshold
                          * snd (estimate threshmode f data mask gruvcoord threshold))
               && negb (unflag_at unflags i))) /\
    (forall ax : option Axes,
       histoclip exp curve_fit ax_hist data mask gruvcoord unflags threshmode
                 threshold ax title
       = match ax with
         | Some _ =>
             drawn ← plot_of exp ax_hist data mask gruvcoord threshold title f;
             Ok (m, drawn)
         | None => Ok (m, [])
         end).
Proof.
  intros H Hmode Hfit. unfold plot_of, fit_of, estimate, npoints_clipped_of.
  set (clipped := Np.sigma_clip (uvgridded_of data mask gruvcoord) threshold).
  destruct (fit_block_ok clipped (npoints_of data mask gruvcoord)
              (List.length (List.filter Np.isfinite clipped))
              (Np.nanmean clipped) (Np.nanstd clipped)) as (f & Hf & Hbc & Hws).
  destruct (select_stats_listed threshmode f (Np.nanmean clipped) (Np.nanstd clipped)
              (Np.nanmedian clipped) (Np.mad_std clipped) Hmode)
    as (Hother & Hfitmode).
  set (pair := policy_pair threshmode f (Np.nanmean clipped) (Np.nanstd clipped)
                 (Np.nanmedian clipped) (Np.mad_std clipped)) in *.
  destruct (clip_mask_lookup data (fst pair) (snd pair) threshold unflags Hfit)
    as (m & Hm & Hlen & Hnth).
  exists m, f.
  split; [exact Hf|]. split; [exact Hbc|]. split; [exact Hws|].
  split; [exact Hlen|]. split; [exact Hnth|].
  assert (Hstats : forall ax : option Axes,
    (fit ← (if String.eqb threshmode "fit" || Py.is_not_none ax
            then f ← fit_block exp curve_fit clipped (npoints_of data mask gruvcoord)
                       (List.length (List.filter Np.isfinite clipped))
                       (Np.nanmean clipped) (Np.nanstd clipped);
                 Ok (Some f)
            else Ok None);
     select_stats threshmode fit (Np.nanmean clipped) (Np.nanstd clipped)
                  (Np.nanmedian clipped) (Np.mad_std clipped))
    = Ok (Some (snd pair, fst pair))).
  { intros ax. rewrite Hf. step_bind.
    destruct (String.eqb_spec threshmode "fit") as [E|E]; simpl (_ || _).
    - step_bind. now apply Hfitmode.
    - destruct (Py.is_not_none ax); step_bind; now apply Hother. }
  intros ax. enter_histoclip H. fold clipped.
  specialize (Hstats ax). rewrite Hf in *. revert Hstats.
  destruct ax as [a|]; simpl Py.is_not_none; rewrite ?orb_true_r.
  - step_bind. intros ->. step_bind. rewrite Hm. reflexivity.
  - rewrite orb_false_r. destruct (String.eqb threshmode "fit"); step_bind;
      intros ->; step_bind; rewrite Hm; reflexivity.
Qed.


Lemma index_out_of_range {A : Type} (a : list A) (i : nat) :
  (List.length a <= i)%nat -> Py.index a (Z.of_nat i) = Raise IndexError.
Proof.
  intros H. unfold Py.index.
  destruct (Z.ltb_spec (Z.of_nat i) 0); [lia|].
  destruct (Z.ltb_spec (Z.of_nat i) 0); [lia|].
  destruct (Z.leb_spec (Z.of_nat (List.length a)) (Z.of_nat i)); [reflexivity|lia].
Qed.


(** With a single bin the plot block stops at [bin_centers[1]]. *)
Lemma plot_block_single_bin (f : fit_locals) (uvgridded clipped : list float)
    (npoints npc : nat) (average stdev med mad threshold : float) (title : string) :
  List.length (bin_centers f) = 1%nat ->
  plot_block exp ax_hist (Some f) uvgridded clipped npoints npc average stdev med mad
             threshold title
  = Raise IndexError.
Proof.
  intros H. unfold plot_block. step_bind.
  destruct (index_in_range (bin_centers f) 0) as [v Hv]; [lia|].
  change (Z.of_nat 0) with 0%Z in Hv. rewrite Hv. step_bind.
  pose proof (index_out_of_range (bin_centers f) 1) as Hout.
  change (Z.of_nat 1) with 1%Z in Hout. rewrite Hout by lia. reflexivity.
Qed.



(** C5 (the code at the failing inputs): when the sigma-clip leaves no
    finite grid value the histogram has one bin; the call without plot
    target returns its mask and draws nothing, the same call with a plot
    target raises [IndexError] in the plot block and returns no mask. *)
Theorem histoclip_plot_blocks_mask
    (data : list float) (mask : list bool) (gruvcoord : list (float * float))
    (unflags : option (list bool)) (threshmode : string) (threshold : float)
    (a : Axes) (title : string) :
  (3 <= npoints_of data mask gruvcoord)%nat ->
  In threshmode ["abs"; "std"; "mad"; "fit"] ->
  unflags_fit unflags data ->
  npoints_clipped_of data mask gruvcoord threshold = 0%nat ->
  (exists m, histoclip exp curve_fit ax_hist data mask gruvcoord unflags threshmode
                       threshold None title = Ok (m, [])) /\
  histoclip exp curve_fit ax_hist data mask gruvcoord unflags threshmode
            threshold (Some a) title = Raise IndexError.
Proof.
  intros H Hmode Hfit Hnone.
  destruct (histoclip_listed data mask gruvcoord unflags threshmode threshold title
              H Hmode Hfit) as (m & f & _ & Hbc & _ & _ & _ & Hcall).
  split.
  - exists m. apply (Hcall None).
  - rewrite (Hcall (Some a)). unfold plot_of.
    rewrite plot_block_single_bin; [reflexivity|].
    rewrite Hbc, Hnone. reflexivity.
Qed.


(** What the listed policy strings select (the part of C2 the code
    keeps): mean and standard deviation, median and scaled MAD, fitted
    centre and sigma of the sigma-clipped grid, and 0 and 1 for ['abs']. *)
Lemma policy_pair_listed (f : fit_locals) (average stdev med mad : float) :
  policy_pair "std" f average stdev med mad = (average, stdev) /\
  policy_pair "mad" f average stdev med mad = (med, mad) /\
  policy_pair "fit" f average stdev med mad = (fst (fst (popt f)), snd (popt f)) /\
  policy_pair "abs" f average stdev med mad = (0, 1).
Proof. repeat split. Qed.



End HistoclipProperties.

(** *** The clip-mask builder on the worked inputs *)

Lemma ex_enough_points : (3 <= npoints_of ex_data ex_mask ex_grid)%nat.
Proof. vm_compute. lia. Defined.


Lemma histoclip_fixed_raises_witness :
  (3 <= npoints_of ex_data ex_mask ex_grid)%nat /\
  histoclip ex_exp ex_curve_fit ex_ax_hist ex_data ex_mask ex_grid None "fixed" 1
            None "" = Raise (UnboundLocalError "ave").
Proof.
  split; [exact ex_enough_points|].
  exact (histoclip_fixed_raises ex_exp ex_curve_fit ex_ax_hist ex_data ex_mask ex_grid
           None 1 None "" ex_enough_points).
Defined.

Lemma histoclip_insufficient_data_witness :
  List.length ex_mask_two = List.length ex_data /\
  List.length ex_grid = List.length ex_data /\
  (npoints_of ex_data ex_mask_two ex_grid < 3)%nat /\
  histoclip ex_exp ex_curve_fit ex_ax_hist ex_data ex_mask_two ex_grid None "std" 1
            None "" = Ok (repeat false (List.length ex_data), []).
Proof.
  assert (H3 : (npoints_of ex_data ex_mask_two ex_grid < 3)%nat) by (vm_compute; lia).
  split; [reflexivity|]. split; [reflexivity|]. split; [exact H3|].
  exact (histoclip_insufficient_data ex_exp ex_curve_fit ex_ax_hist ex_data ex_mask_two
           ex_grid None "std" 1 None "" eq_refl eq_refl H3).
Defined.

Lemma histoclip_plot_blocks_mask_witness :
  (3 <= npoints_of ex_data ex_mask ex_grid)%nat /\
  In "std" ["abs"; "std"; "mad"; "fit"] /\
  unflags_fit None ex_data /\
  npoints_clipped_of ex_data ex_mask ex_grid 0.5 = 0%nat /\
  (exists m, histoclip ex_exp ex_curve_fit ex_ax_hist ex_data ex_mask ex_grid None
                       "std" 0.5 None "" = Ok (m, [])) /\
  histoclip ex_exp ex_curve_fit ex_ax_hist ex_data ex_mask ex_grid None "std" 0.5
            (Some (Subplot 1 1 1)) "" = Raise IndexError.
Proof.
  assert (H2 : In "std" ["abs"; "std"; "mad"; "fit"]) by (right; left; reflexivity).
  assert (H4 : npoints_clipped_of ex_data ex_mask ex_grid 0.5 = 0%nat)
    by (vm_compute; reflexivity).
  split; [exact ex_enough_points|]. split; [exact H2|]. split; [exact I|].
  split; [exact H4|].
  exact (histoclip_plot_blocks_mask ex_exp ex_curve_fit ex_ax_hist ex_data ex_mask
           ex_grid None "std" 0.5 (Subplot 1 1 1) "" ex_enough_points H2 I H4).
Defined.



(** ** The grouping dispatcher *)

Section DispatchProperties.

Variable exp : float -> float.
Variable curve_fit :
  (float -> float -> float -> float -> float) ->
  list float -> list nat -> float * float * float -> option (float * float * float).
Variable ax_hist : list float -> nat -> list float.

Lemma insert_Z_not_nil (x : Z) (l : list Z) : Np.insert_Z x l <> [].
Proof.
  destruct l as [|h t]; simpl; [discriminate|].
  destruct (x <? h)%Z; [discriminate|].
  destruct (x =? h)%Z; discriminate.
Qed.

Lemma unique_Z_not_nil (l : list Z) : l <> [] -> Np.unique_Z l <> [].
Proof.
  destruct l as [|x l]; [congruence|]. intros _. apply insert_Z_not_nil.
Qed.

(** C4 (the code at the failing input): as soon as one antenna is listed,
    the per-antenna branch stops in its first pass, at the log line that
    reads the local [t] before any assignment to it. *)
Theorem dispatch_antenna_raises
    (data : list float) (gruvcoord : list (float * float))
    (antenna1 antenna2 : list Z) (antennanames : list string)
    (unflags : option (list bool)) (threshmode : string) (threshold : float)
    (show : option string) (i : option Z) (title : option string) :
  antenna1 ++ antenna2 <> [] ->
  dispatch exp curve_fit ax_hist "antenna" data gruvcoord antenna1 antenna2
           antennanames unflags threshmode threshold show (mkLocals None i title)
  = Raise (UnboundLocalError "t").
Proof.
  intros H. unfold dispatch.
  change (String.eqb "antenna" "all") with false.
  change (String.eqb "antenna" "antenna") with true. cbv iota.
  pose proof (unique_Z_not_nil _ H) as Hne.
  destruct (Np.unique_Z (antenna1 ++ antenna2)) as [|a rest]; [congruence|].
  destruct show; reflexivity.
Qed.

End DispatchProperties.

Lemma dispatch_antenna_raises_witness :
  [0%Z; 0%Z; 1%Z; 2%Z] ++ [1%Z; 2%Z; 2%Z; 3%Z] <> [] /\
  dispatch ex_exp ex_curve_fit ex_ax_hist "antenna" ex_data ex_grid
           [0%Z; 0%Z; 1%Z; 2%Z] [1%Z; 2%Z; 2%Z; 3%Z] ["m000"; "m001"; "m002"; "m003"]
           None "std" 1 None (mkLocals None None None)
  = Raise (UnboundLocalError "t").
Proof.
  assert (H : [0%Z; 0%Z; 1%Z; 2%Z] ++ [1%Z; 2%Z; 2%Z; 3%Z] <> []) by discriminate.
  split; [exact H|].
  exact (dispatch_antenna_raises ex_exp ex_curve_fit ex_ax_hist ex_data ex_grid
           [0%Z; 0%Z; 1%Z; 2%Z] [1%Z; 2%Z; 2%Z; 3%Z] ["m000"; "m001"; "m002"; "m003"]
           None "std" 1 None None None H).
Defined.

(** ** The wedge expander *)

Section WedgeProperties.

Variable arctan2 : float -> float -> float.
Variable sin : float -> float.
Variable cos : float -> float.
Variable contains_points : list (float * float) -> list (float * float) -> list bool.

(** C7 (the code at every input): the polygon is never built; the two
    arcs are [zip] iterators and their sum raises [TypeError], so no
    containment test is reached. *)
Theorem wedge_around_centre_raises (coord : float * float) (radrange angle : float) :
  wedge_around_centre arctan2 sin cos coord radrange angle = Raise TypeError.
Proof. reflexivity. Qed.

(** Hence the expansion of a mask with at least one flagged sample raises,
    and keeps a mask without flagged sample as it is. *)
Lemma extend_flags_raises (point : float * float) (rest uv : list (float * float))
    (radrange angle : float) (unflags : option (list bool)) (flagonlyday : bool)
    (newflags : list bool) :
  extend_flags arctan2 sin cos contains_points (point :: rest) uv radrange angle
               unflags flagonlyday newflags
  = Raise TypeError.
Proof. reflexivity. Qed.

End WedgeProperties.

(** ** The solar window walker *)

Section VampirismsProperties.

Variable geodetic : float * float * float -> float * float * float.
Variable next_rising : Observer -> float -> result float.
Variable next_setting : Observer -> float -> result float.

Lemma add_window_length (flags : list bool) (etimes : list float) (lo hi : float) :
  List.length flags = List.length etimes ->
  List.length (add_window flags etimes lo hi) = List.length etimes.
Proof.
  intros H. unfold add_window. rewrite length_map, length_combine. lia.
Qed.

Lemma add_window_nth (flags : list bool) (etimes : list float) (lo hi : float)
    (i : nat) (t : float) :
  List.length flags = List.length etimes ->
  nth_error etimes i = Some t ->
  nth i (add_window flags etimes lo hi) false
  = nth i flags false || in_window lo hi t.
Proof.
  unfold add_window. revert etimes i.
  induction flags as [|b flags IH]; intros [|t' etimes] i Hlen Hi; simpl in *;
    try discriminate.
  - destruct i; discriminate.
  - destruct i as [|i]; simpl in *.
    + now inversion Hi.
    + apply IH; [lia|assumption].
Qed.

(** The budget only decides whether the walk is finished, not what it
    finds: a finished walk lists the periods of the relation. *)
Lemma daylight_periods_walked (steps : nat) (etel : Observer) (m : Margins)
    (eobsend esti : float) (periods : list (float * float)) :
  daylight_periods next_rising next_setting steps etel m eobsend esti = Ok periods ->
  walked next_rising next_setting etel m eobsend esti periods.
Proof.
  revert esti periods. induction steps as [|n IH]; intros esti periods; simpl.
  - destruct (PrimFloat.ltb (esti - avantsoleil m) eobsend) eqn:E; simpl;
      [discriminate|].
    intros [= <-]. now constructor.
  - destruct (PrimFloat.ltb (esti - avantsoleil m) eobsend) eqn:E; simpl.
    + destruct (next_setting etel esti) as [eeti|] eqn:Hs; simpl; [|discriminate].
      destruct (next_rising etel eeti) as [esti'|] eqn:Hr; simpl; [|discriminate].
      destruct (daylight_periods _ _ n etel m eobsend esti') as [rest|] eqn:Hd;
        simpl; [|discriminate].
      intros [= <-]. econstructor; eauto.
    + intros [= <-]. now constructor.
Qed.

(** A budget of one step per period is enough to finish the walk. *)
Lemma walked_daylight_periods (etel : Observer) (m : Margins)
    (eobsend esti : float) (periods : list (float * float)) (steps : nat) :
  walked next_rising next_setting etel m eobsend esti periods ->
  (List.length periods <= steps)%nat ->
  daylight_periods next_rising next_setting steps etel m eobsend esti = Ok periods.
Proof.
  intros H. revert steps.
  induction H as [esti E|esti eeti esti' rest E Hs Hr _ IH]; intros steps Hlen.
  - destruct steps; simpl; now rewrite E.
  - destruct steps as [|n]; simpl in *; [lia|].
    rewrite E, Hs. simpl. rewrite Hr. simpl. rewrite IH by lia. reflexivity.
Qed.

(** The flags of a finished full-daytime walk: what was flagged before, or
    lies in the window of a walked period. *)
Lemma sun_walk_daylight (steps : nat) (etel : Observer) (m : Margins)
    (eobsend : float) (etimes : list float) (esti : float)
    (flags0 flags : list bool) :
  List.length flags0 = List.length etimes ->
  sun_walk next_rising next_setting steps etel m true eobsend etimes esti flags0
    = Ok flags ->
  exists periods,
    daylight_periods next_rising next_setting steps etel m eobsend esti = Ok periods /\
    List.length flags = List.length etimes /\
    forall i t, nth_error etimes i = Some t ->
      nth i flags false = nth i flags0 false || in_daylight m periods t.
Proof.
  revert esti flags0 flags.
  induction steps as [|n IH]; intros esti flags0 flags Hlen; simpl.
  - destruct (PrimFloat.ltb (esti - avantsoleil m) eobsend) eqn:E; simpl;
      [discriminate|].
    intros [= <-]. exists []. repeat split; auto.
    intros i t _. simpl. now rewrite orb_false_r.
  - destruct (PrimFloat.ltb (esti - avantsoleil m) eobsend) eqn:E; simpl.
    + destruct (next_setting etel esti) as [eeti|] eqn:Hs; simpl; [|discriminate].
      destruct (next_rising etel eeti) as [esti'|] eqn:Hr; simpl; [|discriminate].
      intros Hwalk.
      apply IH in Hwalk as (rest & Hd & Hl & Hflags);
        [|now apply add_window_length].
      exists ((esti, eeti) :: rest). rewrite Hd. simpl.
      repeat split; auto.
      intros i t Hi. rewrite (Hflags i t Hi).
      rewrite (add_window_nth _ _ _ _ i t Hlen Hi).
      now rewrite orb_assoc.
    + intros [= <-]. exists []. repeat split; auto.
      intros i t _. simpl. now rewrite orb_false_r.
Qed.

Lemma nth_zeros_bool (n i : nat) : nth i (Np.zeros_bool n) false = false.
Proof.
  unfold Np.zeros_bool. revert i. induction n as [|n IH]; intros [|i]; simpl; auto.
Qed.

(** A walk that finds its periods within the budget returns its flags. *)
Lemma sun_walk_returns (steps : nat) (etel : Observer) (m : Margins)
    (eobsend : float) (etimes : list float) (esti : float)
    (flags0 : list bool) (periods : list (float * float)) :
  daylight_periods next_rising next_setting steps etel m eobsend esti = Ok periods ->
  exists flags,
    sun_walk next_rising next_setting steps etel m true eobsend etimes esti flags0
      = Ok flags.
Proof.
  revert esti flags0 periods.
  induction steps as [|n IH]; intros esti flags0 periods; simpl.
  - destruct (PrimFloat.ltb (esti - avantsoleil m) eobsend); simpl;
      [discriminate|eauto].
  - destruct (PrimFloat.ltb (esti - avantsoleil m) eobsend); simpl; [|eauto].
    destruct (next_setting etel esti) as [eeti|]; simpl; [|discriminate].
    destruct (next_rising etel eeti) as [esti'|]; simpl; [|discriminate].
    destruct (daylight_periods _ _ n etel m eobsend esti') as [rest|] eqn:Hd;
      simpl; [|discriminate].
    intros _. eapply IH. exact Hd.
Qed.

(** The flags that a call with full-daytime flagging and without inversion
    returns. *)
Lemma sun_flags_returned (steps : nat) (t : Table) (lat lon hei : option float)
    (m : Margins) (horizon : float) (flags : list bool) :
  sun_flags geodetic next_rising next_setting steps t lat lon hei m horizon true false
    = Ok flags ->
  exists (etel : Observer) (etimes : list float) (eobstart eobsend esti : float)
         (periods : list (float * float)),
    observer_of geodetic t lat lon hei horizon = Ok etel /\
    observation_span t = Ok (etimes, eobstart, eobsend) /\
    first_rising next_rising next_setting etel eobstart = Ok esti /\
    walked next_rising next_setting etel m eobsend esti periods /\
    List.length flags = List.length etimes /\
    (forall i tm, nth_error etimes i = Some tm ->
       nth i flags false = in_daylight m periods tm).
Proof.
  unfold sun_flags.
  destruct (observer_of geodetic t lat lon hei horizon) as [etel|] eqn:Ho;
    simpl; [|discriminate].
  destruct (observation_span t) as [[[etimes eobstart] eobsend]|] eqn:Hspan;
    simpl; [|discriminate].
  destruct (first_rising next_rising next_setting etel eobstart) as [esti|] eqn:Hfirst;
    simpl; [|discriminate].
  destruct (sun_walk _ _ steps etel m true eobsend etimes esti _) as [fl|] eqn:Hwalk;
    simpl; [|discriminate].
  intros [= <-].
  apply sun_walk_daylight in Hwalk as (periods & Hd & Hl & Hflags);
    [|unfold Np.zeros_bool; apply repeat_length].
  exists etel, etimes, eobstart, eobsend, esti, periods.
  pose proof (daylight_periods_walked _ _ _ _ _ _ Hd) as Hw.
  repeat split; auto.
  intros i tm Hi. now rewrite (Hflags i tm Hi), nth_zeros_bool.
Qed.

(** Where the walk starts: at the start of the observation when the sun
    is up then (the next setting comes before the next rising), at the
    next rising otherwise. *)
Lemma first_rising_start (etel : Observer) (eobstart rising setting : float) :
  next_rising etel eobstart = Ok rising ->
  next_setting etel eobstart = Ok setting ->
  first_rising next_rising next_setting etel eobstart
  = Ok (if PrimFloat.ltb setting rising then eobstart else rising).
Proof.
  intros Hr Hs. unfold first_rising. rewrite Hr, Hs. step_bind.
  destruct (PrimFloat.ltb setting rising); reflexivity.
Qed.

(** C8: with full-daytime flagging and without inversion.  The walk
    starts at the start of the observation when the sun is up then (the
    next setting comes before the next rising), and at the next rising
    after the start otherwise.  Once the walk from there goes through the
    daylight periods [periods] within the step budget, the call returns,
    and a time stamp is flagged exactly when it lies, bounds included, in
    the window [esti - avantsoleil, eeti + apresoleil] of one of these
    periods.  The first period begins where the walk starts. *)
Theorem sun_flags_daylight (steps : nat) (t : Table) (lat lon hei : option float)
    (m : Margins) (horizon : float) (etel : Observer) (etimes : list float)
    (eobstart eobsend rising setting : float) (periods : list (float * float)) :
  observer_of geodetic t lat lon hei horizon = Ok etel ->
  observation_span t = Ok (etimes, eobstart, eobsend) ->
  next_rising etel eobstart = Ok rising ->
  next_setting etel eobstart = Ok setting ->
  walked next_rising next_setting etel m eobsend
         (if PrimFloat.ltb setting rising then eobstart else rising) periods ->
  (List.length periods <= steps)%nat ->
  exists flags,
    sun_flags geodetic next_rising next_setting steps t lat lon hei m horizon
              true false = Ok flags /\
    List.length flags = List.length etimes /\
    (forall i tm, nth_error etimes i = Some tm ->
       (nth i flags false = true <->
        exists esti' eeti',
          In (esti', eeti') periods /\
          Np.ge tm (esti' - avantsoleil m) = true /\
          Np.ge (eeti' + apresoleil m) tm = true)) /\
    (forall first rest,
       periods = first :: rest ->
       fst first = (if PrimFloat.ltb setting rising then eobstart else rising) /\
       next_setting etel (fst first) = Ok (snd first)).
Proof.
  intros Ho Hspan Hr Hs Hw Hsteps.
  set (esti := if PrimFloat.ltb setting rising then eobstart else rising) in *.
  pose proof (first_rising_start etel eobstart rising setting Hr Hs) as Hfirst.
  fold esti in Hfirst.
  pose proof (walked_daylight_periods etel m eobsend esti periods steps Hw Hsteps)
    as Hd.
  destruct (sun_walk_returns steps etel m eobsend etimes esti
              (Np.zeros_bool (List.length etimes)) periods Hd) as [flags Hwalk].
  exists flags.
  assert (Hcall : sun_flags geodetic next_rising next_setting steps t lat lon hei m
                            horizon true false = Ok flags).
  { unfold sun_flags. rewrite Ho. simpl. rewrite Hspan. simpl.
    rewrite Hfirst. simpl. rewrite Hwalk. reflexivity. }
  apply sun_walk_daylight in Hwalk as (periods' & Hd' & Hl & Hflags);
    [|unfold Np.zeros_bool; apply repeat_length].
  assert (periods' = periods) as -> by congruence.
  split; [exact Hcall|]. split; [exact Hl|]. split.
  - intros i tm Hi. rewrite (Hflags i tm Hi), nth_zeros_bool. simpl.
    unfold in_daylight. rewrite existsb_exists. split.
    + intros [[a b] [Hin Hwin]]. exists a, b. split; [exact Hin|].
      unfold in_window in Hwin. now apply andb_prop in Hwin.
    + intros (a & b & Hin & H1 & H2). exists (a, b). split; [exact Hin|].
      unfold in_window. simpl. now rewrite H1, H2.
  - intros first rest ->. inversion Hw; subst. split; [reflexivity|assumption].
Qed.

End VampirismsProperties.

(** *** The walk over the worked measurement set: the sun is up at the
    start, sets, and rises again before the end. *)

Lemma sun_flags_daylight_witness :
  (observer_of ex_geodetic ex_ms None None None 0 = Ok (mkObserver 0 0 0 0) /\
   observation_span ex_ms = Ok (ex_etimes, 0.375, 1.375) /\
   ex_next_rising (mkObserver 0 0 0 0) 0.375 = Ok 1.25 /\
   ex_next_setting (mkObserver 0 0 0 0) 0.375 = Ok 0.75 /\
   walked ex_next_rising ex_next_setting (mkObserver 0 0 0 0) ex_margins 1.375
          (if PrimFloat.ltb 0.75 1.25 then 0.375 else 1.25) ex_periods /\
   (List.length ex_periods <= 5)%nat /\
   sun_flags ex_geodetic ex_next_rising ex_next_setting 5 ex_ms None None None
             ex_margins 0 true false = Ok [true; true; false; true] /\
   exists flags,
     sun_flags ex_geodetic ex_next_rising ex_next_setting 5 ex_ms None None None
               ex_margins 0 true false = Ok flags /\
     List.length flags = List.length ex_etimes /\
     (forall i tm, nth_error ex_etimes i = Some tm ->
        (nth i flags false = true <->
         exists esti' eeti',
           In (esti', eeti') ex_periods /\
           Np.ge tm (esti' - avantsoleil ex_margins) = true /\
           Np.ge (eeti' + apresoleil ex_margins) tm = true)) /\
     (forall first rest,
        ex_periods = first :: rest ->
        fst first = (if PrimFloat.ltb 0.75 1.25 then 0.375 else 1.25) /\
        ex_next_setting (mkObserver 0 0 0 0) (fst first) = Ok (snd first))) /\
  (observer_of ex_geodetic ex_ms_dark None None None 0 = Ok (mkObserver 0 0 0 0) /\
   observation_span ex_ms_dark = Ok (ex_etimes_dark, 0.875, 1.875) /\
   ex_next_rising (mkObserver 0 0 0 0) 0.875 = Ok 1.25 /\
   ex_next_setting (mkObserver 0 0 0 0) 0.875 = Ok 1.75 /\
   walked ex_next_rising ex_next_setting (mkObserver 0 0 0 0) ex_margins 1.875
          (if PrimFloat.ltb 1.75 1.25 then 0.875 else 1.25) ex_periods_dark /\
   (List.length ex_periods_dark <= 5)%nat /\
   sun_flags ex_geodetic ex_next_rising ex_next_setting 5 ex_ms_dark None None None
             ex_margins 0 true false = Ok [false; true; true; true] /\
   exists flags,
     sun_flags ex_geodetic ex_next_rising ex_next_setting 5 ex_ms_dark None None None
               ex_margins 0 true false = Ok flags /\
     List.length flags = List.length ex_etimes_dark /\
     (forall i tm, nth_error ex_etimes_dark i = Some tm ->
        (nth i flags false = true <->
         exists esti' eeti',
           In (esti', eeti') ex_periods_dark /\
           Np.ge tm (esti' - avantsoleil ex_margins) = true /\
           Np.ge (eeti' + apresoleil ex_margins) tm = true)) /\
     (forall first rest,
        ex_periods_dark = first :: rest ->
        fst first = (if PrimFloat.ltb 1.75 1.25 then 0.875 else 1.25) /\
        ex_next_setting (mkObserver 0 0 0 0) (fst first) = Ok (snd first))).
Proof.
  assert (H1 : observer_of ex_geodetic ex_ms None None None 0 = Ok (mkObserver 0 0 0 0))
    by (vm_compute; reflexivity).
  assert (H2 : observation_span ex_ms = Ok (ex_etimes, 0.375, 1.375))
    by (vm_compute; reflexivity).
  assert (H3 : ex_next_rising (mkObserver 0 0 0 0) 0.375 = Ok 1.25)
    by (vm_compute; reflexivity).
  assert (H4 : ex_next_setting (mkObserver 0 0 0 0) 0.375 = Ok 0.75)
    by (vm_compute; reflexivity).
  assert (H5 : walked ex_next_rising ex_next_setting (mkObserver 0 0 0 0) ex_margins
                      1.375 (if PrimFloat.ltb 0.75 1.25 then 0.375 else 1.25)
                      ex_periods).
  { apply (daylight_periods_walked ex_next_rising ex_next_setting 5).
    vm_compute. reflexivity. }
  assert (H6 : (List.length ex_periods <= 5)%nat) by (simpl; lia).
  assert (D1 : observer_of ex_geodetic ex_ms_dark None None None 0
               = Ok (mkObserver 0 0 0 0)) by (vm_compute; reflexivity).
  assert (D2 : observation_span ex_ms_dark = Ok (ex_etimes_dark, 0.875, 1.875))
    by (vm_compute; reflexivity).
  assert (D3 : ex_next_rising (mkObserver 0 0 0 0) 0.875 = Ok 1.25)
    by (vm_compute; reflexivity).
  assert (D4 : ex_next_setting (mkObserver 0 0 0 0) 0.875 = Ok 1.75)
    by (vm_compute; reflexivity).
  assert (D5 : walked ex_next_rising ex_next_setting (mkObserver 0 0 0 0) ex_margins
                      1.875 (if PrimFloat.ltb 1.75 1.25 then 0.875 else 1.25)
                      ex_periods_dark).
  { apply (daylight_periods_walked ex_next_rising ex_next_setting 5).
    vm_compute. reflexivity. }
  assert (D6 : (List.length ex_periods_dark <= 5)%nat) by (simpl; lia).
  split.
  - split; [exact H1|]. split; [exact H2|]. split; [exact H3|]. split; [exact H4|].
    split; [exact H5|]. split; [exact H6|]. split; [vm_compute; reflexivity|].
    exact (sun_flags_daylight ex_geodetic ex_next_rising ex_next_setting 5 ex_ms
             None None None ex_margins 0 (mkObserver 0 0 0 0) ex_etimes
             0.375 1.375 1.25 0.75 ex_periods H1 H2 H3 H4 H5 H6).
  - split; [exact D1|]. split; [exact D2|]. split; [exact D3|]. split; [exact D4|].
    split; [exact D5|]. split; [exact D6|]. split; [vm_compute; reflexivity|].
    exact (sun_flags_daylight ex_geodetic ex_next_rising ex_next_setting 5 ex_ms_dark
             None None None ex_margins 0 (mkObserver 0 0 0 0) ex_etimes_dark
             0.875 1.875 1.25 1.75 ex_periods_dark D1 D2 D3 D4 D5 D6).
Defined.

(** The flags of that walk: noon and the evening sample lie in the first
    period, midnight in no period, the next morning in the second. *)
Lemma ex_sun_flags :
  sun_flags ex_geodetic ex_next_rising ex_next_setting 5 ex_ms None None None
            ex_margins 0 true false = Ok [true; true; false; true].
Proof. vm_compute. reflexivity. Qed.

(** ** Reading the visibilities *)

Section ReaddataProperties.

Variable hypot : float -> float -> float.

Lemma Forall2_nth_error {A B : Type} (R : A -> B -> Prop) (l : list A) (l' : list B)
    (i : nat) (x : A) :
  Forall2 R l l' -> nth_error l i = Some x ->
  exists y, nth_error l' i = Some y /\ R x y.
Proof.
  intros H. revert i. induction H as [|a b l l' Hab _ IH]; intros [|i] Hi;
    simpl in *; try discriminate.
  - inversion Hi; subst. eauto.
  - now apply IH.
Qed.

Lemma mapM_Forall2 {A B : Type} (f : A -> result B) (l : list A) (l' : list B) :
  Py.mapM f l = Ok l' -> Forall2 (fun x y => f x = Ok y) l l'.
Proof.
  revert l'. induction l as [|x l IH]; intros l'; simpl.
  - intros [= <-]. constructor.
  - destruct (f x) as [y|] eqn:Hx; [|discriminate].
    destruct (Py.mapM f l) as [ys|]; [|discriminate].
    intros [= <-]. constructor; auto.
Qed.

Lemma keeps_refl (flags : list (list bool)) : keeps flags flags.
Proof. induction flags; constructor; auto. Qed.

Lemma keeps_trans (f1 f2 f3 : list (list bool)) :
  keeps f1 f2 -> keeps f2 f3 -> keeps f1 f3.
Proof.
  unfold keeps. intros H12. revert f3.
  induction H12 as [|a b l l' [Hl Hab] _ IH]; intros f3 H23; inversion H23; subst.
  - constructor.
  - constructor; [|now apply IH].
    destruct H1 as [Hl' Hbc]. split; [congruence|auto].
Qed.

Lemma all_true_const (row : list bool) :
  Forall (fun b => b = true) (map (fun _ : bool => true) row).
Proof. induction row; simpl; constructor; auto. Qed.

Lemma set_rows_keeps (rows : list bool) (flags flags' : list (list bool)) :
  set_rows rows flags = Ok flags' -> keeps flags flags'.
Proof.
  unfold set_rows.
  destruct (Nat.eqb_spec (List.length rows) (List.length flags)) as [Hlen|];
    [|discriminate].
  intros [= <-]. revert rows Hlen.
  induction flags as [|row flags IH]; intros [|b rows] Hlen; simpl in *;
    try discriminate; constructor.
  - destruct b; simpl.
    + split; [apply length_map|]. intros _. apply all_true_const.
    + split; auto.
  - apply IH. lia.
Qed.

Lemma set_rows_sets (rows : list bool) (flags flags' : list (list bool)) (r : nat) :
  set_rows rows flags = Ok flags' ->
  nth_error rows r = Some true ->
  exists old new, nth_error flags r = Some old /\ nth_error flags' r = Some new /\
                  List.length new = List.length old /\
                  Forall (fun b => b = true) new.
Proof.
  unfold set_rows.
  destruct (Nat.eqb_spec (List.length rows) (List.length flags)) as [Hlen|];
    [|discriminate].
  intros [= <-]. revert rows r Hlen.
  induction flags as [|row flags IH]; intros [|b rows] r Hlen Hr; simpl in *;
    try discriminate.
  - destruct r; discriminate.
  - destruct r as [|r]; simpl in *.
    + inversion Hr; subst. exists row, (map (fun _ => true) row).
      repeat split; auto using length_map, all_true_const.
    + apply IH; [lia|assumption].
Qed.

Lemma set_cols_keeps (cols : list bool) (flags flags' : list (list bool)) :
  set_cols cols flags = Ok flags' -> keeps flags flags'.
Proof.
  unfold set_cols. intros H. apply mapM_Forall2 in H.
  induction H as [|row row' l l' Hrow _ IH]; constructor; auto.
  destruct (Nat.eqb_spec (List.length cols) (List.length row)) as [Hlen|];
    [|discriminate].
  inversion Hrow; subst; clear Hrow. split.
  - rewrite length_map, length_combine. lia.
  - clear IH. revert cols Hlen.
    induction row as [|b row IHr]; intros [|c cols] Hlen Hall; simpl in *;
      try discriminate; constructor.
    + inversion Hall; subst. apply orb_true_r.
    + inversion Hall; subst. apply IHr; [lia|assumption].
Qed.

Lemma keeps_row (flags flags' : list (list bool)) (r : nat) (old : list bool) :
  keeps flags flags' ->
  nth_error flags r = Some old ->
  Forall (fun b => b = true) old ->
  exists new, nth_error flags' r = Some new /\
              List.length new = List.length old /\
              Forall (fun b => b = true) new.
Proof.
  intros Hk Hr Hall.
  destruct (Forall2_nth_error _ _ _ _ _ Hk Hr) as (new & Hn & Hl & Himp).
  exists new. auto.
Qed.

Lemma blank_row (data : list (list Cx.t)) (flags : list (list bool)) (r : nat)
    (drow : list Cx.t) (frow : list bool) :
  nth_error data r = Some drow ->
  nth_error flags r = Some frow ->
  Forall (fun b => b = true) frow ->
  exists out, nth_error (blank data flags) r = Some out /\
              List.length out = Nat.min (List.length drow) (List.length frow) /\
              Forall (fun z => z = Cx.nan) out.
Proof.
  intros Hd Hf Hall. unfold blank.
  exists (map (fun c : Cx.t * bool => if snd c then Cx.nan else fst c)
              (combine drow frow)).
  split; [|split].
  - revert flags r Hd Hf. induction data as [|d data IH]; intros [|f flags] [|r] Hd Hf;
      simpl in *; try discriminate.
    + inversion Hd; inversion Hf; subst. reflexivity.
    + now apply IH.
  - now rewrite length_map, length_combine.
  - clear Hd Hf. revert drow. induction Hall as [|b frow Hb _ IH]; intros [|z drow];
      simpl; constructor; subst; auto.
Qed.

Lemma mapM_length {A B : Type} (f : A -> result B) (l : list A) (l' : list B) :
  Py.mapM f l = Ok l' -> List.length l' = List.length l.
Proof.
  intros H. apply mapM_Forall2 in H. symmetry. eapply Forall2_length; eauto.
Qed.

(** The combined visibilities have the shape of the flags read with them. *)
Lemma stokes_shape (pol_q : bool) (data3 : list (list (list Cx.t)))
    (flags3 : list (list (list bool))) (hands : list (list (bool * bool)))
    (data : list (list Cx.t)) :
  Py.mapM (fun r : list (list Cx.t) * list (list bool) =>
             Py.mapM hands_cell (combine (fst r) (snd r)))
          (combine data3 flags3) = Ok hands ->
  stokes pol_q data3 hands = Ok data ->
  Forall2 (fun (d : list Cx.t) (h : list (bool * bool)) =>
             List.length d = List.length h) data hands.
Proof.
  unfold stokes. revert flags3 hands data.
  induction data3 as [|d3 data3 IH]; intros flags3 hands data; simpl.
  - intros [= <-]. simpl. intros [= <-]. constructor.
  - destruct flags3 as [|f3 flags3]; simpl.
    + intros [= <-]. simpl. intros [= <-]. constructor.
    + destruct (Py.mapM hands_cell (combine d3 f3)) as [h|] eqn:Hh; [|discriminate].
      destruct (Py.mapM _ (combine data3 flags3)) as [hs|] eqn:Hhs; [|discriminate].
      intros [= <-]. simpl.
      destruct (Py.mapM (stokes_cell pol_q) (combine d3 h)) as [d|] eqn:Hd;
        [|discriminate].
      destruct (Py.mapM _ (combine data3 hs)) as [ds|] eqn:Hds; [|discriminate].
      intros [= <-]. constructor.
      * apply mapM_length in Hh, Hd. rewrite length_combine in Hh, Hd. lia.
      * eapply IH; eauto.
Qed.

Lemma Forall2_nth_error_r {A B : Type} (R : A -> B -> Prop) (l : list A)
    (l' : list B) (i : nat) (y : B) :
  Forall2 R l l' -> nth_error l' i = Some y ->
  exists x, nth_error l i = Some x /\ R x y.
Proof.
  intros H. revert i. induction H as [|a b l l' Hab _ IH]; intros [|i] Hi;
    simpl in *; try discriminate.
  - inversion Hi; subst. eauto.
  - now apply IH.
Qed.

Lemma nth_error_combine {A B : Type} (l : list A) (l' : list B) (i : nat)
    (x : A) (y : B) :
  nth_error l i = Some x -> nth_error l' i = Some y ->
  nth_error (combine l l') i = Some (x, y).
Proof.
  revert l' i. induction l as [|a l IH]; intros [|b l'] [|i] Hx Hy; simpl in *;
    try discriminate.
  - now inversion Hx; inversion Hy.
  - now apply IH.
Qed.

Ltac inv_bind H :=
  match type of H with
  | @mbind _ _ _ _ _ ?m = Ok _ =>
      let E := fresh "E" in
      destruct m eqn:E; cbn [mbind result_bind Py.bind_flip Py.bind] in H;
      [|discriminate H]
  end.

(** The first half of C10, which the code keeps: whenever [readdata]
    returns, every row whose two antennas are the same is flagged in every
    channel and its visibilities are NaN in every channel, for every column,
    field, channel and baseline selection and both polarisation choices. *)
Lemma readdata_blanks_autocorrelations (t : Table) (col : string)
    (fields : option (Z + list Z)) (channels : option (list bool))
    (baselines : option (list (Z * Z))) (pol : string) (vis : Visibilities)
    (r : nat) (a : Z) :
  readdata_columns t col fields channels baselines pol = Ok vis ->
  nth_error (ANTENNA1 t) r = Some a ->
  nth_error (ANTENNA2 t) r = Some a ->
  exists (frow : list bool) (drow : list Cx.t),
    nth_error (vis_flags vis) r = Some frow /\
    nth_error (vis_data vis) r = Some drow /\
    List.length drow = List.length frow /\
    Forall (fun b => b = true) frow /\
    Forall (fun z => z = Cx.nan) drow.
Proof.
  intros H H1 H2. unfold readdata_columns in H.
  inv_bind H. rename a0 into data3. clear E.
  inv_bind H. rename a0 into hands. rename E into Hhands.
  inv_bind H. destruct a0 as [data flags0]. rename E into Hpol.
  assert (Hshape : Forall2 (fun (d : list Cx.t) (f : list bool) =>
                              List.length d = List.length f) data flags0).
  { assert (Hst : exists pol_q g,
              stokes pol_q data3 hands = Ok data /\
              flags0 = map (map g) (map (map stflags_of) hands)).
    { destruct (String.eqb pol "i").
      - inv_bind Hpol. inversion Hpol; subst. eauto.
      - destruct (String.eqb pol "q"); [|discriminate].
        inv_bind Hpol. inversion Hpol; subst. eauto. }
    destruct Hst as (pol_q & g & Hst & ->).
    pose proof (stokes_shape pol_q data3 (FLAG t) hands data Hhands Hst) as Hs.
    clear - Hs. induction Hs as [|d h ds hs Hdh _ IH]; simpl; constructor; auto.
    now rewrite !length_map. }
  clear Hpol Hhands.
  inv_bind H. rename a0 into flagsF. rename E into Hfields.
  inv_bind H. rename a0 into flagsA. rename E into Hauto.
  inv_bind H. rename a0 into flagsC. rename E into Hchan.
  inv_bind H. rename a0 into flagsB. rename E into Hbase.
  inversion H; subst; clear H. simpl.
  assert (HkF : keeps flags0 flagsF).
  { destruct fields; [eapply set_rows_keeps; eauto|].
    inversion Hfields; subst. apply keeps_refl. }
  assert (HkC : keeps flagsA flagsC).
  { destruct channels; [eapply set_cols_keeps; eauto|].
    inversion Hchan; subst. apply keeps_refl. }
  assert (HkB : keeps flagsC flagsB).
  { destruct baselines; [eapply set_rows_keeps; eauto|].
    inversion Hbase; subst. apply keeps_refl. }
  assert (Hmask : nth_error (map (fun p : Z * Z => Z.eqb (fst p) (snd p))
                                 (combine (ANTENNA1 t) (ANTENNA2 t))) r = Some true).
  { rewrite nth_error_map, (nth_error_combine _ _ _ _ _ H1 H2). simpl.
    now rewrite Z.eqb_refl. }
  destruct (set_rows_sets _ _ _ r Hauto Hmask) as (old & new & Hold & Hnew & Hl & Hall).
  destruct (keeps_row _ _ _ _ HkC Hnew Hall) as (rowC & HrC & HlC & HallC).
  destruct (keeps_row _ _ _ _ HkB HrC HallC) as (frow & HrB & HlB & HallB).
  destruct (Forall2_nth_error_r _ _ _ _ _ HkF Hold) as (f0row & Hf0 & Hl0 & _).
  destruct (Forall2_nth_error_r _ _ _ _ _ Hshape Hf0) as (drow & Hd & Hld).
  destruct (blank_row data flagsB r drow frow Hd HrB HallB) as (out & Hout & Hlo & Hnan).
  exists frow, out. repeat split; auto. lia.
Qed.

(** A row that is flagged in every channel is a member of no cell of the
    grid: its visibilities enter no cell average. *)
Lemma cell_members_flagged (u v : list float) (flags : list (list bool))
    (uvmin : float) (uvmax : option float) (duv uu vv : float) (r : nat)
    (frow : list bool) :
  nth_error flags r = Some frow ->
  Forall (fun b => b = true) frow ->
  nth r (cell_members u v (map (forallb (fun b => b)) flags) uvmin uvmax duv uu vv)
      false = false.
Proof.
  intros Hr Hall. unfold cell_members.
  assert (Hc : nth_error (map (forallb (fun b => b)) flags) r = Some true).
  { rewrite nth_error_map, Hr. simpl. f_equal.
    apply forallb_forall. intros b Hb.
    exact (proj1 (List.Forall_forall _ _) Hall b Hb). }
  revert Hc. generalize (map (forallb (fun b => b)) flags) as collaflags.
  generalize (combine u v) as uv. clear.
  intros uv. revert r. induction uv as [|p uv IH]; intros r collaflags Hc.
  - now destruct r.
  - destruct collaflags as [|c collaflags]; [now destruct r|].
    destruct r as [|r]; simpl in *.
    + now inversion Hc.
    + now apply IH.
Qed.

Lemma assign_keeps {A : Type} (sel : list bool) (x : A) (a : list A) (r : nat) (v : A) :
  nth_error sel r = Some false -> nth_error a r = Some v ->
  nth_error (Np.assign sel x a) r = Some v.
Proof.
  intros Hs Ha. unfold Np.assign.
  rewrite nth_error_map, (nth_error_combine _ _ _ _ _ Hs Ha). reflexivity.
Qed.

Lemma cell_members_flagged_at (u v : list float) (collaflags : list bool)
    (uvmin : float) (uvmax : option float) (duv uu vv : float) (r : nat)
    (p : float * float) :
  nth_error collaflags r = Some true ->
  nth_error (combine u v) r = Some p ->
  nth_error (cell_members u v collaflags uvmin uvmax duv uu vv) r = Some false.
Proof.
  intros Hc Hp. unfold cell_members.
  rewrite nth_error_map, (nth_error_combine _ _ _ _ _ Hp Hc). reflexivity.
Qed.

Lemma grid_cells_flagged_row (u v : list float) (collaflags : list bool)
    (data : list (list Cx.t)) (uvmin : float) (uvmax : option float) (duv : float)
    (cells : list (float * float)) (st : list float * list (float * float))
    (r : nat) (p : float * float) :
  nth_error collaflags r = Some true ->
  nth_error (combine u v) r = Some p ->
  nth_error (fst st) r = Some 0 ->
  nth_error (snd st) r = Some (0, 0) ->
  nth_error (fst (fold_left (grid_cell hypot u v collaflags data uvmin uvmax duv) cells st)) r
    = Some 0 /\
  nth_error (snd (fold_left (grid_cell hypot u v collaflags data uvmin uvmax duv) cells st)) r
    = Some (0, 0).
Proof.
  intros Hc Hp. revert st.
  induction cells as [|[uu vv] cells IH]; intros st H1 H2; simpl; [now split|].
  apply IH; unfold grid_cell;
    destruct (existsb _ _); simpl; auto;
    apply assign_keeps; auto; eapply cell_members_flagged_at; eauto.
Qed.

(** X7: a row that is flagged in every channel leaves the grid binner as
    it entered it: with the scalar average 0 and the cell centre (0, 0) of
    the initial arrays. *)
Lemma gridding_flagged_row (imsize : Z) (cell uvmin : float) (uvmax : option float)
    (data : list (list Cx.t)) (flags : list (list bool)) (uv : list (float * float))
    (nmdata : list float) (gruvcoord : list (float * float)) (r : nat)
    (drow : list Cx.t) (frow : list bool) (p : float * float) :
  gridding hypot imsize cell uvmin uvmax data flags uv = Ok (nmdata, gruvcoord) ->
  nth_error data r = Some drow ->
  nth_error flags r = Some frow ->
  nth_error uv r = Some p ->
  Forall (fun b => b = true) frow ->
  nth_error nmdata r = Some 0 /\ nth_error gruvcoord r = Some (0, 0).
Proof.
  intros H Hd Hf Hp Hall. unfold gridding in H.
  destruct (uv_cell imsize cell) as [duv|]; step_bind_in H; [|discriminate].
  destruct (uv_grid uvmax uv duv) as [[ugrid vgrid]|]; step_bind_in H; [|discriminate].
  destruct (Py.index (hd [] data) 0); step_bind_in H; [|discriminate].
  injection H as H.
  change nmdata with (fst (nmdata, gruvcoord));
    change gruvcoord with (snd (nmdata, gruvcoord)) at 2; rewrite <- H.
  apply grid_cells_flagged_row with (p := (fst p, snd p)).
  - rewrite nth_error_map, Hf. simpl. f_equal. apply forallb_forall.
    intros b Hb. exact (proj1 (List.Forall_forall _ _) Hall b Hb).
  - apply (nth_error_combine (map fst uv) (map snd uv));
      rewrite nth_error_map, Hp; reflexivity.
  - apply nth_error_repeat. apply nth_error_Some. congruence.
  - apply nth_error_repeat. apply nth_error_Some. congruence.
Qed.

(** Such a row, which the all-false mask of the dispatcher does not hide,
    populates the cell (0, 0) of the grid that [histoclip] builds for its
    statistics. *)
Lemma active_visibs_flagged_row (av : list float) (gruvcoord : list (float * float))
    (mask : list bool) (r : nat) (x : float) :
  nth_error av r = Some x ->
  nth_error gruvcoord r = Some (0, 0) ->
  nth_error mask r = Some false ->
  active_visibs av gruvcoord mask 0 0 <> [].
Proof.
  revert gruvcoord mask r.
  induction av as [|a av IH]; intros [|g gr] [|m mask] [|r] Ha Hg Hm;
    simpl in *; try discriminate.
  - injection Hg as ->. injection Hm as ->. simpl. discriminate.
  - destruct (_ && _); [discriminate|]. eapply IH; eauto.
Qed.

End ReaddataProperties.

(** *** The autocorrelation rows of the worked measurement set *)

Lemma readdata_blanks_autocorrelations_witness :
  readdata_columns ex_ms "DATA" None None None "i"
  = Ok (mkVis [[Cx.nan; Cx.nan]; [(1, 0); (1, 0)]; [Cx.nan; Cx.nan]; [(2, 0); (2, 0)]]
              [[true; true]; [false; false]; [true; true]; [false; false]]
              [(0, 0); (150.5, 50.5); (0, 0); (-119.5, 80.5)]
              [0; 0; 1; 1]%Z [0; 1; 1; 2]%Z ["m000"; "m001"; "m002"]) /\
  nth_error (ANTENNA1 ex_ms) 2 = Some 1%Z /\
  nth_error (ANTENNA2 ex_ms) 2 = Some 1%Z /\
  exists (frow : list bool) (drow : list Cx.t),
    nth_error [[true; true]; [false; false]; [true; true]; [false; false]] 2
      = Some frow /\
    nth_error [[Cx.nan; Cx.nan]; [(1, 0); (1, 0)]; [Cx.nan; Cx.nan]; [(2, 0); (2, 0)]] 2
      = Some drow /\
    List.length drow = List.length frow /\
    Forall (fun b => b = true) frow /\
    Forall (fun z => z = Cx.nan) drow.
Proof.
  assert (H : readdata_columns ex_ms "DATA" None None None "i"
    = Ok (mkVis [[Cx.nan; Cx.nan]; [(1, 0); (1, 0)]; [Cx.nan; Cx.nan]; [(2, 0); (2, 0)]]
                [[true; true]; [false; false]; [true; true]; [false; false]]
                [(0, 0); (150.5, 50.5); (0, 0); (-119.5, 80.5)]
                [0; 0; 1; 1]%Z [0; 1; 1; 2]%Z ["m000"; "m001"; "m002"]))
    by (vm_compute; reflexivity).
  split; [exact H|]. split; [reflexivity|]. split; [reflexivity|].
  exact (readdata_blanks_autocorrelations ex_ms "DATA" None None None "i" _ 2 1%Z
           H eq_refl eq_refl).
Defined.

(** C10 (the code at the failing input): the autocorrelation rows 0 and 2
    of the worked measurement set are flagged and NaN after [readdata] and
    stay out of every cell of the grid, but they keep the initial value 0 at
    the coordinate (0, 0), and the grid that [histoclip] builds for its
    statistics has the finite value 0 there: three finite grid values
    instead of two.  With them the two cross-correlation rows are flagged;
    on the same measurement set without the autocorrelation rows the grid is
    too small for any statistic and nothing is flagged. *)
Theorem autocorrelation_rows_reach_statistic :
  (exists vis data gruvcoord,
     readdata_columns ex_ms "DATA" None None None "i" = Ok vis /\
     nth_error (vis_flags vis) 0 = Some [true; true] /\
     nth_error (vis_data vis) 0 = Some [Cx.nan; Cx.nan] /\
     gridding ex_hypot 512 4 0 None (vis_data vis) (vis_flags vis) (vis_uv vis)
       = Ok (data, gruvcoord) /\
     nth_error data 0 = Some 0%float /\
     nth_error gruvcoord 0 = Some (0%float, 0%float) /\
     uvgridded_of data (Np.zeros_bool 4) gruvcoord = [nan; 2; 0; nan; nan; 1] /\
     npoints_of data (Np.zeros_bool 4) gruvcoord = 3%nat /\
     ex_flag_pass (ex_args "in.ms" true) vis = Ok [false; true; false; true]) /\
  (exists vis data gruvcoord,
     readdata_columns ex_ms_cross "DATA" None None None "i" = Ok vis /\
     gridding ex_hypot 512 4 0 None (vis_data vis) (vis_flags vis) (vis_uv vis)
       = Ok (data, gruvcoord) /\
     uvgridded_of data (Np.zeros_bool 2) gruvcoord = [2; 1] /\
     npoints_of data (Np.zeros_bool 2) gruvcoord = 2%nat /\
     ex_flag_pass (ex_args "cross.ms" true) vis = Ok [false; false]).
Proof.
  split.
  - eexists. eexists. eexists.
    split; [vm_compute; reflexivity|].
    split; [reflexivity|]. split; [reflexivity|].
    split; [vm_compute; reflexivity|].
    split; [reflexivity|]. split; [reflexivity|].
    split; [vm_compute; reflexivity|].
    split; [vm_compute; reflexivity|].
    vm_compute; reflexivity.
  - eexists. eexists. eexists.
    split; [vm_compute; reflexivity|].
    split; [vm_compute; reflexivity|].
    split; [vm_compute; reflexivity|].
    split; [vm_compute; reflexivity|].
    vm_compute; reflexivity.
Qed.

(** ** Dry runs *)

Section DryRunProperties.

Variable exp : float -> float.
Variable curve_fit :
  (float -> float -> float -> float -> float) ->
  list float -> list nat -> float * float * float -> option (float * float * float).
Variable ax_hist : list float -> nat -> list float.
Variable arctan2 : float -> float -> float.
Variable sin : float -> float.
Variable cos : float -> float.
Variable contains_points : list (float * float) -> list (float * float) -> list bool.
Variable hypot : float -> float -> float.
Variable geodetic : float * float * float -> float * float * float.
Variable next_rising : Observer -> float -> result float.
Variable next_setting : Observer -> float -> result float.

Lemma quiet_ret {A : Type} (a : A) : quiet (io_ret a).
Proof.
  intros w. split; [reflexivity|]. exists []. split; [|constructor].
  simpl. now rewrite app_nil_r.
Qed.

Lemma quiet_lift {A : Type} (r : result A) : quiet (io_lift r).
Proof.
  intros w. split; [reflexivity|]. exists []. split; [|constructor].
  simpl. now rewrite app_nil_r.
Qed.

Lemma quiet_bind {A B : Type} (m : IO A) (k : A -> IO B) :
  quiet m -> (forall a, quiet (k a)) -> quiet (io_bind m k).
Proof.
  intros Hm Hk w. unfold io_bind.
  destruct (Hm w) as (Ht & evs & Hj & Hro).
  destruct (m w) as [[a|e] w1]; simpl in *.
  - destruct (Hk a w1) as (Ht' & evs' & Hj' & Hro').
    split; [congruence|].
    exists (evs ++ evs'). split.
    + rewrite Hj', Hj. now rewrite app_assoc.
    + apply Forall_app. split; assumption.
  - split; [assumption|]. exists evs. split; assumption.
Qed.

Lemma quiet_opensilent (inset : string + Handle) : quiet (opensilent inset true).
Proof.
  destruct inset as [name|h]; simpl; [|apply quiet_ret].
  intros w. destruct (tables w !! name); simpl.
  - split; [reflexivity|]. exists [EvOpen name true]. split; [reflexivity|].
    repeat constructor.
  - split; [reflexivity|]. exists []. split; [|constructor]. now rewrite app_nil_r.
Qed.

Lemma quiet_getcols (h : Handle) : quiet (getcols h).
Proof.
  intros w. unfold getcols. destruct (tables w !! h_name h); simpl;
    (split; [reflexivity|]; exists []; split; [|constructor]; now rewrite app_nil_r).
Qed.

Lemma quiet_tableexists (name : string) : quiet (tableexists name).
Proof.
  intros w. split; [reflexivity|]. exists []. split; [|constructor].
  simpl. now rewrite app_nil_r.
Qed.

Lemma quiet_readdata (inset : string + Handle) (col : string)
    (fields : option (Z + list Z)) (channels : option (list bool))
    (baselines : option (list (Z * Z))) (pol : string) :
  quiet (readdata inset col fields channels baselines pol).
Proof.
  unfold readdata. apply quiet_bind; [apply quiet_opensilent|]. intros h.
  apply quiet_bind; [apply quiet_getcols|]. intros t. apply quiet_lift.
Qed.

(** A dry run of [vampirisms] writes nothing. *)
Lemma quiet_vampirisms (steps : nat) (inset : string + Handle)
    (lat lon hei : option float) (m : Margins) (horizon : float)
    (nononsoleil flinvert : bool) :
  quiet (vampirisms geodetic next_rising next_setting steps inset lat lon hei true
                    m horizon nononsoleil flinvert).
Proof.
  unfold vampirisms. apply quiet_bind; [apply quiet_opensilent|]. intros h.
  apply quiet_bind; [apply quiet_getcols|]. intros t.
  apply quiet_bind; [apply quiet_lift|]. intros flags.
  apply quiet_bind; [apply quiet_ret|]. intros _. apply quiet_ret.
Qed.

Lemma quiet_read_set (steps : nat) (a : Args) (name : string)
    (baselines : option (list (Z * Z))) :
  quiet (read_set geodetic next_rising next_setting steps a name baselines).
Proof.
  unfold read_set. apply quiet_bind; [apply quiet_opensilent|]. intros h.
  apply quiet_bind; [apply quiet_readdata|]. intros vis.
  apply quiet_bind.
  - destruct (a_vampirisms a || a_flagonlyday a); [|apply quiet_ret].
    apply quiet_bind; [apply quiet_vampirisms|]. intros d. apply quiet_ret.
  - intros dayflags. destruct (a_vampirisms a); [apply quiet_lift|apply quiet_ret].
Qed.

Lemma quiet_read_more (steps : nat) (a : Args) (names : list string)
    (acc : Visibilities * option (list bool) * list nat) :
  quiet (read_more geodetic next_rising next_setting steps a names acc).
Proof.
  revert acc. induction names as [|name rest IH]; intros [[vis dayflags] nrows]; simpl.
  - apply quiet_ret.
  - apply quiet_bind; [apply quiet_read_set|]. intros [plus dayflagsplus]. apply IH.
Qed.

Lemma quiet_apply_one (inset outset : list string) (nrows : list nat)
    (newflags : list bool) (i : nat) :
  quiet (apply_one true inset outset nrows newflags i).
Proof.
  unfold apply_one. simpl negb. cbv iota.
  apply quiet_bind; [apply quiet_lift|]. intros out.
  apply quiet_bind; [apply quiet_tableexists|]. intros present.
  apply quiet_bind; [destruct present; apply quiet_ret|]. intros tout.
  apply quiet_ret.
Qed.

Lemma quiet_apply_all (inset outset : list string) (nrows : list nat)
    (newflags : list bool) (todo : list nat) :
  quiet (apply_all true inset outset nrows newflags todo).
Proof.
  induction todo as [|i rest IH]; simpl; [apply quiet_ret|].
  apply quiet_bind; [apply quiet_apply_one|]. intros _. exact IH.
Qed.

(** C9: a dry run, of [phazer] or of [vampirisms], leaves every table on
    disk as it is, opens tables read-only at most, and neither copies a
    table nor writes a FLAG column. *)
Theorem dryrun_writes_nothing (steps : nat) (a : Args) (inset : string + Handle)
    (lat lon hei : option float) (m : Margins) (horizon : float)
    (nononsoleil flinvert : bool) (w : World) :
  a_dryrun a = true ->
  (tables (snd (phazer exp curve_fit ax_hist arctan2 sin cos contains_points hypot
                       geodetic next_rising next_setting steps a w)) = tables w /\
   exists evs,
     journal (snd (phazer exp curve_fit ax_hist arctan2 sin cos contains_points hypot
                          geodetic next_rising next_setting steps a w))
     = journal w ++ evs /\
     Forall read_only_event evs) /\
  (tables (snd (vampirisms geodetic next_rising next_setting steps inset lat lon hei
                           true m horizon nononsoleil flinvert w)) = tables w /\
   exists evs,
     journal (snd (vampirisms geodetic next_rising next_setting steps inset lat lon
                              hei true m horizon nononsoleil flinvert w))
     = journal w ++ evs /\
     Forall read_only_event evs).
Proof.
  intros Hdry. split; [|apply quiet_vampirisms].
  assert (Hq : quiet (phazer exp curve_fit ax_hist arctan2 sin cos contains_points hypot
                             geodetic next_rising next_setting steps a)).
  { unfold phazer. rewrite Hdry.
    apply quiet_bind; [apply quiet_lift|]. intros names.
    apply quiet_bind; [apply quiet_lift|]. intros first.
    apply quiet_bind; [apply quiet_read_set|]. intros [vis dayflags].
    apply quiet_bind; [apply quiet_read_more|]. intros [[vis' dayflags'] nrows].
    apply quiet_bind; [apply quiet_lift|]. intros newflags.
    apply quiet_bind; [apply quiet_lift|]. intros outset.
    apply quiet_apply_all. }
  apply Hq.
Qed.

End DryRunProperties.

(** *** Dry and real runs on the worked measurement set *)

Lemma dryrun_writes_nothing_witness :
  a_dryrun (ex_args "in.ms" true) = true /\
  (tables (snd (ex_phazer 5 (ex_args "in.ms" true) ex_world)) = tables ex_world /\
   exists evs,
     journal (snd (ex_phazer 5 (ex_args "in.ms" true) ex_world))
     = journal ex_world ++ evs /\
     Forall read_only_event evs) /\
  (tables (snd (vampirisms ex_geodetic ex_next_rising ex_next_setting 5
                           (inl "in.ms") None None None true ex_margins 0 true false
                           ex_world)) = tables ex_world /\
   exists evs,
     journal (snd (vampirisms ex_geodetic ex_next_rising ex_next_setting 5
                              (inl "in.ms") None None None true ex_margins 0 true
                              false ex_world))
     = journal ex_world ++ evs /\
     Forall read_only_event evs).
Proof.
  split; [reflexivity|].
  exact (dryrun_writes_nothing ex_exp ex_curve_fit ex_ax_hist ex_arctan2 ex_sin ex_cos
           ex_contains_points ex_hypot ex_geodetic ex_next_rising ex_next_setting 5
           (ex_args "in.ms" true) (inl "in.ms") None None None ex_margins 0 true false
           ex_world eq_refl).
Defined.

(** The dry run completes and only opens the input set for reading; the
    same call without [dryrun] opens it for writing and writes the FLAG
    column, with the two cross-correlation rows flagged. *)
Lemma ex_phazer_dry_and_real :
  (let r := ex_phazer 5 (ex_args "in.ms" true) ex_world in
   fst r = Ok tt /\ journal (snd r) = [EvOpen "in.ms" true]) /\
  (let r := ex_phazer 5 (ex_args "in.ms" false) ex_world in
   fst r = Ok tt /\
   journal (snd r) = [EvOpen "in.ms" true; EvOpen "in.ms" false; EvPutFlag "in.ms"] /\
   FLAG <$> (tables (snd r) !! "in.ms")
   = Some [[[false; false]; [false; false]]; [[true; true]; [true; true]];
           [[false; false]; [false; false]]; [[true; true]; [true; true]]]).
Proof.
  split; cbv zeta; repeat split; vm_compute; reflexivity.
Qed.

(** A real run of [vampirisms] writes as well. *)
Lemma ex_vampirisms_real :
  let r := vampirisms ex_geodetic ex_next_rising ex_next_setting 5 (inl "in.ms")
                      None None None false ex_margins 0 true false ex_world in
  fst r = Ok [true; true; false; true] /\
  journal (snd r) = [EvOpen "in.ms" false; EvPutFlag "in.ms"].
Proof. cbv zeta. split; vm_compute; reflexivity. Qed.

(** * Further properties *)

(** ** Facts on numbers, lists and binds *)

Tactic Notation "bind_ok" hyp(H) "as" simple_intropattern(x) ident(E) :=
  match type of H with
  | @mbind _ _ _ _ _ ?m = Ok _ =>
      destruct m as [x|] eqn:E; cbn [mbind result_bind Py.bind_flip Py.bind] in H;
      [|discriminate H]
  end.

Lemma SFcompare_refl_finite (s : bool) (m : positive) (e : Z) :
  SFcompare (S754_finite s m e) (S754_finite s m e) = Some Eq.
Proof.
  simpl. destruct s; rewrite Z.compare_refl, ?Pos.compare_cont_refl; reflexivity.
Qed.

Lemma is_nan_SF (x : float) : PrimFloat.is_nan x = true -> Prim2SF x = S754_nan.
Proof.
  unfold PrimFloat.is_nan. rewrite FloatAxioms.eqb_spec. unfold SFeqb.
  destruct (Prim2SF x) as [s|s| |s m e]; try reflexivity.
  - now destruct s.
  - now destruct s.
  - now rewrite SFcompare_refl_finite.
Qed.

(** A NaN is above no cut. *)
Lemma ge_nan_l (x y : float) : PrimFloat.is_nan x = true -> Np.ge x y = false.
Proof.
  intros H. unfold Np.ge. rewrite leb_spec, (is_nan_SF x H).
  unfold SFleb. destruct (Prim2SF y) as [s|s| |s m e]; try reflexivity;
    now destruct s.
Qed.



Lemma ltb_zero_pos (d : float) :
  PrimFloat.ltb 0 d = true ->
  (exists m e, Prim2SF d = S754_finite false m e) \/ Prim2SF d = S754_infinity false.
Proof.
  rewrite ltb_spec. change (Prim2SF 0) with (S754_zero false).
  unfold SFltb, SFcompare.
  destruct (Prim2SF d) as [s|s| |s m e]; try discriminate.
  - destruct s; [discriminate|now right].
  - destruct s; [discriminate|]. left. eauto.
Qed.

Lemma div_zero_pos (d : float) : PrimFloat.ltb 0 d = true -> 0 / d = 0.
Proof.
  intros H. apply Prim2SF_inj. rewrite div_spec.
  change (Prim2SF 0) with (S754_zero false).
  destruct (ltb_zero_pos d H) as [(m & e & ->)| ->]; reflexivity.
Qed.

(** [np.arange(np.floor(-0.0), np.ceil(0.0), step)] is empty. *)
Lemma arange_zero_span (duv : float) :
  PrimFloat.ltb 0 duv = true -> Np.arange (Np.floor (- 0)) (Np.ceil 0) duv = Ok [].
Proof.
  intros H. unfold Np.arange.
  replace (Np.ceil 0 - Np.floor (- 0)) with 0 by (vm_compute; reflexivity).
  rewrite (div_zero_pos duv H). reflexivity.
Qed.

Lemma insert_zero (n : nat) : Np.insert_sorted 0 (repeat 0 n) = repeat 0 (S n).
Proof.
  induction n as [|n IH]; [reflexivity|].
  change (repeat 0 (S n)) with (0 :: repeat 0 n) at 1.
  cbn [Np.insert_sorted]. change (Np.lt_nanlast 0 0) with false. cbv iota.
  now rewrite IH.
Qed.

Lemma sort_zeros (n : nat) : Np.sort (repeat 0 n) = repeat 0 n.
Proof.
  unfold Np.sort. induction n as [|n IH]; [reflexivity|].
  simpl. rewrite IH. apply insert_zero.
Qed.

Lemma unique_zeros (n : nat) : Np.unique (repeat 0 (S n)) = [0].
Proof.
  unfold Np.unique. rewrite sort_zeros.
  induction n as [|n IH]; [reflexivity|].
  change (repeat 0 (S (S n))) with (0 :: repeat 0 (S n)).
  cbn [Np.dedup_sorted]. change (repeat 0 (S n)) with (0 :: repeat 0 n) at 1.
  cbv iota. change (Np.same 0 0) with true. cbv iota. exact IH.
Qed.

Lemma map_repeat {A B : Type} (f : A -> B) (x : A) (n : nat) :
  map f (repeat x n) = repeat (f x) n.
Proof. induction n; simpl; congruence. Qed.

Lemma select_none {A : Type} (n : nat) (l : list A) :
  Np.select (repeat false n) l = [].
Proof.
  unfold Np.select. revert l. induction n as [|n IH]; intros [|x l]; simpl; auto.
Qed.

Lemma select_nil_false {A : Type} (sel : list bool) (l : list A) (i : nat) (x : A) :
  Np.select sel l = [] -> nth_error l i = Some x -> nth i sel false = false.
Proof.
  unfold Np.select. revert l i.
  induction sel as [|b sel IH]; intros [|y l] [|i] H Hi; simpl in *;
    try discriminate; try reflexivity.
  - destruct b; [discriminate|reflexivity].
  - destruct b; [discriminate|]. eapply IH; eauto.
Qed.

Lemma nth_error_combine_inv {A B : Type} (l : list A) (l' : list B) (i : nat)
    (x : A) (y : B) :
  nth_error (combine l l') i = Some (x, y) ->
  nth_error l i = Some x /\ nth_error l' i = Some y.
Proof.
  revert l' i. induction l as [|a l IH]; intros [|b l'] [|i] H; simpl in *;
    try discriminate.
  - now injection H as -> ->.
  - now apply IH.
Qed.

Lemma mapM_nth_error {A B : Type} (f : A -> result B) (l : list A) (l' : list B)
    (i : nat) (y : B) :
  Py.mapM f l = Ok l' -> nth_error l' i = Some y ->
  exists x, nth_error l i = Some x /\ f x = Ok y.
Proof.
  intros H Hi. apply mapM_Forall2 in H.
  exact (Forall2_nth_error_r _ _ _ _ _ H Hi).
Qed.

Lemma assign_nth_error {A : Type} (sel : list bool) (x : A) (a : list A) (r : nat)
    (y : A) :
  nth_error (Np.assign sel x a) r = Some y ->
  exists (s : bool) (old : A),
    nth_error sel r = Some s /\ nth_error a r = Some old /\
    y = if s then x else old.
Proof.
  unfold Np.assign. rewrite nth_error_map.
  destruct (nth_error (combine sel a) r) as [[s old]|] eqn:E; [|discriminate].
  apply nth_error_combine_inv in E as [Hs Ha]. intros [= <-]. eauto.
Qed.

Lemma mul_bool_false (a b m : list bool) (k : nat) :
  Np.mul_bool a b = Ok m -> (k < List.length a)%nat ->
  nth k a false = false -> nth k m false = false.
Proof.
  unfold Np.mul_bool. intros Hm Hk Ha.
  destruct (Nat.eqb (List.length a) (List.length b)).
  - injection Hm as <-. revert b k Hk Ha.
    induction a as [|x a IH]; intros [|y b] [|k] Hk Ha; simpl in *; auto.
    + now rewrite Ha.
    + apply IH; [lia|assumption].
  - destruct a as [|x [|x' a']]; simpl in Hk.
    + lia.
    + destruct k; [|lia]. simpl in Ha. subst x.
      injection Hm as <-. now destruct b.
    + destruct b as [|y [|y' b']]; try discriminate.
      injection Hm as <-.
      assert (Hmap : forall (l : list bool) (j : nat),
                nth j (map (fun x : bool => x && y) l) false = nth j l false && y).
      { induction l as [|z l IHl]; intros [|j]; simpl; auto. }
      change (nth k (map (fun x : bool => x && y) (x :: x' :: a')) false = false).
      now rewrite Hmap, Ha.
Qed.

Lemma nth_logical_not (l : list bool) (i : nat) :
  (i < List.length l)%nat -> nth i (Np.logical_not l) false = negb (nth i l false).
Proof.
  unfold Np.logical_not. revert i.
  induction l as [|b l IH]; intros [|i] H; simpl in *; try lia; auto.
  apply IH. lia.
Qed.

Lemma nth_error_negb (l : list bool) (i : nat) (b : bool) :
  nth_error (Np.logical_not l) i = Some b -> b = negb (nth i l false).
Proof.
  unfold Np.logical_not. rewrite nth_error_map.
  destruct (nth_error l i) as [x|] eqn:E; [|discriminate].
  intros [= <-]. now rewrite (nth_error_nth _ _ _ E).
Qed.

Lemma Forall2_same {A : Type} (R : A -> A -> Prop) (l : list A) :
  (forall x, R x x) -> Forall2 R l l.
Proof. intros H. induction l; constructor; auto. Qed.

Lemma Forall2_compose {A : Type} (R : A -> A -> Prop) (l1 l2 l3 : list A) :
  (forall x y z, R x y -> R y z -> R x z) ->
  Forall2 R l1 l2 -> Forall2 R l2 l3 -> Forall2 R l1 l3.
Proof.
  intros HR H12. revert l3.
  induction H12 as [|a b l l' Hab _ IH]; intros l3 H23; inversion H23; subst;
    constructor; eauto.
Qed.





(** ** The clip-mask builder, further *)

Section HistoclipFurther.

Variable exp : float -> float.
Variable curve_fit :
  (float -> float -> float -> float -> float) ->
  list float -> list nat -> float * float * float -> option (float * float * float).
Variable ax_hist : list float -> nat -> list float.

Lemma clip_mask_nan (av : list float) (ave std threshold : float)
    (unflags : option (list bool)) (m : list bool) (i : nat) (x : float) :
  clip_mask av ave std threshold unflags = Ok m ->
  nth_error av i = Some x -> PrimFloat.is_nan x = true ->
  nth i m false = false.
Proof.
  intros Hm Hi Hx. unfold clip_mask in Hm.
  assert (Hsel : nth i (map (fun x => Np.ge x (ave + threshold * std)) av) false = false).
  { apply nth_error_nth. rewrite nth_error_map, Hi. simpl. f_equal.
    now apply ge_nan_l. }
  destruct unflags as [u|]; [|now injection Hm as <-].
  eapply mul_bool_false; eauto.
  rewrite length_map. apply nth_error_Some. congruence.
Qed.

(** X2: whatever the policy, the threshold, the override and the plot
    target are, a call that returns never flags a sample whose value is
    NaN (the flagged visibilities, which [readdata] sets to NaN, get no
    new flag from the cut). *)
Theorem histoclip_never_flags_nan
    (data : list float) (mask : list bool) (gruvcoord : list (float * float))
    (unflags : option (list bool)) (threshmode : string) (threshold : float)
    (ax : option Axes) (title : string) (m : list bool) (drawn : list draw_cmd)
    (i : nat) (x : float) :
  histoclip exp curve_fit ax_hist data mask gruvcoord unflags threshmode
            threshold ax title = Ok (m, drawn) ->
  nth_error data i = Some x ->
  PrimFloat.is_nan x = true ->
  nth i m false = false.
Proof.
  intros H Hi Hx. unfold histoclip in H. cbv zeta in H.
  destruct (Nat.ltb _ 3).
  { injection H as <- _. apply nth_zeros_bool. }
  rewrite !eqb_nan_r in H.
  bind_ok H as fit Efit. bind_ok H as stats Estats.
  bind_ok H as [std ave] Eave. bind_ok H as sel Esel.
  assert (sel = m) as ->.
  { destruct ax; [bind_ok H as d Ed|]; now injection H. }
  eapply clip_mask_nan; eauto.
Qed.



End HistoclipFurther.


Lemma histoclip_never_flags_nan_witness :
  histoclip ex_exp ex_curve_fit ex_ax_hist ex_data_nan ex_mask ex_grid None "std" 1
            None "" = Ok ([false; false; true; false], []) /\
  nth_error ex_data_nan 3 = Some nan /\
  PrimFloat.is_nan nan = true /\
  nth 3 [false; false; true; false] false = false.
Proof.
  assert (H1 : histoclip ex_exp ex_curve_fit ex_ax_hist ex_data_nan ex_mask ex_grid
                         None "std" 1 None "" = Ok ([false; false; true; false], []))
    by (vm_compute; reflexivity).
  split; [exact H1|]. split; [reflexivity|]. split; [reflexivity|].
  exact (histoclip_never_flags_nan ex_exp ex_curve_fit ex_ax_hist ex_data_nan ex_mask
           ex_grid None "std" 1 None "" _ _ 3 nan H1 eq_refl eq_refl).
Defined.



(** ** Reading the visibilities, further *)

Section ReaddataFurther.

Lemma set_rows_cell (rows : list bool) (flags flags' : list (list bool))
    (r c : nat) (new : list bool) (b : bool) :
  set_rows rows flags = Ok flags' ->
  nth_error flags' r = Some new -> nth_error new c = Some b ->
  exists (sel : bool) (old : list bool) (b0 : bool),
    nth_error rows r = Some sel /\ nth_error flags r = Some old /\
    nth_error old c = Some b0 /\ b = b0 || sel.
Proof.
  unfold set_rows. destruct (Nat.eqb _ _); [|discriminate].
  intros [= <-] Hr Hc. rewrite nth_error_map in Hr.
  destruct (nth_error (combine rows flags) r) as [[sel old]|] eqn:E; [|discriminate].
  apply nth_error_combine_inv in E as [Hs Ho].
  simpl in Hr. injection Hr as <-.
  destruct sel.
  - rewrite nth_error_map in Hc.
    destruct (nth_error old c) as [b0|] eqn:Eo; [|discriminate].
    injection Hc as <-. exists true, old, b0. now rewrite orb_true_r.
  - exists false, old, b. now rewrite orb_false_r.
Qed.

Lemma set_cols_cell (cols : list bool) (flags flags' : list (list bool))
    (r c : nat) (new : list bool) (b : bool) :
  set_cols cols flags = Ok flags' ->
  nth_error flags' r = Some new -> nth_error new c = Some b ->
  exists (sel : bool) (old : list bool) (b0 : bool),
    nth_error cols c = Some sel /\ nth_error flags r = Some old /\
    nth_error old c = Some b0 /\ b = b0 || sel.
Proof.
  unfold set_cols. intros H Hr Hc.
  destruct (mapM_nth_error _ _ _ _ _ H Hr) as (old & Ho & Hrow).
  destruct (Nat.eqb _ _); [|discriminate].
  injection Hrow as <-. rewrite nth_error_map in Hc.
  destruct (nth_error (combine cols old) c) as [[sel b0]|] eqn:E; [|discriminate].
  apply nth_error_combine_inv in E as [Hs Hb].
  injection Hc as <-. exists sel, old, b0. simpl. now rewrite orb_comm.
Qed.

(** The number of unflagged hands is below one when both are flagged, and
    below two when one is. *)
Lemma stflags_lt_one (h : bool * bool) :
  PrimFloat.ltb (stflags_of h) 1 = fst h && snd h.
Proof. now destruct h as [[|] [|]]. Qed.

Lemma stflags_lt_two (h : bool * bool) :
  PrimFloat.ltb (stflags_of h) 2 = fst h || snd h.
Proof. now destruct h as [[|] [|]]. Qed.

Lemma blank_cell (data : list (list Cx.t)) (flags : list (list bool)) (r c : nat)
    (drow : list Cx.t) (z : Cx.t) :
  nth_error (blank data flags) r = Some drow -> nth_error drow c = Some z ->
  exists (drow0 : list Cx.t) (frow : list bool) (z0 : Cx.t) (b : bool),
    nth_error data r = Some drow0 /\ nth_error flags r = Some frow /\
    nth_error drow0 c = Some z0 /\ nth_error frow c = Some b /\
    z = if b then Cx.nan else z0.
Proof.
  unfold blank. intros Hr Hc. rewrite nth_error_map in Hr.
  destruct (nth_error (combine data flags) r) as [[drow0 frow]|] eqn:E; [|discriminate].
  apply nth_error_combine_inv in E as [Hd Hf]. injection Hr as <-.
  rewrite nth_error_map in Hc.
  destruct (nth_error (combine drow0 frow) c) as [[z0 b]|] eqn:E; [|discriminate].
  apply nth_error_combine_inv in E as [Hz Hb]. injection Hc as <-.
  exists drow0, frow, z0, b. auto.
Qed.

(** X5: the flags that [readdata] returns, cell by cell.  A visibility
    (row, channel) is flagged exactly when the polarisation step flags it
    (both hands flagged on disk for Stokes I, one of them for Stokes Q), or
    its row is not of a requested field, or its row is an autocorrelation,
    or its channel is deselected, or its row is of no listed baseline. *)
Theorem readdata_flags_spec (t : Table) (col : string)
    (fields : option (Z + list Z)) (channels : option (list bool))
    (baselines : option (list (Z * Z))) (pol : string) (vis : Visibilities)
    (r c : nat) (frow : list bool) (b : bool) :
  readdata_columns t col fields channels baselines pol = Ok vis ->
  nth_error (vis_flags vis) r = Some frow ->
  nth_error frow c = Some b ->
  exists (d3 : list (list (list Cx.t))) (drow3 : list (list Cx.t))
         (frow3 : list (list bool)) (dcell : list Cx.t) (fcell : list bool)
         (f0 fi : bool) (a1 a2 : Z),
    vis_columns t !! col = Some d3 /\
    nth_error d3 r = Some drow3 /\ nth_error drow3 c = Some dcell /\
    nth_error (FLAG t) r = Some frow3 /\ nth_error frow3 c = Some fcell /\
    Py.index fcell 0 = Ok f0 /\
    Py.index fcell (Z.of_nat (List.length dcell) - 1) = Ok fi /\
    nth_error (ANTENNA1 t) r = Some a1 /\ nth_error (ANTENNA2 t) r = Some a2 /\
    b = (if String.eqb pol "i" then f0 && fi else f0 || fi)
        || match fields with
           | Some fs => negb (nth r (field_select fs (FIELD t)) false)
           | None => false
           end
        || Z.eqb a1 a2
        || match channels with
           | Some ch => negb (nth c ch false)
           | None => false
           end
        || match baselines with
           | Some bl =>
               negb (nth r (baseline_select bl (ANTENNA1 t) (ANTENNA2 t)) false)
           | None => false
           end.
Proof.
  intros H Hr Hc. unfold readdata_columns in H.
  destruct (vis_columns t !! col) as [d3|] eqn:Ecol;
    cbn [mbind result_bind Py.bind_flip Py.bind] in H; [|discriminate].
  bind_ok H as hands Hhands.
  bind_ok H as [data flags0] Hpol.
  bind_ok H as flagsF Hfields.
  bind_ok H as flagsA Hauto.
  bind_ok H as flagsC Hchan.
  bind_ok H as flagsB Hbase.
  injection H as <-. simpl in Hr.
  assert (HB : exists rowC bC,
             nth_error flagsC r = Some rowC /\ nth_error rowC c = Some bC /\
             b = bC || match baselines with
                       | Some bl =>
                           negb (nth r (baseline_select bl (ANTENNA1 t) (ANTENNA2 t))
                                     false)
                       | None => false
                       end).
  { destruct baselines as [bl|].
    - destruct (set_rows_cell _ _ _ r c frow b Hbase Hr Hc)
        as (sel & old & b0 & Hs & Ho & Hb0 & ->).
      apply nth_error_negb in Hs. subst sel. eauto.
    - injection Hbase as <-. exists frow, b. now rewrite orb_false_r. }
  destruct HB as (rowC & bC & HrC & HcC & ->).
  assert (HC : exists rowA bA,
             nth_error flagsA r = Some rowA /\ nth_error rowA c = Some bA /\
             bC = bA || match channels with
                        | Some ch => negb (nth c ch false)
                        | None => false
                        end).
  { destruct channels as [ch|].
    - destruct (set_cols_cell _ _ _ r c rowC bC Hchan HrC HcC)
        as (sel & old & b0 & Hs & Ho & Hb0 & ->).
      apply nth_error_negb in Hs. subst sel. eauto.
    - injection Hchan as <-. exists rowC, bC. now rewrite orb_false_r. }
  destruct HC as (rowA & bA & HrA & HcA & ->).
  destruct (set_rows_cell _ _ _ r c rowA bA Hauto HrA HcA)
    as (sel & rowF & bF & Hs & HrF & HcF & ->).
  rewrite nth_error_map in Hs.
  destruct (nth_error (combine (ANTENNA1 t) (ANTENNA2 t)) r) as [[a1 a2]|] eqn:Ea;
    [|discriminate].
  apply nth_error_combine_inv in Ea as [Ha1 Ha2]. injection Hs as <-. simpl.
  assert (HF : exists row0 b0,
             nth_error flags0 r = Some row0 /\ nth_error row0 c = Some b0 /\
             bF = b0 || match fields with
                        | Some fs => negb (nth r (field_select fs (FIELD t)) false)
                        | None => false
                        end).
  { destruct fields as [fs|].
    - destruct (set_rows_cell _ _ _ r c rowF bF Hfields HrF HcF)
        as (sel & old & b0 & Hs & Ho & Hb0 & ->).
      apply nth_error_negb in Hs. subst sel. eauto.
    - injection Hfields as <-. exists rowF, bF. now rewrite orb_false_r. }
  destruct HF as (row0 & b0 & Hr0 & Hc0 & ->).
  assert (HP : exists h : bool * bool,
             (exists hrow, nth_error hands r = Some hrow /\ nth_error hrow c = Some h) /\
             b0 = if String.eqb pol "i" then fst h && snd h else fst h || snd h).
  { destruct (String.eqb pol "i").
    - bind_ok Hpol as d Hd. injection Hpol as _ <-.
      rewrite !nth_error_map in Hr0.
      destruct (nth_error hands r) as [hrow|] eqn:Eh; [|discriminate].
      injection Hr0 as <-. rewrite !nth_error_map in Hc0.
      destruct (nth_error hrow c) as [h|] eqn:Ehc; [|discriminate].
      injection Hc0 as <-. exists h. split; [eauto|apply stflags_lt_one].
    - destruct (String.eqb pol "q"); [|discriminate].
      bind_ok Hpol as d Hd. injection Hpol as _ <-.
      rewrite !nth_error_map in Hr0.
      destruct (nth_error hands r) as [hrow|] eqn:Eh; [|discriminate].
      injection Hr0 as <-. rewrite !nth_error_map in Hc0.
      destruct (nth_error hrow c) as [h|] eqn:Ehc; [|discriminate].
      injection Hc0 as <-. exists h. split; [eauto|apply stflags_lt_two]. }
  destruct HP as (h & (hrow & Hhr & Hhc) & ->).
  destruct (mapM_nth_error _ _ _ _ _ Hhands Hhr) as ([drow3 frow3] & Hrow3 & Hcells).
  apply nth_error_combine_inv in Hrow3 as [Hd3 Hf3]. simpl in Hcells.
  destruct (mapM_nth_error _ _ _ _ _ Hcells Hhc) as ([dcell fcell] & Hcell & Hh).
  apply nth_error_combine_inv in Hcell as [Hdc Hfc].
  unfold hands_cell in Hh. simpl in Hh.
  bind_ok Hh as f0 Hf0. bind_ok Hh as fi Hfi. injection Hh as <-. simpl.
  exists d3, drow3, frow3, dcell, fcell, f0, fi, a1, a2.
  repeat (split; [assumption || reflexivity|]).
  reflexivity.
Qed.

(** X6: the data that [readdata] returns, cell by cell: NaN where the
    returned flag is set, and where it is not, the Stokes combination of
    the first and the last polarisation [d0] and [di] of that visibility on
    disk, with their flags [f0] and [fi]: each hand times 1 if it is not
    flagged and 0 if it is, the two added for ['i'] and subtracted
    otherwise, all in single precision, and the result divided in double
    precision by the number of unflagged hands. *)
Theorem readdata_data_spec (t : Table) (col : string)
    (fields : option (Z + list Z)) (channels : option (list bool))
    (baselines : option (list (Z * Z))) (pol : string) (vis : Visibilities)
    (r c : nat) (drow : list Cx.t) (z : Cx.t) :
  readdata_columns t col fields channels baselines pol = Ok vis ->
  nth_error (vis_data vis) r = Some drow ->
  nth_error drow c = Some z ->
  exists (frow : list bool) (b : bool),
    nth_error (vis_flags vis) r = Some frow /\
    nth_error frow c = Some b /\
    (b = true -> z = Cx.nan) /\
    (b = false ->
     exists (d3 : list (list (list Cx.t))) (drow3 : list (list Cx.t))
            (frow3 : list (list bool)) (dcell : list Cx.t) (fcell : list bool)
            (d0 di : Cx.t) (f0 fi : bool),
       vis_columns t !! col = Some d3 /\
       nth_error d3 r = Some drow3 /\ nth_error drow3 c = Some dcell /\
       nth_error (FLAG t) r = Some frow3 /\ nth_error frow3 c = Some fcell /\
       Py.index dcell 0 = Ok d0 /\
       Py.index dcell (Z.of_nat (List.length dcell) - 1) = Ok di /\
       Py.index fcell 0 = Ok f0 /\
       Py.index fcell (Z.of_nat (List.length dcell) - 1) = Ok fi /\
       let one (f : bool) : float := if f then 0 else 1 in
       let a := Cx.mul32 d0 (one f0, 0) in
       let b := Cx.mul32 di (one fi, 0) in
       z = Cx.div (if String.eqb pol "i" then Cx.add32 a b else Cx.sub32 a b)
                  (one f0 + one fi, 0)).
Proof.
  intros H Hr Hc. unfold readdata_columns in H.
  destruct (vis_columns t !! col) as [d3|] eqn:Ecol;
    cbn [mbind result_bind Py.bind_flip Py.bind] in H; [|discriminate].
  bind_ok H as hands Hhands.
  bind_ok H as [data flags0] Hpol.
  bind_ok H as flagsF Hfields.
  bind_ok H as flagsA Hauto.
  bind_ok H as flagsC Hchan.
  bind_ok H as flagsB Hbase.
  injection H as <-. simpl in Hr. simpl.
  destruct (blank_cell _ _ _ _ _ _ Hr Hc)
    as (drow0 & frow & z0 & b & Hd & Hf & Hz0 & Hb & ->).
  exists frow, b. split; [exact Hf|]. split; [exact Hb|]. split.
  - now intros ->.
  - intros ->.
    assert (Hst : stokes (negb (String.eqb pol "i")) d3 hands = Ok data).
    { destruct (String.eqb pol "i").
      - bind_ok Hpol as d Hd'. now injection Hpol as <- _.
      - destruct (String.eqb pol "q"); [|discriminate].
        bind_ok Hpol as d Hd'. now injection Hpol as <- _. }
    unfold stokes in Hst.
    destruct (mapM_nth_error _ _ _ _ _ Hst Hd) as ([drow3 hrow] & Hrow & Hcells).
    apply nth_error_combine_inv in Hrow as [Hd3 Hh]. simpl in Hcells.
    destruct (mapM_nth_error _ _ _ _ _ Hcells Hz0) as ([dcell h] & Hcell & Hz).
    apply nth_error_combine_inv in Hcell as [Hdc Hhc].
    destruct (mapM_nth_error _ _ _ _ _ Hhands Hh) as ([drow3' frow3] & Hrow3 & Hhcells).
    apply nth_error_combine_inv in Hrow3 as [Hd3' Hf3]. simpl in Hhcells.
    assert (drow3' = drow3) as -> by congruence.
    destruct (mapM_nth_error _ _ _ _ _ Hhcells Hhc) as ([dcell' fcell] & Hcell' & Hhand).
    apply nth_error_combine_inv in Hcell' as [Hdc' Hfc].
    assert (dcell' = dcell) as -> by congruence.
    unfold hands_cell in Hhand. cbn [fst snd] in Hhand.
    bind_ok Hhand as f0 Hf0. bind_ok Hhand as fi Hfi. injection Hhand as <-.
    unfold stokes_cell in Hz. cbn [fst snd] in Hz.
    bind_ok Hz as d0 Hd0. bind_ok Hz as di Hdi. injection Hz as <-.
    exists d3, drow3, frow3, dcell, fcell, d0, di, f0, fi.
    repeat (split; [assumption || reflexivity|]).
    cbv zeta. unfold stflags_of, Cx.of_bool, Cx.of_float. cbn [fst snd negb].
    destruct (String.eqb pol "i"), f0, fi; reflexivity.
Qed.

(** A polarisation other than ['i'] and ['q'] is refused: the [raise] of a
    string is a [TypeError], unless the column or a hand is missing. *)
Lemma readdata_columns_unknown_pol (t : Table) (col : string)
    (fields : option (Z + list Z)) (channels : option (list bool))
    (baselines : option (list (Z * Z))) (pol : string) :
  String.eqb pol "i" = false -> String.eqb pol "q" = false ->
  exists e, readdata_columns t col fields channels baselines pol = Raise e.
Proof.
  intros Hi Hq. unfold readdata_columns. rewrite Hi, Hq.
  destruct (vis_columns t !! col) as [d3|]; [|eauto].
  cbn [mbind result_bind Py.bind_flip Py.bind].
  destruct (Py.mapM _ _); eauto.
Qed.

End ReaddataFurther.

Lemma readdata_flags_spec_witness :
  readdata_columns ex_ms "DATA" None (Some [true; false]) (Some [(0, 1)%Z]) "i"
    = Ok ex_vis_sel /\
  nth_error (vis_flags ex_vis_sel) 1 = Some [false; true] /\
  nth_error [false; true] 1 = Some true /\
  exists (d3 : list (list (list Cx.t))) (drow3 : list (list Cx.t))
         (frow3 : list (list bool)) (dcell : list Cx.t) (fcell : list bool)
         (f0 fi : bool) (a1 a2 : Z),
    vis_columns ex_ms !! "DATA" = Some d3 /\
    nth_error d3 1 = Some drow3 /\ nth_error drow3 1 = Some dcell /\
    nth_error (FLAG ex_ms) 1 = Some frow3 /\ nth_error frow3 1 = Some fcell /\
    Py.index fcell 0 = Ok f0 /\
    Py.index fcell (Z.of_nat (List.length dcell) - 1) = Ok fi /\
    nth_error (ANTENNA1 ex_ms) 1 = Some a1 /\ nth_error (ANTENNA2 ex_ms) 1 = Some a2 /\
    true = (if String.eqb "i" "i" then f0 && fi else f0 || fi)
           || false
           || Z.eqb a1 a2
           || negb (nth 1 [true; false] false)
           || negb (nth 1 (baseline_select [(0, 1)%Z] (ANTENNA1 ex_ms) (ANTENNA2 ex_ms))
                        false).
Proof.
  assert (H : readdata_columns ex_ms "DATA" None (Some [true; false])
                               (Some [(0, 1)%Z]) "i" = Ok ex_vis_sel)
    by (vm_compute; reflexivity).
  split; [exact H|]. split; [reflexivity|]. split; [reflexivity|].
  exact (readdata_flags_spec ex_ms "DATA" None (Some [true; false]) (Some [(0, 1)%Z])
           "i" ex_vis_sel 1 1 [false; true] true H eq_refl eq_refl).
Defined.

Lemma readdata_data_spec_witness :
  readdata_columns ex_ms "DATA" None (Some [true; false]) (Some [(0, 1)%Z]) "i"
    = Ok ex_vis_sel /\
  nth_error (vis_data ex_vis_sel) 1 = Some [(1, 0); Cx.nan] /\
  nth_error [(1, 0); Cx.nan] 0 = Some (1, 0) /\
  exists (frow : list bool) (b : bool),
    nth_error (vis_flags ex_vis_sel) 1 = Some frow /\
    nth_error frow 0 = Some b /\
    (b = true -> (1, 0) = Cx.nan) /\
    (b = false ->
     exists (d3 : list (list (list Cx.t))) (drow3 : list (list Cx.t))
            (frow3 : list (list bool)) (dcell : list Cx.t) (fcell : list bool)
            (d0 di : Cx.t) (f0 fi : bool),
       vis_columns ex_ms !! "DATA" = Some d3 /\
       nth_error d3 1 = Some drow3 /\ nth_error drow3 0 = Some dcell /\
       nth_error (FLAG ex_ms) 1 = Some frow3 /\ nth_error frow3 0 = Some fcell /\
       Py.index dcell 0 = Ok d0 /\
       Py.index dcell (Z.of_nat (List.length dcell) - 1) = Ok di /\
       Py.index fcell 0 = Ok f0 /\
       Py.index fcell (Z.of_nat (List.length dcell) - 1) = Ok fi /\
       let one (f : bool) : float := if f then 0 else 1 in
       let a := Cx.mul32 d0 (one f0, 0) in
       let b := Cx.mul32 di (one fi, 0) in
       (1, 0) = Cx.div (if String.eqb "i" "i" then Cx.add32 a b else Cx.sub32 a b)
                       (one f0 + one fi, 0)).
Proof.
  assert (H : readdata_columns ex_ms "DATA" None (Some [true; false])
                               (Some [(0, 1)%Z]) "i" = Ok ex_vis_sel)
    by (vm_compute; reflexivity).
  split; [exact H|]. split; [reflexivity|]. split; [reflexivity|].
  exact (readdata_data_spec ex_ms "DATA" None (Some [true; false]) (Some [(0, 1)%Z])
           "i" ex_vis_sel 1 0 [(1, 0); Cx.nan] (1, 0) H eq_refl eq_refl).
Defined.

(** ** The grid binner and the flag pass *)

Section GridFurther.

Variable exp : float -> float.
Variable curve_fit :
  (float -> float -> float -> float -> float) ->
  list float -> list nat -> float * float * float -> option (float * float * float).
Variable ax_hist : list float -> nat -> list float.
Variable arctan2 : float -> float -> float.
Variable sin : float -> float.
Variable cos : float -> float.
Variable contains_points : list (float * float) -> list (float * float) -> list bool.
Variable hypot : float -> float -> float.

Lemma cell_members_inside (u v : list float) (collaflags : list bool)
    (uvmin : float) (uvmax : option float) (duv uu vv : float) (r : nat) :
  nth_error (cell_members u v collaflags uvmin uvmax duv uu vv) r = Some true ->
  exists x y,
    nth_error u r = Some x /\ nth_error v r = Some y /\
    nth_error collaflags r = Some false /\
    PrimFloat.ltb uu x = true /\ PrimFloat.leb x (uu + duv) = true /\
    PrimFloat.ltb vv y = true /\ PrimFloat.leb y (vv + duv) = true /\
    PrimFloat.ltb (uvmin * uvmin) (x * x + y * y) = true /\
    match uvmax with
    | Some m => PrimFloat.ltb (x * x + y * y) (m * m) = true
    | None => True
    end.
Proof.
  unfold cell_members. rewrite nth_error_map.
  destruct (nth_error (combine (combine u v) collaflags) r) as [[[x y] c]|] eqn:E;
    [|discriminate].
  apply nth_error_combine_inv in E as [E Hc].
  apply nth_error_combine_inv in E as [Hx Hy].
  simpl. intros [= H]. destruct c; [discriminate|].
  exists x, y.
  repeat (apply andb_prop in H as [H ?]).
  destruct uvmax; auto 12.
Qed.

(** X8: what the grid binner leaves for a row, whenever it returns: the
    initial average 0 at the coordinate (0, 0), or the scalar average of a
    cell of the grid and the centre of that cell, and then the row is not
    flagged throughout and its uv point lies in the cell (above its lower
    corner, up to its upper corner).  The scalar average is numpy's
    [nanmean] over the channels of the [abs] of the [nansum] of the rows of
    the cell. *)
Theorem gridding_row_spec (imsize : Z) (cell uvmin : float) (uvmax : option float)
    (data : list (list Cx.t)) (flags : list (list bool)) (uv : list (float * float))
    (nmdata : list float) (gruvcoord : list (float * float)) (r : nat)
    (x : float) (g : float * float) :
  gridding hypot imsize cell uvmin uvmax data flags uv = Ok (nmdata, gruvcoord) ->
  nth_error nmdata r = Some x ->
  nth_error gruvcoord r = Some g ->
  exists (duv : float) (ugrid vgrid : list float),
    uv_cell imsize cell = Ok duv /\
    uv_grid uvmax uv duv = Ok (ugrid, vgrid) /\
    ((x = 0 /\ g = (0, 0)) \/
     exists (uu vv : float) (p : float * float) (frow : list bool),
       let members := cell_members (map fst uv) (map snd uv)
                                   (map (forallb (fun b => b)) flags)
                                   uvmin uvmax duv uu vv in
       In uu ugrid /\ In vv vgrid /\
       nth_error uv r = Some p /\
       nth_error flags r = Some frow /\
       forallb (fun b => b) frow = false /\
       PrimFloat.ltb uu (fst p) = true /\ PrimFloat.leb (fst p) (uu + duv) = true /\
       PrimFloat.ltb vv (snd p) = true /\ PrimFloat.leb (snd p) (vv + duv) = true /\
       nth r members false = true /\
       g = (uu + duv / 2, vv + duv / 2) /\
       x = Np.nanmean (map (Cx.abs hypot)
                           (Np.nansum_rows (Np.select members data)))).
Proof.
  intros H Hx Hg. unfold gridding in H.
  destruct (uv_cell imsize cell) as [duv|] eqn:Hduv; step_bind_in H; [|discriminate].
  destruct (uv_grid uvmax uv duv) as [[ugrid vgrid]|] eqn:Hgrid; step_bind_in H;
    [|discriminate].
  destruct (Py.index (hd [] data) 0) eqn:E; step_bind_in H; [|discriminate].
  exists duv, ugrid, vgrid. split; [reflexivity|]. split; [exact Hgrid|].
  set (collaflags := map (forallb (fun b => b)) flags) in *.
  set (P := fun (x : float) (g : float * float) =>
    (x = 0 /\ g = (0, 0)) \/
    exists (uu vv : float) (p : float * float) (frow : list bool),
      let members := cell_members (map fst uv) (map snd uv) collaflags
                                  uvmin uvmax duv uu vv in
      In uu ugrid /\ In vv vgrid /\
      nth_error uv r = Some p /\
      nth_error flags r = Some frow /\
      forallb (fun b => b) frow = false /\
      PrimFloat.ltb uu (fst p) = true /\ PrimFloat.leb (fst p) (uu + duv) = true /\
      PrimFloat.ltb vv (snd p) = true /\ PrimFloat.leb (snd p) (vv + duv) = true /\
      nth r members false = true /\
      g = (uu + duv / 2, vv + duv / 2) /\
      x = Np.nanmean (map (Cx.abs hypot)
                          (Np.nansum_rows (Np.select members data)))).
  change (P x g).
  assert (Hfold : forall cells st,
    (forall c, In c cells -> In c (list_prod ugrid vgrid)) ->
    (forall x g, nth_error (fst st) r = Some x -> nth_error (snd st) r = Some g ->
                 P x g) ->
    forall x g,
      nth_error (fst (fold_left (grid_cell hypot (map fst uv) (map snd uv) collaflags
                                   data uvmin uvmax duv) cells st)) r = Some x ->
      nth_error (snd (fold_left (grid_cell hypot (map fst uv) (map snd uv) collaflags
                                   data uvmin uvmax duv) cells st)) r = Some g ->
      P x g).
  { induction cells as [|[uu vv] cells IH]; intros st Hin Hst; [exact Hst|].
    cbn [fold_left]. apply IH; [intros c Hc; apply Hin; now right|]. clear IH.
    intros x' g' Hx' Hg'. unfold grid_cell in Hx', Hg'.
    destruct (existsb _ _); [|now apply Hst].
    cbn [fst snd] in Hx', Hg'.
    apply assign_nth_error in Hx' as (s & oldx & Hs & Hox & ->).
    apply assign_nth_error in Hg' as (s' & oldg & Hs' & Hog & ->).
    assert (s' = s) as -> by congruence.
    destruct s; [|now apply Hst].
    right.
    destruct (cell_members_inside _ _ _ _ _ _ _ _ _ Hs)
      as (xu & yv & Hu & Hv & Hc & H1 & H2 & H3 & H4 & _).
    unfold collaflags in Hc. rewrite nth_error_map in Hu, Hv, Hc.
    destruct (nth_error uv r) as [p|] eqn:Ep; [|discriminate].
    destruct (nth_error flags r) as [frow|] eqn:Ef; [|discriminate].
    injection Hu as <-. injection Hv as <-. injection Hc as Hc.
    assert (Hcell : In (uu, vv) (list_prod ugrid vgrid)) by (apply Hin; now left).
    apply in_prod_iff in Hcell as [Huu Hvv].
    exists uu, vv, p, frow. cbv zeta.
    rewrite (nth_error_nth _ _ _ Hs). auto 14. }
  match type of H with
  | Ok ?t = _ => assert (H' : t = (nmdata, gruvcoord)) by congruence
  end.
  change nmdata with (fst (nmdata, gruvcoord)) in Hx.
  change gruvcoord with (snd (nmdata, gruvcoord)) in Hg.
  rewrite <- H' in Hx, Hg.
  eapply Hfold; [|  |exact Hx|exact Hg].
  - auto.
  - cbn [fst snd]. intros x0 g0 Hx0 Hg0. left.
    apply nth_error_In, repeat_spec in Hx0. apply nth_error_In, repeat_spec in Hg0.
    now subst.
Qed.

Lemma ltb_zero_neq (d : float) : PrimFloat.ltb 0 d = true -> PrimFloat.eqb d 0 = false.
Proof.
  intros H. rewrite FloatAxioms.eqb_spec. change (Prim2SF 0) with (S754_zero false).
  destruct (ltb_zero_pos d H) as [(m & e & ->)| ->]; reflexivity.
Qed.

(** The uv cell for an [imsize] that converts exactly and a positive
    divisor. *)
Lemma uv_cell_small (imsize : Z) (cell : float) :
  (Z.abs imsize < 2 ^ 63)%Z ->
  PrimFloat.ltb 0 (Np.of_Z imsize * cell * pi / (3600 * 180)) = true ->
  uv_cell imsize cell = Ok (1 / (Np.of_Z imsize * cell * pi / (3600 * 180))).
Proof.
  intros Hsmall Hpos. unfold uv_cell, float_of_int.
  rewrite (proj2 (Z.ltb_lt _ _) Hsmall). step_bind.
  now rewrite (ltb_zero_neq _ Hpos).
Qed.

(** With [uvmax = 0.0] the grid has no cell: no sample is gridded. *)
Lemma gridding_uvmax_zero (imsize : Z) (cell uvmin : float)
    (data : list (list Cx.t)) (flags : list (list bool)) (uv : list (float * float))
    (z : Cx.t) (duv : float) :
  uv_cell imsize cell = Ok duv ->
  PrimFloat.ltb 0 duv = true ->
  uv <> [] ->
  Py.index (hd [] data) 0 = Ok z ->
  gridding hypot imsize cell uvmin (Some 0) data flags uv
  = Ok (repeat 0 (List.length data), repeat (0, 0) (List.length data)).
Proof.
  intros Hcell Hduv Huv Hz. unfold gridding, uv_grid. rewrite Hcell. step_bind.
  destruct uv as [|q uv']; [congruence|].
  cbv zeta iota beta. rewrite (arange_zero_span _ Hduv). step_bind.
  rewrite Hz. reflexivity.
Qed.

Lemma grid_of_zeros (n : nat) :
  uvgridded_of (repeat 0 (S n)) (Np.zeros_bool (S n)) (repeat (0, 0) (S n)) = [0].
Proof.
  unfold uvgridded_of. rewrite !map_repeat. simpl fst. simpl snd.
  rewrite unique_zeros. reflexivity.
Qed.

(** The flag pass over a grid without cells: every row keeps the average 0
    at (0, 0), the clip sees a single grid value and flags nothing. *)
Lemma flag_pass_no_cells (a : Args) (vis : Visibilities)
    (dayflags : option (list bool)) (loc : Locals) (z : Cx.t) (duv : float) :
  a_uvmax a = Some 0 ->
  a_mode a = "all" ->
  a_show a = None ->
  uv_cell (a_imsize a) (a_cell a) = Ok duv ->
  PrimFloat.ltb 0 duv = true ->
  vis_uv vis <> [] ->
  Py.index (hd [] (vis_data vis)) 0 = Ok z ->
  (a_flagonlyday a = true -> dayflags <> None) ->
  flag_pass exp curve_fit ax_hist arctan2 sin cos contains_points hypot a vis dayflags loc
  = Ok (repeat false (List.length (vis_data vis))).
Proof.
  intros Hmax Hmode Hshow Hcell Hduv Huv Hz Hday. unfold flag_pass.
  rewrite Hmax, (gridding_uvmax_zero _ _ _ _ _ _ z duv Hcell Hduv Huv Hz).
  cbn [mbind result_bind Py.bind_flip Py.bind].
  assert (Hun : exists u,
            (if a_flagonlyday a
             then d ← Py.read_local "dayflags" dayflags; Ok (Some d)
             else Ok None) = Ok u).
  { destruct (a_flagonlyday a); [|eauto].
    destruct dayflags as [d|]; [eauto|]. now destruct Hday. }
  destruct Hun as [u ->]. cbn [mbind result_bind Py.bind_flip Py.bind].
  unfold dispatch. rewrite Hmode, Hshow. change (String.eqb "all" "all") with true.
  cbv iota. cbn [mbind result_bind Py.bind_flip Py.bind].
  rewrite repeat_length.
  destruct (vis_data vis) as [|row rows] eqn:Ed; [discriminate Hz|].
  cbn [List.length].
  rewrite histoclip_few_points
    by (unfold npoints_of; rewrite grid_of_zeros; simpl; lia).
  cbn [mbind result_bind Py.bind_flip Py.bind].
  rewrite repeat_length. rewrite select_none.
  destruct (_ && _); reflexivity.
Qed.

(** X9: with [uvmax = 0.0], mode ['all'] and no plot name, the flag pass
    returns and flags no sample, on every set of visibilities with a row
    and a channel and for every policy and threshold: the grid spans
    [-0.0, 0.0) and has no cell.  The cell size is positive and its
    divisor is not zero (Python raises on a zero divisor), and [imsize]
    is below 2^63 in magnitude. *)
Theorem flag_pass_uvmax_zero (a : Args) (vis : Visibilities)
    (dayflags : option (list bool)) (loc : Locals) (z : Cx.t) :
  a_uvmax a = Some 0 ->
  a_mode a = "all" ->
  a_show a = None ->
  (Z.abs (a_imsize a) < 2 ^ 63)%Z ->
  PrimFloat.ltb 0 (Np.of_Z (a_imsize a) * a_cell a * pi / (3600 * 180)) = true ->
  PrimFloat.ltb 0 (1 / (Np.of_Z (a_imsize a) * a_cell a * pi / (3600 * 180))) = true ->
  vis_uv vis <> [] ->
  Py.index (hd [] (vis_data vis)) 0 = Ok z ->
  (a_flagonlyday a = true -> dayflags <> None) ->
  flag_pass exp curve_fit ax_hist arctan2 sin cos contains_points hypot a vis dayflags loc
  = Ok (repeat false (List.length (vis_data vis))).
Proof.
  intros Hmax Hmode Hshow Hsmall Hpos Hduv Huv Hz Hday.
  apply (flag_pass_no_cells a vis dayflags loc z _ Hmax Hmode Hshow
           (uv_cell_small _ _ Hsmall Hpos) Hduv Huv Hz Hday).
Qed.

(** X11: any mode other than ['all'] and ['antenna'] takes the
    per-baseline branch, which indexes an antenna number of the flattened
    pair list as if it were a pair: with one row or more the branch raises
    [IndexError]. *)
Theorem dispatch_baseline_raises (mode : string) (data : list float)
    (gruvcoord : list (float * float)) (antenna1 antenna2 : list Z)
    (antennanames : list string) (unflags : option (list bool))
    (threshmode : string) (threshold : float) (show : option string) (loc : Locals) :
  String.eqb mode "all" = false ->
  String.eqb mode "antenna" = false ->
  List.length antenna1 = List.length antenna2 ->
  antenna1 <> [] ->
  dispatch exp curve_fit ax_hist mode data gruvcoord antenna1 antenna2
           antennanames unflags threshmode threshold show loc
  = Raise IndexError.
Proof.
  intros Hall Hant Hlen Hrows. unfold dispatch. rewrite Hall, Hant.
  destruct antenna1 as [|a1 rest1]; [congruence|].
  destruct antenna2 as [|a2 rest2]; [discriminate|].
  cbn [combine flat_map app fst snd].
  pose proof (unique_Z_not_nil
                (a1 :: a2 :: flat_map (fun p : Z * Z => [fst p; snd p])
                                      (combine rest1 rest2))) as Hne.
  destruct (Np.unique_Z _); [now destruct Hne|reflexivity].
Qed.

(** X12: with the wedge expansion switched on (radrange and angle
    positive), the flag pass only returns when no sample was flagged: as
    soon as the clip flags a sample, the expansion raises. *)
Theorem flag_pass_wedge_blocks (a : Args) (vis : Visibilities)
    (dayflags : option (list bool)) (loc : Locals) (m : list bool) :
  flag_pass exp curve_fit ax_hist arctan2 sin cos contains_points hypot a vis dayflags loc
    = Ok m ->
  PrimFloat.ltb 0 (a_radrange a) = true ->
  PrimFloat.ltb 0 (a_angle a) = true ->
  forall (i : nat) (p : float * float),
    nth_error (vis_uv vis) i = Some p -> nth i m false = false.
Proof.
  intros H Hr Ha i p Hi. unfold flag_pass in H.
  bind_ok H as [data gruvcoord] Hgrid.
  bind_ok H as unflags Hun.
  bind_ok H as newflags Hdisp.
  rewrite Hr, Ha in H. cbn [andb] in H.
  destruct (Np.select newflags (vis_uv vis)) as [|point rest] eqn:Esel.
  - injection H as <-. eapply select_nil_false; eauto.
  - discriminate H.
Qed.

Variable loadtxt_bool : string -> list bool.
Variable loadtxt_int : string -> list (Z * Z).
Variable seconds_to_days : float -> float.
Variable arcmin_to_rad : float -> float.

(** X10: the command line with the two positional arguments only calls
    [phazer] for a real run ([dryrun] false) with [uvmax = 0.0], and the
    flag pass of that call flags no sample, on every set of visibilities
    with a row and a channel. *)
Theorem cli_default_flags_nothing (inset outset : list string) (vis : Visibilities)
    (loc : Locals) (z : Cx.t) :
  vis_uv vis <> [] ->
  Py.index (hd [] (vis_data vis)) 0 = Ok z ->
  exists a,
    cli_args loadtxt_bool loadtxt_int seconds_to_days arcmin_to_rad
             (parse_defaults inset outset) = Some a /\
    a_uvmax a = Some 0 /\
    a_dryrun a = false /\
    flag_pass exp curve_fit ax_hist arctan2 sin cos contains_points hypot a vis None loc
    = Ok (repeat false (List.length (vis_data vis))).
Proof.
  intros Huv Hz. eexists. split; [reflexivity|]. split; [reflexivity|].
  split; [reflexivity|].
  eapply (flag_pass_no_cells _ vis None loc z); try reflexivity; try assumption.
  discriminate.
Qed.

End GridFurther.

Lemma gridding_flagged_row_witness :
  gridding ex_hypot 512 4 0 None (vis_data ex_vis) (vis_flags ex_vis) (vis_uv ex_vis)
    = Ok ([0; 1; 0; 2], ex_gruvcoord) /\
  nth_error (vis_data ex_vis) 2 = Some [Cx.nan; Cx.nan] /\
  nth_error (vis_flags ex_vis) 2 = Some [true; true] /\
  nth_error (vis_uv ex_vis) 2 = Some (0, 0) /\
  Forall (fun b => b = true) [true; true] /\
  nth_error [0; 1; 0; 2] 2 = Some 0 /\ nth_error ex_gruvcoord 2 = Some (0, 0).
Proof.
  assert (H : gridding ex_hypot 512 4 0 None (vis_data ex_vis) (vis_flags ex_vis) (vis_uv ex_vis)
              = Ok ([0; 1; 0; 2], ex_gruvcoord)) by (vm_compute; reflexivity).
  assert (Hall : Forall (fun b => b = true) [true; true]) by (repeat constructor).
  split; [exact H|]. split; [reflexivity|]. split; [reflexivity|].
  split; [reflexivity|]. split; [exact Hall|].
  exact (gridding_flagged_row ex_hypot 512 4 0 None (vis_data ex_vis) (vis_flags ex_vis)
           (vis_uv ex_vis) [0; 1; 0; 2] ex_gruvcoord 2 [Cx.nan; Cx.nan] [true; true]
           (0, 0) H eq_refl eq_refl eq_refl Hall).
Defined.

Lemma gridding_row_spec_witness :
  gridding ex_hypot 512 4 0 None (vis_data ex_vis) (vis_flags ex_vis) (vis_uv ex_vis)
    = Ok ([0; 1; 0; 2], ex_gruvcoord) /\
  nth_error [0; 1; 0; 2] 1 = Some 1 /\
  nth_error ex_gruvcoord 1 = Some (nth 1 ex_gruvcoord (0, 0)) /\
  exists (duv : float) (ugrid vgrid : list float),
    uv_cell 512 4 = Ok duv /\
    uv_grid None (vis_uv ex_vis) duv = Ok (ugrid, vgrid) /\
    ((1 = 0 /\ nth 1 ex_gruvcoord (0, 0) = (0, 0)) \/
     exists (uu vv : float) (p : float * float) (frow : list bool),
       let members := cell_members (map fst (vis_uv ex_vis)) (map snd (vis_uv ex_vis))
                                   (map (forallb (fun b => b)) (vis_flags ex_vis))
                                   0 None duv uu vv in
       In uu ugrid /\ In vv vgrid /\
       nth_error (vis_uv ex_vis) 1 = Some p /\
       nth_error (vis_flags ex_vis) 1 = Some frow /\
       forallb (fun b => b) frow = false /\
       PrimFloat.ltb uu (fst p) = true /\ PrimFloat.leb (fst p) (uu + duv) = true /\
       PrimFloat.ltb vv (snd p) = true /\ PrimFloat.leb (snd p) (vv + duv) = true /\
       nth 1 members false = true /\
       nth 1 ex_gruvcoord (0, 0) = (uu + duv / 2, vv + duv / 2) /\
       1 = Np.nanmean (map (Cx.abs ex_hypot)
                           (Np.nansum_rows (Np.select members (vis_data ex_vis))))).
Proof.
  assert (H : gridding ex_hypot 512 4 0 None (vis_data ex_vis) (vis_flags ex_vis)
                       (vis_uv ex_vis)
              = Ok ([0; 1; 0; 2], ex_gruvcoord)) by (vm_compute; reflexivity).
  split; [exact H|]. split; [reflexivity|]. split; [reflexivity|].
  exact (gridding_row_spec ex_hypot 512 4 0 None (vis_data ex_vis) (vis_flags ex_vis)
           (vis_uv ex_vis) [0; 1; 0; 2] ex_gruvcoord 1 1 (nth 1 ex_gruvcoord (0, 0))
           H eq_refl eq_refl).
Defined.

Lemma flag_pass_uvmax_zero_witness :
  a_uvmax (ex_call (Some (inl "in.ms")) None "all" "i" 0 0 (Some 0) true) = Some 0 /\
  a_mode (ex_call (Some (inl "in.ms")) None "all" "i" 0 0 (Some 0) true) = "all" /\
  a_show (ex_call (Some (inl "in.ms")) None "all" "i" 0 0 (Some 0) true) = None /\
  (Z.abs 512 < 2 ^ 63)%Z /\
  PrimFloat.ltb 0 (Np.of_Z 512 * 4 * pi / (3600 * 180)) = true /\
  PrimFloat.ltb 0 (1 / (Np.of_Z 512 * 4 * pi / (3600 * 180))) = true /\
  vis_uv ex_vis <> [] /\
  Py.index (hd [] (vis_data ex_vis)) 0 = Ok Cx.nan /\
  (false = true -> @None (list bool) <> None) /\
  flag_pass ex_exp ex_curve_fit ex_ax_hist ex_arctan2 ex_sin ex_cos ex_contains_points ex_hypot
            (ex_call (Some (inl "in.ms")) None "all" "i" 0 0 (Some 0) true) ex_vis None
            (mkLocals None None None)
  = Ok (repeat false (List.length (vis_data ex_vis))).
Proof.
  assert (H4 : (Z.abs 512 < 2 ^ 63)%Z) by (vm_compute; reflexivity).
  assert (H7 : vis_uv ex_vis <> []) by discriminate.
  assert (H9 : false = true -> @None (list bool) <> None) by discriminate.
  split; [reflexivity|]. split; [reflexivity|]. split; [reflexivity|].
  split; [exact H4|]. split; [reflexivity|]. split; [reflexivity|].
  split; [exact H7|]. split; [reflexivity|]. split; [exact H9|].
  exact (flag_pass_uvmax_zero ex_exp ex_curve_fit ex_ax_hist ex_arctan2 ex_sin ex_cos
           ex_contains_points ex_hypot
           (ex_call (Some (inl "in.ms")) None "all" "i" 0 0 (Some 0) true) ex_vis None
           (mkLocals None None None) Cx.nan eq_refl eq_refl eq_refl H4 eq_refl eq_refl
           H7 eq_refl H9).
Defined.

Lemma cli_default_flags_nothing_witness :
  vis_uv ex_vis <> [] /\
  Py.index (hd [] (vis_data ex_vis)) 0 = Ok Cx.nan /\
  exists a,
    cli_args (fun _ => []) (fun _ => []) (fun x => x / 86400) (fun x => x / 3437.75)
             (parse_defaults ["in.ms"] ["out.ms"]) = Some a /\
    a_uvmax a = Some 0 /\
    a_dryrun a = false /\
    flag_pass ex_exp ex_curve_fit ex_ax_hist ex_arctan2 ex_sin ex_cos ex_contains_points ex_hypot
              a ex_vis None (mkLocals None None None)
    = Ok (repeat false (List.length (vis_data ex_vis))).
Proof.
  assert (H1 : vis_uv ex_vis <> []) by discriminate.
  split; [exact H1|]. split; [reflexivity|].
  exact (cli_default_flags_nothing ex_exp ex_curve_fit ex_ax_hist ex_arctan2 ex_sin
           ex_cos ex_contains_points ex_hypot (fun _ => []) (fun _ => [])
           (fun x => x / 86400) (fun x => x / 3437.75)
           ["in.ms"] ["out.ms"] ex_vis (mkLocals None None None) Cx.nan H1 eq_refl).
Defined.

Lemma dispatch_baseline_raises_witness :
  String.eqb "baseline" "all" = false /\
  String.eqb "baseline" "antenna" = false /\
  List.length [0; 0; 1; 2]%Z = List.length [1; 2; 2; 3]%Z /\
  [0; 0; 1; 2]%Z <> [] /\
  dispatch ex_exp ex_curve_fit ex_ax_hist "baseline" ex_data ex_grid
           [0; 0; 1; 2]%Z [1; 2; 2; 3]%Z ["m000"; "m001"; "m002"; "m003"]
           None "std" 1 None (mkLocals None None None)
  = Raise IndexError.
Proof.
  assert (H4 : [0; 0; 1; 2]%Z <> []) by discriminate.
  split; [reflexivity|]. split; [reflexivity|]. split; [reflexivity|].
  split; [exact H4|].
  exact (dispatch_baseline_raises ex_exp ex_curve_fit ex_ax_hist "baseline" ex_data
           ex_grid [0; 0; 1; 2]%Z [1; 2; 2; 3]%Z ["m000"; "m001"; "m002"; "m003"]
           None "std" 1 None (mkLocals None None None) eq_refl eq_refl eq_refl H4).
Defined.

Lemma flag_pass_wedge_blocks_witness :
  flag_pass ex_exp ex_curve_fit ex_ax_hist ex_arctan2 ex_sin ex_cos ex_contains_points ex_hypot
            (ex_call (Some (inl "in.ms")) None "all" "i" 1 10 (Some 0) true) ex_vis None
            (mkLocals None None None)
  = Ok [false; false; false; false] /\
  PrimFloat.ltb 0 1 = true /\
  PrimFloat.ltb 0 10 = true /\
  forall (i : nat) (p : float * float),
    nth_error (vis_uv ex_vis) i = Some p ->
    nth i [false; false; false; false] false = false.
Proof.
  assert (H : flag_pass ex_exp ex_curve_fit ex_ax_hist ex_arctan2 ex_sin ex_cos
                        ex_contains_points ex_hypot
                        (ex_call (Some (inl "in.ms")) None "all" "i" 1 10 (Some 0) true)
                        ex_vis None (mkLocals None None None)
              = Ok [false; false; false; false]) by (vm_compute; reflexivity).
  split; [exact H|]. split; [reflexivity|]. split; [reflexivity|].
  exact (flag_pass_wedge_blocks ex_exp ex_curve_fit ex_ax_hist ex_arctan2 ex_sin ex_cos
           ex_contains_points ex_hypot
           (ex_call (Some (inl "in.ms")) None "all" "i" 1 10 (Some 0) true) ex_vis None
           (mkLocals None None None) [false; false; false; false] H eq_refl eq_refl).
Defined.

(** ** Runs on the tables, further *)

Lemma fails_lift {A : Type} (e : exn) : fails (io_lift (@Raise A e)).
Proof. intros w. now exists e. Qed.

Lemma fails_bind_l {A B : Type} (m : IO A) (k : A -> IO B) :
  fails m -> fails (io_bind m k).
Proof.
  intros Hm w. unfold io_bind. destruct (Hm w) as [e He].
  destruct (m w) as [[a|e'] w']; simpl in *; [discriminate|eauto].
Qed.

Lemma fails_bind_r {A B : Type} (m : IO A) (k : A -> IO B) :
  (forall a, fails (k a)) -> fails (io_bind m k).
Proof.
  intros Hk w. unfold io_bind.
  destruct (m w) as [[a|e'] w']; simpl; [apply Hk|eauto].
Qed.

Lemma io_bind_lift_ok {A B : Type} (a : A) (k : A -> IO B) :
  io_bind (io_lift (Ok a)) k = k a.
Proof. reflexivity. Qed.

Lemma quiet_bind_raise {A B : Type} (e : exn) (k : A -> IO B) :
  quiet (io_bind (io_lift (Raise e)) k).
Proof.
  intros w. split; [reflexivity|]. exists []. split; [|constructor].
  simpl. now rewrite app_nil_r.
Qed.

Lemma quiet_bind_fails {A B : Type} (m : IO A) (k : A -> IO B) :
  quiet m -> fails m -> quiet (io_bind m k).
Proof.
  intros Hq Hf w. unfold io_bind. specialize (Hq w). destruct (Hf w) as [e He].
  destruct (m w) as [[a|e'] w']; simpl in *; [discriminate|exact Hq].
Qed.

Lemma flags_grow_refl (f : list (list (list bool))) : flags_grow f f.
Proof.
  apply Forall2_same. intros row. apply Forall2_same. intros cell.
  apply Forall2_same. auto.
Qed.

Lemma flags_grow_trans (f1 f2 f3 : list (list (list bool))) :
  flags_grow f1 f2 -> flags_grow f2 f3 -> flags_grow f1 f3.
Proof.
  apply Forall2_compose. intros r1 r2 r3. apply Forall2_compose.
  intros c1 c2 c3. apply Forall2_compose. auto.
Qed.

Lemma flagged_more_refl (t : Table) : flagged_more t t.
Proof. unfold flagged_more. repeat split. apply flags_grow_refl. Qed.

Lemma flagged_more_trans (t1 t2 t3 : Table) :
  flagged_more t1 t2 -> flagged_more t2 t3 -> flagged_more t1 t3.
Proof.
  unfold flagged_more.
  intros (A1 & A2 & A3 & A4 & A5 & A6 & A7 & A8 & A9 & A10 & A11 & A12)
         (B1 & B2 & B3 & B4 & B5 & B6 & B7 & B8 & B9 & B10 & B11 & B12).
  repeat split; try congruence. eapply flags_grow_trans; eauto.
Qed.

Lemma world_grows_refl (w : World) : world_grows w w.
Proof. intros name t H. exists t. split; [exact H|apply flagged_more_refl]. Qed.

Lemma world_grows_trans (w1 w2 w3 : World) :
  world_grows w1 w2 -> world_grows w2 w3 -> world_grows w1 w3.
Proof.
  intros H12 H23 name t H. destruct (H12 name t H) as (t2 & H2 & Hm2).
  destruct (H23 name t2 H2) as (t3 & H3 & Hm3).
  exists t3. split; [exact H3|]. eapply flagged_more_trans; eauto.
Qed.

Lemma world_grows_same_tables (w w' : World) :
  tables w' = tables w -> world_grows w w'.
Proof.
  intros E name t H. exists t. rewrite E. split; [exact H|apply flagged_more_refl].
Qed.

Lemma adds_quiet {A : Type} (m : IO A) : quiet m -> only_adds_flags m.
Proof. intros Hq w. apply world_grows_same_tables. apply (Hq w). Qed.

Lemma adds_bind {A B : Type} (m : IO A) (k : A -> IO B) :
  only_adds_flags m -> (forall a, only_adds_flags (k a)) ->
  only_adds_flags (io_bind m k).
Proof.
  intros Hm Hk w. unfold io_bind. specialize (Hm w).
  destruct (m w) as [[a|e] w1]; simpl in *; [|exact Hm].
  eapply world_grows_trans; [exact Hm|apply Hk].
Qed.

Lemma adds_opensilent (inset : string + Handle) (readonly : bool) :
  only_adds_flags (opensilent inset readonly).
Proof.
  intros w. apply world_grows_same_tables.
  destruct inset as [name|h]; simpl; [|reflexivity].
  destruct (tables w !! name); reflexivity.
Qed.

(** Setting the rows of a selection clears no flag. *)
Lemma flag_rows_grow (flags : list bool) (oflags oflags' : list (list (list bool))) :
  flag_rows flags oflags = Ok oflags' -> flags_grow oflags oflags'.
Proof.
  unfold flag_rows.
  destruct (Nat.eqb_spec (List.length flags) (List.length oflags)) as [Hlen|];
    [|discriminate].
  intros [= <-]. revert flags Hlen.
  induction oflags as [|row oflags IH]; intros [|b flags] Hlen; simpl in *;
    try discriminate; constructor.
  - destruct b; simpl.
    + clear. induction row as [|cell row IH]; simpl; constructor; auto.
      clear. induction cell; simpl; constructor; auto.
    + apply Forall2_same. intros cell. apply Forall2_same. auto.
  - apply IH. lia.
Qed.

Lemma world_grows_put (h : Handle) (flags : list (list (list bool))) (w : World)
    (tab : Table) :
  tables w !! h_name h = Some tab ->
  flags_grow (FLAG tab) flags ->
  world_grows w (snd (putcol_flag h flags w)).
Proof.
  intros Et Hg. unfold putcol_flag. rewrite Et.
  destruct (h_readonly h); cbn [snd]; [apply world_grows_refl|].
  intros name t Hn. cbn [tables]. destruct (decide (name = h_name h)) as [->|Hne].
  - rewrite lookup_insert_eq. eexists. split; [reflexivity|].
    assert (t = tab) as -> by congruence.
    unfold flagged_more; simpl. repeat split. exact Hg.
  - rewrite lookup_insert_ne by congruence.
    exists t. split; [exact Hn|apply flagged_more_refl].
Qed.

Lemma world_grows_copy (h : Handle) (dst : string) (w : World) :
  tables w !! dst = None ->
  world_grows w (snd (copy_table h dst w)).
Proof.
  intros Hd. unfold copy_table.
  destruct (tables w !! h_name h) as [t|]; cbn [snd]; [|apply world_grows_refl].
  intros name t' Hn. cbn [tables].
  rewrite lookup_insert_ne by congruence.
  exists t'. split; [exact Hn|apply flagged_more_refl].
Qed.

Lemma adds_apply_one (dryrun : bool) (inset outset : list string) (nrows : list nat)
    (newflags : list bool) (i : nat) :
  only_adds_flags (apply_one dryrun inset outset nrows newflags i).
Proof.
  destruct dryrun; [apply adds_quiet, quiet_apply_one|].
  intros w. unfold apply_one. cbn [negb].
  unfold io_bind at 1. unfold io_lift at 1.
  destruct (Py.index outset (Z.of_nat i)) as [out|]; [|apply world_grows_refl].
  unfold io_bind at 1. unfold tableexists at 1.
  set (final := fun tout : option Handle => io_bind (io_lift (Py.read_local "tout" tout)) _).
  assert (Hfinal : forall tout, only_adds_flags (final tout)).
  { intros tout w'. unfold final, io_bind, io_lift.
    destruct tout as [h|]; cbn [Py.read_local]; [|apply world_grows_refl].
    unfold getcols. destruct (tables w' !! h_name h) as [tab|] eqn:Et;
      [|apply world_grows_refl].
    destruct (Py.index nrows (Z.of_nat i)) as [lo|]; [|apply world_grows_refl].
    destruct (Py.index nrows (Z.of_nat (S i))) as [hi|]; [|apply world_grows_refl].
    destruct (flag_rows (slice newflags lo hi) (FLAG tab)) as [flags|] eqn:Ef;
      [|apply world_grows_refl].
    eapply world_grows_put; [exact Et|]. eapply flag_rows_grow; eauto. }
  destruct (bool_decide (is_Some (tables w !! out))) eqn:Hp.
  - apply (adds_bind _ final); [|exact Hfinal].
    apply adds_bind; [apply adds_opensilent|]. intros h. apply adds_quiet, quiet_ret.
  - apply bool_decide_eq_false in Hp.
    assert (Hnone : tables w !! out = None).
    { destruct (tables w !! out) eqn:E; [|reflexivity]. destruct Hp. eauto. }
    unfold io_bind at 1. unfold io_bind at 1. unfold io_lift at 1.
    destruct (Py.index inset (Z.of_nat i)) as [src|]; [|apply world_grows_refl].
    unfold io_bind at 1.
    pose proof (adds_opensilent (inl src) true w) as Hopen.
    assert (Hsame : tables (snd (opensilent (inl src) true w)) = tables w).
    { simpl. destruct (tables w !! src); reflexivity. }
    destruct (opensilent (inl src) true w) as [[t|e] w1]; cbn [snd] in *;
      [|exact Hopen].
    unfold io_bind at 1.
    pose proof (world_grows_copy t out w1) as Hcopy.
    rewrite Hsame in Hcopy. specialize (Hcopy Hnone).
    destruct (copy_table t out w1) as [[u|e] w2]; cbn [snd] in *.
    + eapply world_grows_trans; [exact Hopen|].
      eapply world_grows_trans; [exact Hcopy|].
      apply (adds_bind _ final); [|exact Hfinal].
      apply adds_bind; [apply adds_opensilent|]. intros h. apply adds_quiet, quiet_ret.
    + eapply world_grows_trans; [exact Hopen|exact Hcopy].
Qed.

Lemma adds_apply_all (dryrun : bool) (inset outset : list string) (nrows : list nat)
    (newflags : list bool) (todo : list nat) :
  only_adds_flags (apply_all dryrun inset outset nrows newflags todo).
Proof.
  induction todo as [|i rest IH]; simpl; [apply adds_quiet, quiet_ret|].
  apply adds_bind; [apply adds_apply_one|]. intros _. exact IH.
Qed.

Section RunsFurther.

Variable exp : float -> float.
Variable curve_fit :
  (float -> float -> float -> float -> float) ->
  list float -> list nat -> float * float * float -> option (float * float * float).
Variable ax_hist : list float -> nat -> list float.
Variable arctan2 : float -> float -> float.
Variable sin : float -> float.
Variable cos : float -> float.
Variable contains_points : list (float * float) -> list (float * float) -> list bool.
Variable hypot : float -> float -> float.
Variable geodetic : float * float * float -> float * float * float.
Variable next_rising : Observer -> float -> result float.
Variable next_setting : Observer -> float -> result float.

(** X13: without input, [phazer] logs that it stops and goes on to
    [len(inset)]: it raises [TypeError] at once, with no table opened. *)
Theorem phazer_no_input (steps : nat) (a : Args) (w : World) :
  a_inset a = None ->
  phazer exp curve_fit ax_hist arctan2 sin cos contains_points hypot geodetic next_rising
         next_setting steps a w
  = (Raise TypeError, w).
Proof. intros H. unfold phazer. rewrite H. reflexivity. Qed.

Lemma fails_read_set (steps : nat) (a : Args) (name : string)
    (baselines : option (list (Z * Z))) :
  String.eqb (a_pol a) "i" = false -> String.eqb (a_pol a) "q" = false ->
  fails (read_set geodetic next_rising next_setting steps a name baselines).
Proof.
  intros Hi Hq. unfold read_set. apply fails_bind_r; intros tutu.
  apply fails_bind_l. unfold readdata.
  apply fails_bind_r; intros h. apply fails_bind_r; intros t.
  destruct (readdata_columns_unknown_pol t (a_col a) (a_fields a) (a_channels a)
              baselines (a_pol a) Hi Hq) as [e ->].
  apply fails_lift.
Qed.

(** X14: with a polarisation other than ['i'] and ['q'] (the default
    ['parallel'] of [phazer] is one), [phazer] never returns: it raises
    while or before it reads the first set, and writes nothing, dry run
    or not. *)
Theorem phazer_unknown_pol (steps : nat) (a : Args) :
  String.eqb (a_pol a) "i" = false -> String.eqb (a_pol a) "q" = false ->
  fails (phazer exp curve_fit ax_hist arctan2 sin cos contains_points hypot geodetic
                next_rising next_setting steps a) /\
  quiet (phazer exp curve_fit ax_hist arctan2 sin cos contains_points hypot geodetic
                next_rising next_setting steps a).
Proof.
  intros Hi Hq. unfold phazer. split.
  - apply fails_bind_r; intros names. apply fails_bind_r; intros first.
    apply fails_bind_l. now apply fails_read_set.
  - apply quiet_bind; [apply quiet_lift|]. intros names.
    apply quiet_bind; [apply quiet_lift|]. intros first.
    apply quiet_bind_fails; [apply quiet_read_set|now apply fails_read_set].
Qed.

(** X15: when the output sets are not as many as the input sets,
    [phazer] never returns and writes nothing, dry run or not: the check
    comes after the flag pass and before the first table is opened for
    writing. *)
Theorem phazer_outset_mismatch (steps : nat) (a : Args)
    (inset outset : string + list string) :
  a_inset a = Some inset ->
  a_outset a = Some outset ->
  List.length (as_list outset) <> List.length (as_list inset) ->
  fails (phazer exp curve_fit ax_hist arctan2 sin cos contains_points hypot geodetic
                next_rising next_setting steps a) /\
  quiet (phazer exp curve_fit ax_hist arctan2 sin cos contains_points hypot geodetic
                next_rising next_setting steps a).
Proof.
  intros Hin Hout Hlen. unfold phazer. rewrite Hin, Hout.
  rewrite io_bind_lift_ok.
  assert (Hcheck : (if Nat.eqb (List.length (as_list outset)) (List.length (as_list inset))
                    then Ok (as_list outset) else Raise TypeError)
                   = @Raise (list string) TypeError).
  { destruct (Nat.eqb_spec (List.length (as_list outset)) (List.length (as_list inset)));
      [contradiction|reflexivity]. }
  rewrite Hcheck. split.
  - apply fails_bind_r; intros first.
    apply fails_bind_r; intros [vis dayflags].
    apply fails_bind_r; intros [[vis' dayflags'] nrows].
    apply fails_bind_r; intros newflags.
    apply fails_bind_l. apply fails_lift.
  - apply quiet_bind; [apply quiet_lift|]. intros first.
    apply quiet_bind; [apply quiet_read_set|]. intros [vis dayflags].
    apply quiet_bind; [apply quiet_read_more|]. intros [[vis' dayflags'] nrows].
    apply quiet_bind; [apply quiet_lift|]. intros newflags.
    apply quiet_bind_raise.
Qed.

(** X16: whatever the arguments are and however the run ends, [phazer]
    keeps every table that was there, changes no column of it but FLAG,
    and clears no flag. *)
Theorem phazer_only_adds_flags (steps : nat) (a : Args) (w : World)
    (name : string) (t : Table) :
  tables w !! name = Some t ->
  exists t',
    tables (snd (phazer exp curve_fit ax_hist arctan2 sin cos contains_points hypot
                        geodetic next_rising next_setting steps a w)) !! name
    = Some t' /\
    flagged_more t t'.
Proof.
  revert w name t.
  change (only_adds_flags (phazer exp curve_fit ax_hist arctan2 sin cos contains_points hypot
                                  geodetic next_rising next_setting steps a)).
  unfold phazer.
  apply adds_bind; [apply adds_quiet, quiet_lift|]. intros names.
  apply adds_bind; [apply adds_quiet, quiet_lift|]. intros first.
  apply adds_bind; [apply adds_quiet, quiet_read_set|]. intros [vis dayflags].
  apply adds_bind; [apply adds_quiet, quiet_read_more|]. intros [[vis' dayflags'] nrows].
  apply adds_bind; [apply adds_quiet, quiet_lift|]. intros newflags.
  apply adds_bind; [apply adds_quiet, quiet_lift|]. intros outset.
  apply adds_apply_all.
Qed.

(** X17: the baseline selection reaches the first input set only: the
    further sets are read without it, whatever it is. *)
Theorem read_more_ignores_baselines (steps : nat) (a : Args)
    (baselines : option (list (Z * Z))) (names : list string)
    (acc : Visibilities * option (list bool) * list nat) (w : World) :
  read_more geodetic next_rising next_setting steps (set_baselines a baselines) names
            acc w
  = read_more geodetic next_rising next_setting steps a names acc w.
Proof.
  revert acc w. induction names as [|name rest IH]; intros [[vis dayflags] nrows] w;
    [reflexivity|].
  cbn [read_more]. unfold io_bind.
  change (read_set geodetic next_rising next_setting steps (set_baselines a baselines)
                   name None w)
    with (read_set geodetic next_rising next_setting steps a name None w).
  destruct (read_set geodetic next_rising next_setting steps a name None w)
    as [[[plus dayflagsplus]|e] w']; [|reflexivity].
  apply IH.
Qed.

Lemma sun_walk_windows (steps : nat) (etel : Observer) (m : Margins)
    (nononsoleil : bool) (eobsend : float) (etimes : list float) (esti : float)
    (flags0 flags : list bool) :
  List.length flags0 = List.length etimes ->
  sun_walk next_rising next_setting steps etel m nononsoleil eobsend etimes esti flags0
    = Ok flags ->
  exists periods,
    daylight_periods next_rising next_setting steps etel m eobsend esti = Ok periods /\
    List.length flags = List.length etimes /\
    forall i t, nth_error etimes i = Some t ->
      nth i flags false = nth i flags0 false || in_windows nononsoleil m periods t.
Proof.
  revert esti flags0 flags.
  induction steps as [|n IH]; intros esti flags0 flags Hlen; simpl.
  - destruct (PrimFloat.ltb (esti - avantsoleil m) eobsend) eqn:E; simpl;
      [discriminate|].
    intros [= <-]. exists []. repeat split; auto.
    intros i t _. destruct nononsoleil; simpl; now rewrite orb_false_r.
  - destruct (PrimFloat.ltb (esti - avantsoleil m) eobsend) eqn:E; simpl.
    + destruct (next_setting etel esti) as [eeti|] eqn:Hs; simpl; [|discriminate].
      destruct (next_rising etel eeti) as [esti'|] eqn:Hr; simpl; [|discriminate].
      intros Hwalk.
      apply IH in Hwalk as (rest & Hd & Hl & Hflags).
      * exists ((esti, eeti) :: rest). rewrite Hd. simpl.
        repeat split; auto.
        intros i t Hi. rewrite (Hflags i t Hi).
        destruct nononsoleil; simpl.
        -- rewrite (add_window_nth _ _ _ _ i t Hlen Hi). now rewrite orb_assoc.
        -- rewrite (add_window_nth _ _ _ _ i t) by
             (try apply add_window_length; assumption).
           rewrite (add_window_nth _ _ _ _ i t Hlen Hi).
           now rewrite !orb_assoc.
      * destruct nononsoleil; repeat apply add_window_length; assumption.
    + intros [= <-]. exists []. repeat split; auto.
      intros i t _. destruct nononsoleil; simpl; now rewrite orb_false_r.
Qed.

Lemma sun_walk_finishes (steps : nat) (etel : Observer) (m : Margins)
    (nononsoleil : bool) (eobsend : float) (etimes : list float) (esti : float)
    (flags0 : list bool) (periods : list (float * float)) :
  daylight_periods next_rising next_setting steps etel m eobsend esti = Ok periods ->
  exists flags,
    sun_walk next_rising next_setting steps etel m nononsoleil eobsend etimes esti flags0
      = Ok flags.
Proof.
  revert esti flags0 periods.
  induction steps as [|n IH]; intros esti flags0 periods; simpl.
  - destruct (PrimFloat.ltb (esti - avantsoleil m) eobsend); simpl;
      [discriminate|eauto].
  - destruct (PrimFloat.ltb (esti - avantsoleil m) eobsend); simpl; [|eauto].
    destruct (next_setting etel esti) as [eeti|]; simpl; [|discriminate].
    destruct (next_rising etel eeti) as [esti'|]; simpl; [|discriminate].
    destruct (daylight_periods _ _ n etel m eobsend esti') as [rest|] eqn:Hd;
      simpl; [|discriminate].
    intros _. eapply IH. exact Hd.
Qed.

(** X18: every branch of the walk of [vampirisms].  Once the walk goes
    through its daylight periods within the step budget the call returns,
    and a time stamp is marked exactly when it lies in a window of a
    period: the one bracket from before the rising to after the setting
    with [nononsoleil], one of the two brackets around the rising and
    around the setting without; [flinvert] returns the complement. *)
Theorem sun_flags_windows (steps : nat) (t : Table) (lat lon hei : option float)
    (m : Margins) (horizon : float) (nononsoleil flinvert : bool)
    (etel : Observer) (etimes : list float)
    (eobstart eobsend esti : float) (periods : list (float * float)) :
  observer_of geodetic t lat lon hei horizon = Ok etel ->
  observation_span t = Ok (etimes, eobstart, eobsend) ->
  first_rising next_rising next_setting etel eobstart = Ok esti ->
  walked next_rising next_setting etel m eobsend esti periods ->
  (List.length periods <= steps)%nat ->
  exists flags,
    sun_flags geodetic next_rising next_setting steps t lat lon hei m horizon
              nononsoleil flinvert = Ok flags /\
    List.length flags = List.length etimes /\
    forall i tm, nth_error etimes i = Some tm ->
      nth i flags false
      = xorb flinvert
             (if nononsoleil
              then existsb (fun p : float * float =>
                              in_window (fst p - avantsoleil m) (snd p + apresoleil m) tm)
                           periods
              else existsb (fun p : float * float =>
                              in_window (fst p - avantsoleil m) (fst p + apresnuit m) tm
                              || in_window (snd p - avantnuit m) (snd p + apresoleil m) tm)
                           periods).
Proof.
  intros Ho Hspan Hfirst Hw Hsteps.
  pose proof (walked_daylight_periods next_rising next_setting etel m eobsend esti
                periods steps Hw Hsteps) as Hd.
  destruct (sun_walk_finishes steps etel m nononsoleil eobsend etimes esti
              (Np.zeros_bool (List.length etimes)) periods Hd) as [flags Hwalk].
  pose proof Hwalk as Hwalk'.
  apply sun_walk_windows in Hwalk' as (periods' & Hd' & Hl & Hflags);
    [|unfold Np.zeros_bool; apply repeat_length].
  assert (periods' = periods) as -> by congruence.
  exists (if flinvert then Np.logical_not flags else flags).
  split; [|split].
  - unfold sun_flags. rewrite Ho. simpl. rewrite Hspan. simpl.
    rewrite Hfirst. simpl. rewrite Hwalk. reflexivity.
  - destruct flinvert; [|exact Hl]. unfold Np.logical_not. now rewrite length_map.
  - intros i tm Hi.
    assert (Hi' : (i < List.length flags)%nat).
    { rewrite Hl. apply nth_error_Some. congruence. }
    specialize (Hflags i tm Hi). rewrite nth_zeros_bool in Hflags. simpl in Hflags.
    unfold in_windows, in_daylight, in_margins in Hflags.
    destruct flinvert; simpl.
    + rewrite nth_logical_not by exact Hi'. now rewrite Hflags.
    + exact Hflags.
Qed.

(** X19: an antenna position unit other than the metre stops
    [vampirisms] once the table is opened: the [raise] of a string is a
    [TypeError], and no table is changed, dry run or not. *)
Theorem vampirisms_unknown_unit (steps : nat) (name : string)
    (lat lon hei : option float) (dryrun : bool) (m : Margins) (horizon : float)
    (nononsoleil flinvert : bool) (w : World) (tab : Table) (u : string) :
  tables w !! name = Some tab ->
  In u (POSITION_UNITS tab) ->
  String.eqb u "m" = false ->
  vampirisms geodetic next_rising next_setting steps (inl name) lat lon hei dryrun
             m horizon nononsoleil flinvert w
  = (Raise TypeError, mkWorld (tables w) (journal w ++ [EvOpen name dryrun])).
Proof.
  intros Et Hin Hu.
  assert (Hunits : forallb (fun u => String.eqb u "m") (POSITION_UNITS tab) = false).
  { apply not_true_is_false. intros Hall.
    rewrite forallb_forall in Hall. specialize (Hall u Hin). congruence. }
  unfold vampirisms, io_bind, opensilent, getcols, io_lift.
  rewrite Et. cbn [tables h_name]. rewrite Et.
  unfold sun_flags, observer_of. rewrite Hunits. reflexivity.
Qed.

(** X20: what a real run of [vampirisms] on a named table does: it opens
    the table for writing, writes the FLAG column once, with the rows of
    the marked time stamps set throughout and the other rows as they
    were, and returns the marks of the time stamps. *)
Theorem vampirisms_real_run (steps : nat) (name : string)
    (lat lon hei : option float) (m : Margins) (horizon : float)
    (nononsoleil flinvert : bool) (w : World) (tab : Table) (flags : list bool) :
  tables w !! name = Some tab ->
  sun_flags geodetic next_rising next_setting steps tab lat lon hei m horizon
            nononsoleil flinvert = Ok flags ->
  List.length flags = List.length (FLAG tab) ->
  exists oflags,
    vampirisms geodetic next_rising next_setting steps (inl name) lat lon hei false
               m horizon nononsoleil flinvert w
    = (Ok flags,
       mkWorld (<[name := mkTable (vis_columns tab) oflags (UVW tab) (FIELD tab)
                            (ANTENNA1 tab) (ANTENNA2 tab) (TIME tab) (INTERVAL tab)
                            (CHAN_FREQ tab) (ANTENNA_NAME tab) (ANTENNA_POSITION tab)
                            (POSITION_UNITS tab)]> (tables w))
               (journal w ++ [EvOpen name false; EvPutFlag name])) /\
    List.length oflags = List.length (FLAG tab) /\
    forall (r : nat) (row : list (list bool)),
      nth_error (FLAG tab) r = Some row ->
      nth_error oflags r
      = Some (if nth r flags false then map (map (fun _ => true)) row else row).
Proof.
  intros Et Hf Hlen.
  exists (map (fun p : bool * list (list bool) =>
                 if fst p then map (map (fun _ => true)) (snd p) else snd p)
              (combine flags (FLAG tab))).
  split; [|split].
  - unfold vampirisms, io_bind, opensilent, getcols, io_lift, putcol_flag, flag_rows.
    cbn [negb tables journal h_name h_readonly]. rewrite Et. cbn [tables h_name].
    rewrite Et, Hf. cbn [negb]. rewrite Hlen, Nat.eqb_refl.
    cbn [tables journal h_name h_readonly]. rewrite Et.
    unfold io_ret. rewrite <- app_assoc. reflexivity.
  - rewrite length_map, length_combine. lia.
  - intros r row Hr. rewrite nth_error_map.
    assert (Hb : exists b, nth_error flags r = Some b).
    { destruct (nth_error flags r) eqn:E; [eauto|].
      apply nth_error_None in E.
      assert (r < List.length (FLAG tab))%nat by (apply nth_error_Some; congruence).
      lia. }
    destruct Hb as [b Hb].
    rewrite (nth_error_combine _ _ _ _ _ Hb Hr). simpl.
    now rewrite (nth_error_nth _ _ _ Hb).
Qed.

(** X21: the marks that [vampirisms] returns do not depend on [dryrun]:
    a real run that returns, returns what the dry run on the same tables
    returns. *)
Theorem vampirisms_dryrun_same_flags (steps : nat) (inset : string + Handle)
    (lat lon hei : option float) (m : Margins) (horizon : float)
    (nononsoleil flinvert : bool) (w : World) (flags : list bool) :
  fst (vampirisms geodetic next_rising next_setting steps inset lat lon hei false
                  m horizon nononsoleil flinvert w) = Ok flags ->
  fst (vampirisms geodetic next_rising next_setting steps inset lat lon hei true
                  m horizon nononsoleil flinvert w) = Ok flags.
Proof.
  unfold vampirisms, io_bind, opensilent, getcols, io_lift, io_ret.
  destruct inset as [name|h]; cbn [negb].
  - destruct (tables w !! name) as [tab|] eqn:Et; [|discriminate].
    cbn [tables h_name]. rewrite Et.
    destruct (sun_flags _ _ _ _ _ _ _ _ _ _ _ _) as [fl|]; [|discriminate].
    destruct (flag_rows fl (FLAG tab)) as [oflags|]; [|discriminate].
    destruct (putcol_flag _ _ _) as [[u|e] w']; [|discriminate].
    simpl. auto.
  - destruct (tables w !! h_name h) as [tab|] eqn:Et; [|discriminate].
    destruct (sun_flags _ _ _ _ _ _ _ _ _ _ _ _) as [fl|]; [|discriminate].
    destruct (flag_rows fl (FLAG tab)) as [oflags|]; [|discriminate].
    destruct (putcol_flag _ _ _) as [[u|e] w']; [|discriminate].
    simpl. auto.
Qed.

(** *** Night rows and the rows written *)

(** An exempted sample takes no flag, whichever way the selection and the
    exemption broadcast. *)
Lemma mul_bool_exempt (sel u m : list bool) (i : nat) :
  Np.mul_bool sel (Np.logical_not u) = Ok m ->
  nth i u false = true -> nth i m false = false.
Proof.
  unfold Np.mul_bool, Np.logical_not. intros Hm Hu.
  destruct (Nat.eqb (List.length sel) (List.length (map negb u))).
  - injection Hm as <-. revert sel i Hu.
    induction u as [|b u IH]; intros [|s sel] [|i] Hu; simpl in *;
      try discriminate; auto.
    subst b. apply andb_false_r.
  - destruct sel as [|s [|s' sel']].
    + destruct (map negb u) as [|y [|y' l]]; try discriminate.
      injection Hm as <-. now destruct i.
    + injection Hm as <-. clear - Hu. revert i Hu.
      induction u as [|b u IH]; intros [|i] Hu; simpl in *; try discriminate; auto.
      subst b. apply andb_false_r.
    + destruct u as [|b [|b' u']]; simpl in Hm; try discriminate.
      injection Hm as <-. destruct i as [|[|i]]; simpl in Hu; try discriminate.
      subst b. simpl. apply andb_false_r.
Qed.

(** [histoclip] never flags a sample that [unflags] exempts. *)
Lemma histoclip_exempt
    (data : list float) (mask : list bool) (gruvcoord : list (float * float))
    (u : list bool) (threshmode : string) (threshold : float)
    (ax : option Axes) (title : string) (m : list bool) (drawn : list draw_cmd)
    (i : nat) :
  histoclip exp curve_fit ax_hist data mask gruvcoord (Some u) threshmode
            threshold ax title = Ok (m, drawn) ->
  nth i u false = true ->
  nth i m false = false.
Proof.
  intros H Hu. unfold histoclip in H. cbv zeta in H.
  destruct (Nat.ltb _ 3).
  { injection H as <- _. apply nth_zeros_bool. }
  rewrite !eqb_nan_r in H.
  bind_ok H as fit Efit. bind_ok H as stats Estats.
  bind_ok H as [std ave] Eave. bind_ok H as sel Esel.
  assert (sel = m) as ->.
  { destruct ax; [bind_ok H as d Ed|]; now injection H. }
  unfold clip_mask in Esel. eapply mul_bool_exempt; eauto.
Qed.

(** X22: with [flagonlyday], a pass in mode 'all' that returns has flagged
    no row that the walk marked as taken by night: the marks of the night
    are handed to [histoclip] as the exemption, and the wedges do not
    return once a row is flagged. *)
Theorem flag_pass_spares_night (a : Args) (vis : Visibilities)
    (dayflags : option (list bool)) (loc : Locals) (m : list bool) :
  flag_pass exp curve_fit ax_hist arctan2 sin cos contains_points hypot a vis dayflags loc
    = Ok m ->
  a_flagonlyday a = true ->
  a_mode a = "all" ->
  exists d, dayflags = Some d /\
    forall i, nth i d false = true -> nth i m false = false.
Proof.
  intros H Hday Hmode. unfold flag_pass in H.
  bind_ok H as [data gruvcoord] Hgrid.
  rewrite Hday in H.
  destruct dayflags as [d|]; [|discriminate H].
  cbn [mbind result_bind Py.bind_flip Py.bind Py.read_local] in H.
  bind_ok H as newflags Hdisp.
  exists d. split; [reflexivity|]. intros i Hi.
  assert (Hnew : nth i newflags false = false).
  { unfold dispatch in Hdisp. rewrite Hmode in Hdisp.
    change (String.eqb "all" "all") with true in Hdisp. cbv iota in Hdisp.
    bind_ok Hdisp as ax Eax. bind_ok Hdisp as [nf drawn] Eh.
    injection Hdisp as <-. eapply histoclip_exempt; eauto. }
  destruct (_ && _) in H; [|now injection H as <-].
  destruct (Np.select newflags (vis_uv vis)) as [|point rest].
  - now injection H as <-.
  - discriminate H.
Qed.

Lemma blank_rows_nan (data : list (list Cx.t)) (flags : list (list bool)) (r : nat)
    (frow : list bool) (out : list Cx.t) :
  nth_error flags r = Some frow ->
  Forall (fun b => b = true) frow ->
  nth_error (blank data flags) r = Some out ->
  Forall (fun z => z = Cx.nan) out.
Proof.
  intros Hf Hall Hout.
  destruct (nth_error data r) as [drow|] eqn:Hd.
  - destruct (blank_row data flags r drow frow Hd Hf Hall) as (out' & Hout' & _ & Hnan).
    congruence.
  - apply nth_error_None in Hd.
    assert (Hlt : (r < List.length (blank data flags))%nat)
      by (apply nth_error_Some; congruence).
    unfold blank in Hlt. rewrite length_map, length_combine in Hlt. lia.
Qed.

(** X23: with [vampirisms], reading an input set blanks the night: the
    marks returned are those of the walk over the table with [flinvert],
    one per row, and every row marked is flagged in all its channels and
    its data are NaN. *)
Theorem read_set_blanks_night (steps : nat) (a : Args) (name : string)
    (baselines : option (list (Z * Z))) (w : World) (vis : Visibilities)
    (dayflags : option (list bool)) :
  fst (read_set geodetic next_rising next_setting steps a name baselines w)
    = Ok (vis, dayflags) ->
  a_vampirisms a = true ->
  exists (tab : Table) (d : list bool),
    tables w !! name = Some tab /\
    sun_flags geodetic next_rising next_setting steps tab None None None (a_margins a)
              (a_horizon a) (a_nononsoleil a) true = Ok d /\
    dayflags = Some d /\
    List.length (vis_flags vis) = List.length d /\
    forall r, nth_error d r = Some true ->
      (exists frow, nth_error (vis_flags vis) r = Some frow /\
                    Forall (fun b => b = true) frow) /\
      (forall drow, nth_error (vis_data vis) r = Some drow ->
                    Forall (fun z => z = Cx.nan) drow).
Proof.
  intros H Hv. unfold read_set in H. rewrite Hv in H.
  cbv [io_bind opensilent readdata getcols io_lift vampirisms io_ret negb orb] in H.
  destruct (tables w !! name) as [tab|] eqn:Et; [|discriminate H].
  cbn [tables h_name] in H. rewrite Et in H.
  destruct (readdata_columns tab (a_col a) (a_fields a) (a_channels a) baselines
              (a_pol a)) as [vis0|] eqn:Er; [|discriminate H].
  cbn [tables h_name] in H. rewrite Et in H.
  destruct (sun_flags geodetic next_rising next_setting steps tab None None None
              (a_margins a) (a_horizon a) (a_nononsoleil a) true) as [d|] eqn:Es;
    [|discriminate H].
  cbn [fst snd Py.read_local mbind result_bind Py.bind_flip Py.bind] in H.
  destruct (set_rows d (vis_flags vis0)) as [flags|] eqn:Eset; [|discriminate H].
  cbn [fst snd mbind result_bind Py.bind_flip Py.bind] in H.
  injection H as <- <-.
  exists tab, d. repeat split; auto.
  - cbn [vis_flags]. unfold set_rows in Eset.
    destruct (Nat.eqb_spec (List.length d) (List.length (vis_flags vis0))) as [Hlen|];
      [|discriminate Eset].
    injection Eset as <-. rewrite length_map, length_combine. lia.
  - cbn [vis_flags].
    destruct (set_rows_sets _ _ _ r Eset H) as (old & new & Hold & Hnew & Hl & Hall).
    eauto.
  - intros drow Hd. cbn [vis_flags vis_data] in *.
    destruct (set_rows_sets _ _ _ r Eset H) as (old & new & Hold & Hnew & Hl & Hall).
    eapply blank_rows_nan; eauto.
Qed.

Lemma nth_slice {A : Type} (l : list A) (lo hi r : nat) (x d : A) :
  nth_error (slice l lo hi) r = Some x -> nth (lo + r) l d = x.
Proof.
  unfold slice. intros H.
  assert (Hr : (r < hi - lo)%nat).
  { assert (r < List.length (firstn (hi - lo) (skipn lo l)))%nat
      by (apply nth_error_Some; congruence).
    rewrite length_firstn in H0. lia. }
  rewrite nth_error_firstn in H.
  destruct (Nat.ltb_spec r (hi - lo)); [|lia].
  rewrite nth_error_skipn in H. now apply nth_error_nth.
Qed.

(** X24: what a real run writes to an output set that exists: the table
    is opened for writing and its FLAG column is written once, with every
    row that the pass flagged, counted from the first row of this set in
    the concatenation, set throughout, and the other rows as they were. *)
Theorem apply_one_writes (inset outset : list string) (nrows : list nat)
    (newflags : list bool) (i : nat) (w : World) (out : string) (tab : Table)
    (lo hi : nat) :
  Py.index outset (Z.of_nat i) = Ok out ->
  tables w !! out = Some tab ->
  Py.index nrows (Z.of_nat i) = Ok lo ->
  Py.index nrows (Z.of_nat (S i)) = Ok hi ->
  List.length (slice newflags lo hi) = List.length (FLAG tab) ->
  exists oflags,
    apply_one false inset outset nrows newflags i w
    = (Ok tt,
       mkWorld (<[out := mkTable (vis_columns tab) oflags (UVW tab) (FIELD tab)
                           (ANTENNA1 tab) (ANTENNA2 tab) (TIME tab) (INTERVAL tab)
                           (CHAN_FREQ tab) (ANTENNA_NAME tab) (ANTENNA_POSITION tab)
                           (POSITION_UNITS tab)]> (tables w))
               (journal w ++ [EvOpen out false; EvPutFlag out])) /\
    List.length oflags = List.length (FLAG tab) /\
    forall (r : nat) (row : list (list bool)),
      nth_error (FLAG tab) r = Some row ->
      nth_error oflags r
      = Some (if nth (lo + r) newflags false then map (map (fun _ => true)) row
              else row).
Proof.
  intros Hout Et Hlo Hhi Hlen.
  exists (map (fun p : bool * list (list bool) =>
                 if fst p then map (map (fun _ => true)) (snd p) else snd p)
              (combine (slice newflags lo hi) (FLAG tab))).
  split; [|split].
  - unfold apply_one. cbn [negb].
    cbv [io_bind io_lift tableexists opensilent io_ret getcols putcol_flag].
    rewrite Hout, Et.
    rewrite bool_decide_eq_true_2 by eauto.
    unfold Py.read_local. rewrite Et. cbn [tables journal h_name h_readonly].
    rewrite Et, Hlo, Hhi.
    unfold flag_rows. rewrite Hlen, Nat.eqb_refl.
    cbn [tables journal h_name h_readonly]. rewrite Et.
    rewrite <- app_assoc. reflexivity.
  - rewrite length_map, length_combine. lia.
  - intros r row Hr. rewrite nth_error_map.
    assert (Hb : exists b, nth_error (slice newflags lo hi) r = Some b).
    { destruct (nth_error (slice newflags lo hi) r) eqn:E; [eauto|].
      apply nth_error_None in E.
      assert (r < List.length (FLAG tab))%nat by (apply nth_error_Some; congruence).
      lia. }
    destruct Hb as [b Hb].
    rewrite (nth_error_combine _ _ _ _ _ Hb Hr). simpl.
    now rewrite (nth_slice _ _ _ _ _ false Hb).
Qed.

End RunsFurther.

(** *** Runs on the worked tables *)

Lemma phazer_no_input_witness :
  a_inset (ex_call None None "all" "i" 0 0 None false) = None /\
  ex_phazer 5 (ex_call None None "all" "i" 0 0 None false) ex_world
  = (Raise TypeError, ex_world).
Proof.
  split; [reflexivity|].
  exact (phazer_no_input ex_exp ex_curve_fit ex_ax_hist ex_arctan2 ex_sin ex_cos
           ex_contains_points ex_hypot ex_geodetic ex_next_rising ex_next_setting 5
           (ex_call None None "all" "i" 0 0 None false) ex_world eq_refl).
Defined.

Lemma phazer_unknown_pol_witness :
  String.eqb "parallel" "i" = false /\
  String.eqb "parallel" "q" = false /\
  fails (ex_phazer 5 (ex_call (Some (inl "in.ms")) None "all" "parallel" 0 0 None false)) /\
  quiet (ex_phazer 5 (ex_call (Some (inl "in.ms")) None "all" "parallel" 0 0 None false)).
Proof.
  split; [reflexivity|]. split; [reflexivity|].
  exact (phazer_unknown_pol ex_exp ex_curve_fit ex_ax_hist ex_arctan2 ex_sin ex_cos
           ex_contains_points ex_hypot ex_geodetic ex_next_rising ex_next_setting 5
           (ex_call (Some (inl "in.ms")) None "all" "parallel" 0 0 None false)
           eq_refl eq_refl).
Defined.

Lemma phazer_outset_mismatch_witness :
  a_inset (ex_call (Some (inr ["in.ms"])) (Some (inr ["a.ms"; "b.ms"])) "all" "i" 0 0
                   None false) = Some (inr ["in.ms"]) /\
  a_outset (ex_call (Some (inr ["in.ms"])) (Some (inr ["a.ms"; "b.ms"])) "all" "i" 0 0
                    None false) = Some (inr ["a.ms"; "b.ms"]) /\
  List.length (as_list (inr ["a.ms"; "b.ms"])) <> List.length (as_list (inr ["in.ms"])) /\
  fails (ex_phazer 5 (ex_call (Some (inr ["in.ms"])) (Some (inr ["a.ms"; "b.ms"]))
                              "all" "i" 0 0 None false)) /\
  quiet (ex_phazer 5 (ex_call (Some (inr ["in.ms"])) (Some (inr ["a.ms"; "b.ms"]))
                              "all" "i" 0 0 None false)).
Proof.
  assert (H3 : List.length (as_list (inr ["a.ms"; "b.ms"]))
               <> List.length (as_list (inr ["in.ms"]))) by discriminate.
  split; [reflexivity|]. split; [reflexivity|]. split; [exact H3|].
  exact (phazer_outset_mismatch ex_exp ex_curve_fit ex_ax_hist ex_arctan2 ex_sin ex_cos
           ex_contains_points ex_hypot ex_geodetic ex_next_rising ex_next_setting 5
           (ex_call (Some (inr ["in.ms"])) (Some (inr ["a.ms"; "b.ms"])) "all" "i" 0 0
                    None false)
           (inr ["in.ms"]) (inr ["a.ms"; "b.ms"]) eq_refl eq_refl H3).
Defined.

Lemma phazer_only_adds_flags_witness :
  tables ex_world !! "in.ms" = Some ex_ms /\
  exists t',
    tables (snd (ex_phazer 5 (ex_args "in.ms" false) ex_world)) !! "in.ms" = Some t' /\
    flagged_more ex_ms t'.
Proof.
  assert (H : tables ex_world !! "in.ms" = Some ex_ms) by (vm_compute; reflexivity).
  split; [exact H|].
  exact (phazer_only_adds_flags ex_exp ex_curve_fit ex_ax_hist ex_arctan2 ex_sin ex_cos
           ex_contains_points ex_hypot ex_geodetic ex_next_rising ex_next_setting 5
           (ex_args "in.ms" false) ex_world "in.ms" ex_ms H).
Defined.

Lemma sun_flags_windows_witness :
  observer_of ex_geodetic ex_ms None None None 0 = Ok (mkObserver 0 0 0 0) /\
  observation_span ex_ms = Ok (ex_etimes, 0.375, 1.375) /\
  first_rising ex_next_rising ex_next_setting (mkObserver 0 0 0 0) 0.375 = Ok 0.375 /\
  walked ex_next_rising ex_next_setting (mkObserver 0 0 0 0) ex_margins_wide 1.375 0.375
         ex_periods /\
  (List.length ex_periods <= 5)%nat /\
  exists flags,
    sun_flags ex_geodetic ex_next_rising ex_next_setting 5 ex_ms None None None
              ex_margins_wide 0 false true = Ok flags /\
    List.length flags = List.length ex_etimes /\
    forall i tm, nth_error ex_etimes i = Some tm ->
      nth i flags false
      = xorb true
             (existsb (fun p : float * float =>
                         in_window (fst p - avantsoleil ex_margins_wide)
                                   (fst p + apresnuit ex_margins_wide) tm
                         || in_window (snd p - avantnuit ex_margins_wide)
                                      (snd p + apresoleil ex_margins_wide) tm)
                      ex_periods).
Proof.
  assert (H1 : observer_of ex_geodetic ex_ms None None None 0 = Ok (mkObserver 0 0 0 0))
    by (vm_compute; reflexivity).
  assert (H2 : observation_span ex_ms = Ok (ex_etimes, 0.375, 1.375))
    by (vm_compute; reflexivity).
  assert (H3 : first_rising ex_next_rising ex_next_setting (mkObserver 0 0 0 0) 0.375
               = Ok 0.375) by (vm_compute; reflexivity).
  assert (H4 : walked ex_next_rising ex_next_setting (mkObserver 0 0 0 0)
                      ex_margins_wide 1.375 0.375 ex_periods).
  { apply (daylight_periods_walked ex_next_rising ex_next_setting 5).
    vm_compute. reflexivity. }
  assert (H5 : (List.length ex_periods <= 5)%nat) by (simpl; lia).
  split; [exact H1|]. split; [exact H2|]. split; [exact H3|]. split; [exact H4|].
  split; [exact H5|].
  exact (sun_flags_windows ex_geodetic ex_next_rising ex_next_setting 5 ex_ms
           None None None ex_margins_wide 0 false true (mkObserver 0 0 0 0) ex_etimes
           0.375 1.375 0.375 ex_periods H1 H2 H3 H4 H5).
Defined.

Lemma vampirisms_unknown_unit_witness :
  tables ex_world_feet !! "feet.ms" = Some ex_ms_feet /\
  In "ft" (POSITION_UNITS ex_ms_feet) /\
  String.eqb "ft" "m" = false /\
  vampirisms ex_geodetic ex_next_rising ex_next_setting 5 (inl "feet.ms")
             None None None false ex_margins 0 true false ex_world_feet
  = (Raise TypeError,
     mkWorld (tables ex_world_feet) (journal ex_world_feet ++ [EvOpen "feet.ms" false])).
Proof.
  assert (H1 : tables ex_world_feet !! "feet.ms" = Some ex_ms_feet)
    by (vm_compute; reflexivity).
  assert (H2 : In "ft" (POSITION_UNITS ex_ms_feet)) by (right; left; reflexivity).
  split; [exact H1|]. split; [exact H2|]. split; [reflexivity|].
  exact (vampirisms_unknown_unit ex_geodetic ex_next_rising ex_next_setting 5 "feet.ms"
           None None None false ex_margins 0 true false ex_world_feet ex_ms_feet "ft"
           H1 H2 eq_refl).
Defined.

Lemma vampirisms_real_run_witness :
  tables ex_world !! "in.ms" = Some ex_ms /\
  sun_flags ex_geodetic ex_next_rising ex_next_setting 5 ex_ms None None None
            ex_margins 0 true false = Ok [true; true; false; true] /\
  List.length [true; true; false; true] = List.length (FLAG ex_ms) /\
  exists oflags,
    vampirisms ex_geodetic ex_next_rising ex_next_setting 5 (inl "in.ms")
               None None None false ex_margins 0 true false ex_world
    = (Ok [true; true; false; true],
       mkWorld (<["in.ms" := mkTable (vis_columns ex_ms) oflags (UVW ex_ms) (FIELD ex_ms)
                               (ANTENNA1 ex_ms) (ANTENNA2 ex_ms) (TIME ex_ms)
                               (INTERVAL ex_ms) (CHAN_FREQ ex_ms) (ANTENNA_NAME ex_ms)
                               (ANTENNA_POSITION ex_ms) (POSITION_UNITS ex_ms)]>
                  (tables ex_world))
               (journal ex_world ++ [EvOpen "in.ms" false; EvPutFlag "in.ms"])) /\
    List.length oflags = List.length (FLAG ex_ms) /\
    forall (r : nat) (row : list (list bool)),
      nth_error (FLAG ex_ms) r = Some row ->
      nth_error oflags r
      = Some (if nth r [true; true; false; true] false
              then map (map (fun _ => true)) row else row).
Proof.
  assert (H1 : tables ex_world !! "in.ms" = Some ex_ms) by (vm_compute; reflexivity).
  assert (H2 : sun_flags ex_geodetic ex_next_rising ex_next_setting 5 ex_ms
                         None None None ex_margins 0 true false
               = Ok [true; true; false; true]) by (vm_compute; reflexivity).
  split; [exact H1|]. split; [exact H2|]. split; [reflexivity|].
  exact (vampirisms_real_run ex_geodetic ex_next_rising ex_next_setting 5 "in.ms"
           None None None ex_margins 0 true false ex_world ex_ms
           [true; true; false; true] H1 H2 eq_refl).
Defined.

Lemma vampirisms_dryrun_same_flags_witness :
  fst (vampirisms ex_geodetic ex_next_rising ex_next_setting 5 (inl "in.ms")
                  None None None false ex_margins 0 true false ex_world)
  = Ok [true; true; false; true] /\
  fst (vampirisms ex_geodetic ex_next_rising ex_next_setting 5 (inl "in.ms")
                  None None None true ex_margins 0 true false ex_world)
  = Ok [true; true; false; true].
Proof.
  assert (H : fst (vampirisms ex_geodetic ex_next_rising ex_next_setting 5
                              (inl "in.ms") None None None false ex_margins 0 true
                              false ex_world)
              = Ok [true; true; false; true]) by (vm_compute; reflexivity).
  split; [exact H|].
  exact (vampirisms_dryrun_same_flags ex_geodetic ex_next_rising ex_next_setting 5
           (inl "in.ms") None None None ex_margins 0 true false ex_world
           [true; true; false; true] H).
Defined.

Lemma flag_pass_spares_night_witness :
  flag_pass ex_exp ex_curve_fit ex_ax_hist ex_arctan2 ex_sin ex_cos ex_contains_points ex_hypot
            ex_call_day ex_vis_cross (Some [false; false; false; true])
            (mkLocals None None None)
  = Ok [false; false; true; false] /\
  a_flagonlyday ex_call_day = true /\
  a_mode ex_call_day = "all" /\
  exists d, Some [false; false; false; true] = Some d /\
    forall i, nth i d false = true -> nth i [false; false; true; false] false = false.
Proof.
  assert (H : flag_pass ex_exp ex_curve_fit ex_ax_hist ex_arctan2 ex_sin ex_cos
                        ex_contains_points ex_hypot ex_call_day ex_vis_cross
                        (Some [false; false; false; true]) (mkLocals None None None)
              = Ok [false; false; true; false]) by (vm_compute; reflexivity).
  split; [exact H|]. split; [reflexivity|]. split; [reflexivity|].
  exact (flag_pass_spares_night ex_exp ex_curve_fit ex_ax_hist ex_arctan2 ex_sin ex_cos
           ex_contains_points ex_hypot ex_call_day ex_vis_cross
           (Some [false; false; false; true]) (mkLocals None None None)
           [false; false; true; false] H eq_refl eq_refl).
Defined.

Lemma read_set_blanks_night_witness :
  fst (read_set ex_geodetic ex_next_rising ex_next_setting 5 ex_call_night "night.ms"
                None ex_world_night)
  = Ok (mkVis [[(1, 0); (1, 0)]; [Cx.nan; Cx.nan]] [[false; false]; [true; true]]
              [(150.5, 50.5); (-119.5, 80.5)] [0; 1]%Z [1; 2]%Z
              ["m000"; "m001"; "m002"],
        Some [false; true]) /\
  a_vampirisms ex_call_night = true /\
  exists (tab : Table) (d : list bool),
    tables ex_world_night !! "night.ms" = Some tab /\
    sun_flags ex_geodetic ex_next_rising ex_next_setting 5 tab None None None
              (a_margins ex_call_night) (a_horizon ex_call_night)
              (a_nononsoleil ex_call_night) true = Ok d /\
    Some [false; true] = Some d /\
    List.length [[false; false]; [true; true]] = List.length d /\
    forall r, nth_error d r = Some true ->
      (exists frow, nth_error [[false; false]; [true; true]] r = Some frow /\
                    Forall (fun b => b = true) frow) /\
      (forall drow, nth_error [[(1, 0); (1, 0)]; [Cx.nan; Cx.nan]] r = Some drow ->
                    Forall (fun z => z = Cx.nan) drow).
Proof.
  assert (H : fst (read_set ex_geodetic ex_next_rising ex_next_setting 5 ex_call_night
                            "night.ms" None ex_world_night)
              = Ok (mkVis [[(1, 0); (1, 0)]; [Cx.nan; Cx.nan]]
                          [[false; false]; [true; true]]
                          [(150.5, 50.5); (-119.5, 80.5)] [0; 1]%Z [1; 2]%Z
                          ["m000"; "m001"; "m002"],
                    Some [false; true])) by (vm_compute; reflexivity).
  split; [exact H|]. split; [reflexivity|].
  exact (read_set_blanks_night ex_geodetic ex_next_rising ex_next_setting 5
           ex_call_night "night.ms" None ex_world_night _ _ H eq_refl).
Defined.

Lemma apply_one_writes_witness :
  Py.index ["in.ms"; "cross.ms"] (Z.of_nat 1) = Ok "cross.ms" /\
  tables ex_world !! "cross.ms" = Some ex_ms_cross /\
  Py.index [0; 4; 6]%nat (Z.of_nat 1) = Ok 4%nat /\
  Py.index [0; 4; 6]%nat (Z.of_nat 2) = Ok 6%nat /\
  List.length (slice [false; true; false; false; false; true] 4 6)
  = List.length (FLAG ex_ms_cross) /\
  exists oflags,
    apply_one false ["in.ms"; "cross.ms"] ["in.ms"; "cross.ms"] [0; 4; 6]%nat
              [false; true; false; false; false; true] 1 ex_world
    = (Ok tt,
       mkWorld (<["cross.ms" := mkTable (vis_columns ex_ms_cross) oflags
                                  (UVW ex_ms_cross) (FIELD ex_ms_cross)
                                  (ANTENNA1 ex_ms_cross) (ANTENNA2 ex_ms_cross)
                                  (TIME ex_ms_cross) (INTERVAL ex_ms_cross)
                                  (CHAN_FREQ ex_ms_cross) (ANTENNA_NAME ex_ms_cross)
                                  (ANTENNA_POSITION ex_ms_cross)
                                  (POSITION_UNITS ex_ms_cross)]> (tables ex_world))
               (journal ex_world ++ [EvOpen "cross.ms" false; EvPutFlag "cross.ms"])) /\
    List.length oflags = List.length (FLAG ex_ms_cross) /\
    forall (r : nat) (row : list (list bool)),
      nth_error (FLAG ex_ms_cross) r = Some row ->
      nth_error oflags r
      = Some (if nth (4 + r) [false; true; false; false; false; true] false
              then map (map (fun _ => true)) row else row).
Proof.
  assert (H2 : tables ex_world !! "cross.ms" = Some ex_ms_cross)
    by (vm_compute; reflexivity).
  split; [reflexivity|]. split; [exact H2|]. split; [reflexivity|].
  split; [reflexivity|]. split; [reflexivity|].
  exact (apply_one_writes ["in.ms"; "cross.ms"] ["in.ms"; "cross.ms"] [0; 4; 6]%nat
           [false; true; false; false; false; true] 1 ex_world "cross.ms" ex_ms_cross
           4 6 eq_refl H2 eq_refl eq_refl eq_refl).
Defined.
